(** * 42-mcp-server: the manual JSON-RPC dispatcher and the OAuth token cache

    A shallow embedding of [src/index.ts] (the full 13-tool revision of
    [SimpleHttpMcpTransport.handleRequest], with [getAccessToken] and
    [apiRequest]) and the properties of the dispatcher and of the token
    cache that the specification states.  The development then covers
    the HTTP endpoint, the tools and resources registered with the SDK,
    the first (4-tool) revision of the transport, and the fetching and
    grouping part of [create-campus-list.ts].

    Conventions of the embedding:
    - a JavaScript string is its list of UTF-16 code units;
    - a JavaScript value is a JSON-shaped tree ([JsVal]); numbers are
      restricted to integers (ids, sizes, counts), computed numbers live
      in [Number], which adds [NaN] and the two infinities;
    - an [async] function is a function from the process state to an
      outcome (a value or a thrown exception) and a new state; the state
      holds the clock, the token cache, the trace of outbound HTTP calls
      and what was written to the console; requests are handled one after
      the other, and every outbound call is answered or fails;
    - the upstream (the OAuth endpoint and the REST API) is an arbitrary
      function of the calls made so far, of the time and of the current
      call;
    - node-cache is embedded for the one key the program uses, after the
      library's [set]/[_wrap] and [get]/[_check];
    - [ToString] and [decimal] render a value as JavaScript does on the
      values that are [printable]: numbers that are safe integers, and no
      object with a member [toString] of its own (converting such an
      object throws); where the text of a converted request value is
      stated, it is stated for such values;
    - zod is embedded for the three kinds of field the registered
      schemas use (required, optional, with a default), after the
      library's object parser;
    - [JSON.stringify(_, null, 2)] and the conversion of a string to a
      number are parameters of the development. *)

From Stdlib Require Import ZArith NArith List String Ascii Bool Lia DecimalString.
Import ListNotations.

Set Implicit Arguments.
Open Scope string_scope.
Open Scope list_scope.
Open Scope Z_scope.

(* ------------------------------------------------------------------------- *)
(** ** Strings *)

Definition jsstring := list N.

Definition lit (s : string) : jsstring :=
  map N_of_ascii (list_ascii_of_string s).

Fixpoint str_eqb (a b : jsstring) : bool :=
  match a, b with
  | [], [] => true
  | x :: a', y :: b' => N.eqb x y && str_eqb a' b'
  | _, _ => false
  end.

(** [Array.prototype.join] on an array of strings. *)
Fixpoint join (sep : jsstring) (l : list jsstring) : jsstring :=
  match l with
  | [] => []
  | [x] => x
  | x :: rest => x ++ sep ++ join sep rest
  end.

(** Decimal rendering of an integer, as [Number.prototype.toString]
    prints it. *)
Definition decimal (z : Z) : jsstring :=
  lit (NilZero.string_of_int (Z.to_int z)).

(* ------------------------------------------------------------------------- *)
(** ** Exceptions and outcomes *)

Inductive Exn :=
| TypeError
| URIError
| SyntaxError
| FetchError
| Error (message : jsstring).

Inductive Res (A : Type) :=
| Ok (a : A)
| Throw (e : Exn).
Arguments Ok {A} a.
Arguments Throw {A} e.

Definition res_bind {A B} (r : Res A) (k : A -> Res B) : Res B :=
  match r with
  | Ok a => k a
  | Throw e => Throw e
  end.

Declare Scope res_scope.
Delimit Scope res_scope with res.
Notation "'let?' x ':=' r 'in' k" := (res_bind r (fun x => k))
  (at level 10, x name, r at level 100, k at level 200) : res_scope.

(* ------------------------------------------------------------------------- *)
(** ** [encodeURIComponent] (ECMA-262, Encode with the unreserved set) *)

Definition in_range (lo hi c : N) : bool := (N.leb lo c && N.leb c hi)%N.

Definition uriUnescaped (c : N) : bool :=
  in_range 65 90 c || in_range 97 122 c || in_range 48 57 c
  || existsb (N.eqb c) [45; 95; 46; 33; 126; 42; 39; 40; 41]%N.

Definition hex_digit (n : N) : N :=
  (if n <? 10 then 48 + n else 55 + n)%N.

Definition percent (octet : N) : jsstring :=
  [37%N; hex_digit (octet / 16); hex_digit (octet mod 16)].

Definition utf8 (cp : N) : list N :=
  (if cp <? 128 then [cp]
   else if cp <? 2048 then [192 + cp / 64; 128 + cp mod 64]
   else if cp <? 65536 then
     [224 + cp / 4096; 128 + (cp / 64) mod 64; 128 + cp mod 64]
   else
     [240 + cp / 262144; 128 + (cp / 4096) mod 64;
      128 + (cp / 64) mod 64; 128 + cp mod 64])%N.

Definition escape (cp : N) : jsstring := flat_map percent (utf8 cp).

Definition is_leading (c : N) : bool := in_range 55296 56319 c.
Definition is_trailing (c : N) : bool := in_range 56320 57343 c.

Definition surrogate_pair (hi lo : N) : N :=
  ((hi - 55296) * 1024 + (lo - 56320) + 65536)%N.

Fixpoint Encode (s : jsstring) : Res jsstring :=
  match s with
  | [] => Ok []
  | c :: rest =>
    if uriUnescaped c then
      (let? r := Encode rest in Ok (c :: r))%res
    else if is_trailing c then Throw URIError
    else if is_leading c then
      match rest with
      | [] => Throw URIError
      | d :: rest' =>
        if is_trailing d then
          (let? r := Encode rest' in Ok (escape (surrogate_pair c d) ++ r))%res
        else Throw URIError
      end
    else (let? r := Encode rest in Ok (escape c ++ r))%res
  end.

(* ------------------------------------------------------------------------- *)
(** ** Values *)

(** The values a request body, an upstream document or a property read can
    hold.  [JFun] stands for a built-in method found on a prototype; it is
    never part of a JSON document and only arises from reading [sort] or
    [filter] on an array. *)
#[warnings="-register-all"]
Inductive JsVal :=
| JUndefined
| JNull
| JBool (b : bool)
| JNum (n : Z)
| JStr (s : jsstring)
| JArr (items : list JsVal)
| JObj (fields : list (jsstring * JsVal))
| JFun (name : jsstring).

Definition jstr (s : string) : JsVal := JStr (lit s).

(** An object literal: keys in source order. *)
Definition obj (l : list (string * JsVal)) : JsVal :=
  JObj (map (fun kv => (lit (fst kv), snd kv)) l).

Fixpoint lookup (k : jsstring) (fs : list (jsstring * JsVal)) : JsVal :=
  match fs with
  | [] => JUndefined
  | (k', v) :: rest => if str_eqb k k' then v else lookup k rest
  end.

Definition has_key (k : jsstring) (fs : list (jsstring * JsVal)) : bool :=
  existsb (fun kv => str_eqb k (fst kv)) fs.

(** ToBoolean. *)
Definition truthy (v : JsVal) : bool :=
  match v with
  | JUndefined | JNull => false
  | JBool b => b
  | JNum n => negb (n =? 0)
  | JStr s => match s with [] => false | _ => true end
  | JArr _ | JObj _ | JFun _ => true
  end.

(** [a || b]. *)
Definition js_or (a b : JsVal) : JsVal := if truthy a then a else b.

(** [v === 'k'] for a string literal [k]. *)
Definition is_str (v : JsVal) (k : string) : bool :=
  match v with
  | JStr s => str_eqb s (lit k)
  | _ => false
  end.

(** [v !== false]. *)
Definition is_not_false (v : JsVal) : bool :=
  match v with
  | JBool false => false
  | _ => true
  end.

(** ToString, as a template literal or [encodeURIComponent] applies it. *)
Fixpoint ToString (v : JsVal) : jsstring :=
  match v with
  | JUndefined => lit "undefined"
  | JNull => lit "null"
  | JBool true => lit "true"
  | JBool false => lit "false"
  | JNum n => decimal n
  | JStr s => s
  | JArr items =>
    join (lit ",")
      (map (fun x => match x with
                     | JUndefined | JNull => []
                     | _ => ToString x
                     end) items)
  | JObj _ => lit "[object Object]"
  | JFun name => lit "function " ++ name ++ lit "() { [native code] }"
  end.

(** Property read [v.k] for the property names the program uses.  Reading a
    property of [undefined] or [null] throws; an array has its [length] and
    inherits [sort] and [filter]; a string has its [length]. *)
Definition get (v : JsVal) (k : string) : Res JsVal :=
  match v with
  | JUndefined | JNull => Throw TypeError
  | JObj fs => Ok (lookup (lit k) fs)
  | JArr items =>
    Ok (if String.eqb k "length" then JNum (Z.of_nat (List.length items))
        else if String.eqb k "sort" || String.eqb k "filter" then JFun (lit k)
        else JUndefined)
  | JStr s =>
    Ok (if String.eqb k "length" then JNum (Z.of_nat (List.length s)) else JUndefined)
  | JFun name =>
    Ok (if String.eqb k "name" then JStr name
        else if String.eqb k "length" then JNum 1
        else JUndefined)
  | JBool _ | JNum _ => Ok JUndefined
  end.

(** Element read [v[0]]. *)
Definition get0 (v : JsVal) : Res JsVal :=
  match v with
  | JUndefined | JNull => Throw TypeError
  | JArr items => Ok (nth 0 items JUndefined)
  | JStr s => Ok (match s with [] => JUndefined | c :: _ => JStr [c] end)
  | JObj fs => Ok (lookup (lit "0") fs)
  | JBool _ | JNum _ | JFun _ => Ok JUndefined
  end.

Definition encodeURIComponent (v : JsVal) : Res jsstring := Encode (ToString v).

(** [undefined] or [null]: the two values whose properties cannot be read. *)
Definition nullish (x : JsVal) : bool :=
  match x with
  | JUndefined | JNull => true
  | _ => false
  end.

Definition is_number (x : JsVal) : bool :=
  match x with JNum _ => true | _ => false end.

Definition is_string (x : JsVal) : bool :=
  match x with JStr _ => true | _ => false end.

Definition is_object (x : JsVal) : bool :=
  match x with JObj _ => true | _ => false end.

Definition is_function (x : JsVal) : bool :=
  match x with JFun _ => true | _ => false end.

(** The member [k] of an object, [undefined] when there is none. *)
Definition member (k : string) (x : JsVal) : JsVal :=
  match x with
  | JObj fs => lookup (lit k) fs
  | _ => JUndefined
  end.

Definition has_member (k : string) (x : JsVal) : bool :=
  match x with
  | JObj fs => has_key (lit k) fs
  | _ => false
  end.

(** Computed numbers. *)
Inductive Number :=
| Fin (z : Z)
| NaN
| PosInf
| NegInf.

(** [Math.min(a, 100)]. *)
Definition Math_min_100 (a : Number) : Number :=
  match a with
  | Fin z => Fin (Z.min z 100)
  | NaN => NaN
  | PosInf => Fin 100
  | NegInf => NegInf
  end.

Definition NumberToString (a : Number) : jsstring :=
  match a with
  | Fin z => decimal z
  | NaN => lit "NaN"
  | PosInf => lit "Infinity"
  | NegInf => lit "-Infinity"
  end.

(** [a - 60]. *)
Definition minus_60 (a : Number) : Number :=
  match a with
  | Fin z => Fin (z - 60)
  | other => other
  end.

(* ------------------------------------------------------------------------- *)
(** ** The process state and the upstream *)

(** An outbound HTTP call made through [fetch]: the token exchange posts a
    JSON body (kept here as the object handed to [JSON.stringify]), an API
    request is a GET with an [Authorization] header. *)
Inductive Call :=
| POST (url : jsstring) (body : JsVal)
| GET (url : jsstring) (authorization : jsstring).

(** What [fetch] resolves to: [json] is the parsed body, [None] when the
    body is not JSON (then [res.json()] rejects). *)
Record HttpResponse := {
  status : Z;
  text : jsstring;
  json : option JsVal
}.

(** The answer of the upstream to one call: the time it took in
    milliseconds and the response, [None] when [fetch] itself rejects. *)
Record Reply := {
  latency : Z;
  response : option HttpResponse
}.

(** The wrapper node-cache keeps per key: [t] is the time of death in
    milliseconds, 0 for a key that never expires. *)
Record Entry := {
  t : Number;
  v : JsVal
}.

Record State := {
  now : Z;                       (* Date.now() *)
  tokenCache : option Entry;     (* tokenCache.data['access_token'] *)
  trace : list Call;             (* outbound calls so far, oldest first *)
  console : list Exn             (* console.error *)
}.

Definition M (A : Type) : Type := State -> Res A * State.

Definition ret {A} (a : A) : M A := fun s => (Ok a, s).

Definition throw {A} (e : Exn) : M A := fun s => (Throw e, s).

Definition lift {A} (r : Res A) : M A := fun s => (r, s).

Definition bind {A B} (m : M A) (k : A -> M B) : M B :=
  fun s =>
    match m s with
    | (Ok a, s') => k a s'
    | (Throw e, s') => (Throw e, s')
    end.

(** [try { m } catch (error) { h error }]. *)
Definition try_catch {A} (m : M A) (h : Exn -> M A) : M A :=
  fun s =>
    match m s with
    | (Ok a, s') => (Ok a, s')
    | (Throw e, s') => h e s'
    end.

Declare Scope m_scope.
Delimit Scope m_scope with m.
Notation "x <- m ;; k" := (bind m (fun x => k))
  (at level 61, m at next level, right associativity) : m_scope.
Notation "m ;;; k" := (bind m (fun _ => k))
  (at level 61, right associativity) : m_scope.
Open Scope m_scope.

(** The state after [console.error(e)]. *)
Definition logged (e : Exn) (s : State) : State :=
  {| now := now s; tokenCache := tokenCache s;
     trace := trace s; console := console s ++ [e] |}.

(** [console.error('Error processing request:', e)]. *)
Definition console_error (e : Exn) : M unit :=
  fun s => (Ok tt, logged e s).

Definition API_BASE : jsstring := lit "https://api.intra.42.fr".

(** [res.ok]. *)
Definition ok (res : HttpResponse) : bool :=
  (200 <=? status res) && (status res <=? 299).

(** [await res.json()]. *)
Definition res_json (res : HttpResponse) : M JsVal :=
  match json res with
  | Some j => ret j
  | None => throw SyntaxError
  end.

(** *** node-cache, for the single key ['access_token']

    [new NodeCache({ stdTTL: 60 * 50 })], with the library's defaults
    otherwise ([deleteOnExpire]). *)

Definition stdTTL : Z := 60 * 50.

(** [_wrap]: a ttl of 0 means no expiry, another number is a lifetime in
    seconds from now, anything else ([NaN]) falls back to [stdTTL]. *)
Definition livetime (now : Z) (ttl : Number) : Number :=
  match ttl with
  | Fin 0 => Fin 0
  | Fin z => Fin (now + z * 1000)
  | NaN => Fin (now + stdTTL * 1000)
  | PosInf => PosInf
  | NegInf => NegInf
  end.

(** [_check]: [data.t !== 0 && data.t < Date.now()]. *)
Definition expired (t : Number) (now : Z) : bool :=
  match t with
  | Fin z => negb (z =? 0) && (z <? now)
  | NaN => false
  | PosInf => false
  | NegInf => true
  end.

(** [tokenCache.get('access_token')]: an expired entry is deleted and reads
    as [undefined]. *)
Definition tokenCache_get : M JsVal :=
  fun s =>
    match tokenCache s with
    | Some e =>
      if expired (t e) (now s)
      then (Ok JUndefined, {| now := now s; tokenCache := None;
                              trace := trace s; console := console s |})
      else (Ok (v e), s)
    | None => (Ok JUndefined, s)
    end.

(** [tokenCache.set('access_token', value, ttl)]. *)
Definition tokenCache_set (value : JsVal) (ttl : Number) : M unit :=
  fun s =>
    (Ok tt, {| now := now s;
               tokenCache := Some {| t := livetime (now s) ttl; v := value |};
               trace := trace s; console := console s |}).

(** What [tokenCache.get('access_token')] reads in a state, and the state
    it leaves (an expired entry is gone). *)
Definition cached (s : State) : JsVal :=
  match tokenCache s with
  | Some e => if expired (t e) (now s) then JUndefined else v e
  | None => JUndefined
  end.

Definition after_read (s : State) : State := snd (tokenCache_get s).

(** *** Observing a run *)

(** The state at a later (or earlier) reading of the clock. *)
Definition at_time (time : Z) (s : State) : State :=
  {| now := time; tokenCache := tokenCache s;
     trace := trace s; console := console s |}.

Definition is_GET (c : Call) : bool :=
  match c with GET _ _ => true | POST _ _ => false end.

(** The calls made between two states. *)
Definition new_calls (s s' : State) : list Call :=
  skipn (List.length (trace s)) (trace s').

(** [returns P m]: whatever [m] returns satisfies [P]. *)
Definition returns {A} (P : A -> Prop) (m : M A) : Prop :=
  forall s a s', m s = (Ok a, s') -> P a.

(* ------------------------------------------------------------------------- *)
(** ** What the specification expects of a response *)


(** The id the specification expects on a response: the id of the request,
    or [null] when the request has none or has one that is neither a
    string, a number nor [null]. *)
Definition spec_response_id (request_id : JsVal) : JsVal :=
  match request_id with
  | JStr _ | JNum _ => request_id
  | _ => JNull
  end.

(** The [case] labels of [switch (name)]. *)
Definition tool_names : list string :=
  ["searchUsers"; "getCursusLevel"; "getUserProjects"; "getCoalition";
   "getCampusUsers"; "getBalances"; "getClusters"; "getLocations";
   "getAttachments"; "getAttachment"; "getProjects"; "getProject";
   "getMyProjects"].

Definition is_tool (name : JsVal) : bool := existsb (is_str name) tool_names.

(** The [case] labels of [switch (method)]. *)
Definition method_names : list string :=
  ["initialize"; "tools/list"; "tools/call"; "resources/list"].

Definition is_method (method : JsVal) : bool := existsb (is_str method) method_names.

(* ------------------------------------------------------------------------- *)
(** ** The schemas given to [server.registerTool] *)

Inductive ZodType :=
| z_string (min max : option Z)
| z_number
| z_boolean.

Inductive Presence :=
| Required
| Optional
| Default (value : JsVal).

Record ZodField := zod {
  zod_type : ZodType;
  presence : Presence;
  describe : jsstring
}.

(** The [inputSchema] of every [server.registerTool] call, in source order. *)
Definition inputSchemas : list (string * list (string * ZodField)) :=
  [
    ("searchUsers",
     [
      ("query", zod (z_string (Some 2) (Some 30)) Required
         (lit "Search query for user login")) ]);
    ("getCursusLevel",
     [
      ("userId", zod z_number Required
         (lit "42 user ID"));
      ("cursusId", zod z_number (Default (JNum 21))
         (lit "Cursus ID (default: 21 for 42cursus)")) ]);
    ("getUserProjects",
     [
      ("userId", zod z_number Required
         (lit "42 user ID"));
      ("cursusId", zod z_number Optional
         (lit "Filter by cursus ID (optional)")) ]);
    ("getCoalition",
     [
      ("userId", zod z_number Required
         (lit "42 user ID")) ]);
    ("getCampusUsers",
     [
      ("campusId", zod z_number Optional
         (lit "Campus ID"));
      ("userId", zod z_number Optional
         (lit "User ID")) ]);
    ("getBalances",
     [
      ("poolId", zod z_number Optional
         (lit "Pool ID")) ]);
    ("getClusters",
     [
      ("campusId", zod z_number Optional
         (lit "Campus ID"));
      ("name", zod (z_string None None) Optional
         (lit "Substring of cluster name"));
      ("pageSize", zod z_number (Default (JNum 30))
         (lit "Page size (default 30)")) ]);
    ("getLocations",
     [
      ("campusId", zod z_number Optional
         (lit "Campus ID"));
      ("active", zod z_boolean (Default (JBool true))
         (lit "Filter for active (currently sitting) users only"));
      ("host", zod (z_string None None) Optional
         (lit "Specific host/computer name"));
      ("pageSize", zod z_number (Default (JNum 100))
         (lit "Page size (default 100)")) ]);
    ("getAttachments",
     [
      ("projectId", zod z_number Optional
         (lit "Project ID to filter attachments"));
      ("projectSessionId", zod z_number Optional
         (lit "Project session ID to filter attachments"));
      ("pageSize", zod z_number (Default (JNum 30))
         (lit "Page size (default 30, max 100)"));
      ("sort", zod (z_string None None) Optional
         (lit "Sort field (id, created_at, updated_at, etc.)")) ]);
    ("getAttachment",
     [
      ("attachmentId", zod z_number Required
         (lit "Attachment ID"));
      ("projectSessionId", zod z_number Optional
         (lit "Project session ID (if accessing via project session)")) ]);
    ("getProjects",
     [
      ("cursusId", zod z_number Optional
         (lit "Cursus ID to filter projects"));
      ("projectId", zod z_number Optional
         (lit "Parent project ID to filter child projects"));
      ("pageSize", zod z_number (Default (JNum 30))
         (lit "Page size (default 30, max 100)"));
      ("sort", zod (z_string None None) Optional
         (lit "Sort field (id, name, created_at, position, etc.)"));
      ("filter", zod (z_string None None) Optional
         (lit "Filter field and value (e.g., " ++ [34%N] ++ lit "exam" ++ [34%N] ++ lit " for exam projects)")) ]);
    ("getProject",
     [
      ("projectId", zod z_number Required
         (lit "Project ID")) ]);
    ("getMyProjects",
     [
      ("cursusId", zod z_number Optional
         (lit "Cursus ID to filter projects"));
      ("pageSize", zod z_number (Default (JNum 30))
         (lit "Page size (default 30, max 100)"));
      ("sort", zod (z_string None None) Optional
         (lit "Sort field (id, name, created_at, position, etc.)")) ]);
    ("getAccreditations",
     [
      ("userId", zod z_number Optional
         (lit "Filter by user ID"));
      ("cursusId", zod z_number Optional
         (lit "Filter by cursus ID"));
      ("validated", zod z_boolean Optional
         (lit "Filter by validation status"));
      ("pageSize", zod z_number (Default (JNum 30))
         (lit "Page size (default 30, max 100)"));
      ("sort", zod (z_string None None) Optional
         (lit "Sort field (id, name, user_id, cursus_id, difficulty, validated, created_at, updated_at)")) ]);
    ("getAccreditation",
     [
      ("accreditationId", zod z_number Required
         (lit "Accreditation ID")) ]) ].

(** The names passed to [server.registerTool]. *)
Definition registeredTools : list string := map fst inputSchemas.

(** The JSON-Schema rendering of a registered schema, in the layout of the
    descriptors of [tools/list]: [type], [description], the length bounds,
    the default; [required] lists the fields that are neither optional nor
    defaulted and is left out when there is none. *)
Definition json_type (ty : ZodType) : string :=
  match ty with
  | z_string _ _ => "string"
  | z_number => "number"
  | z_boolean => "boolean"
  end.

Definition bound (key : string) (b : option Z) : list (jsstring * JsVal) :=
  match b with
  | Some n => [(lit key, JNum n)]
  | None => []
  end.

Definition property_descriptor (f : ZodField) : JsVal :=
  JObj ([(lit "type", jstr (json_type (zod_type f)));
         (lit "description", JStr (describe f))]
        ++ match zod_type f with
           | z_string lo hi => bound "minLength" lo ++ bound "maxLength" hi
           | _ => []
           end
        ++ match presence f with
           | Default d => [(lit "default", d)]
           | _ => []
           end).

Definition is_required (f : string * ZodField) : bool :=
  match presence (snd f) with
  | Required => true
  | _ => false
  end.

Definition input_descriptor (fields : list (string * ZodField)) : JsVal :=
  JObj ([(lit "type", jstr "object");
         (lit "properties",
          JObj (map (fun f => (lit (fst f), property_descriptor (snd f))) fields))]
        ++ match filter is_required fields with
           | [] => []
           | required => [(lit "required", JArr (map (fun f => jstr (fst f)) required))]
           end).

(** The descriptor derived from the schema registered under [name]. *)
Definition registered_descriptor (name : string) : JsVal :=
  match find (fun entry => String.eqb name (fst entry)) inputSchemas with
  | Some entry => input_descriptor (snd entry)
  | None => JUndefined
  end.

(* ------------------------------------------------------------------------- *)
(** ** The advertised constraints, as the specification reads them

    A checker for the JSON-Schema members the descriptors of [tools/list]
    use: [type], [properties], [required], [minLength] and [maxLength]. *)

Definition has_type (type x : JsVal) : bool :=
  if is_str type "string" then is_string x
  else if is_str type "number" then is_number x
  else if is_str type "boolean" then match x with JBool _ => true | _ => false end
  else if is_str type "object" then is_object x
  else true.

Definition within_length (descriptor x : JsVal) : bool :=
  match x with
  | JStr s =>
    let n := Z.of_nat (List.length s) in
    match member "minLength" descriptor with JNum lo => lo <=? n | _ => true end
    && match member "maxLength" descriptor with JNum hi => n <=? hi | _ => true end
  | _ => true
  end.

Definition property_holds (args : JsVal) (p : jsstring * JsVal) : bool :=
  match args with
  | JObj fs =>
    match lookup (fst p) fs with
    | JUndefined => true
    | x => has_type (member "type" (snd p)) x && within_length (snd p) x
    end
  | _ => false
  end.

Definition required_present (args k : JsVal) : bool :=
  match args, k with
  | JObj fs, JStr k => has_key k fs
  | _, _ => false
  end.

Definition satisfies (inputSchema args : JsVal) : bool :=
  has_type (member "type" inputSchema) args
  && match member "properties" inputSchema with
     | JObj ps => forallb (property_holds args) ps
     | _ => true
     end
  && match member "required" inputSchema with
     | JArr ks => forallb (required_present args) ks
     | _ => true
     end.

(* ------------------------------------------------------------------------- *)
(** ** Concrete requests, states and upstreams *)

Definition request (jsonrpc : string) (method : string) (params id : JsVal) : JsVal :=
  obj [("jsonrpc", jstr jsonrpc); ("method", jstr method);
       ("params", params); ("id", id)].

Definition call_params (name : string) (arguments : JsVal) : JsVal :=
  obj [("name", jstr name); ("arguments", arguments)].

(** A fresh process: nothing cached, nothing sent. *)
Definition fresh : State :=
  {| now := 1700000000000; tokenCache := None; trace := []; console := [] |}.

Definition http (status : Z) (text : string) (json : option JsVal) : Reply :=
  {| latency := 120;
     response := Some {| status := status; text := lit text; json := json |} |}.

Definition token_document (expires_in : Z) : JsVal :=
  obj [("access_token", jstr "tok"); ("expires_in", JNum expires_in)].

(** An upstream that grants a token valid for [expires_in] seconds and
    answers every GET with [document]. *)
Definition granting (expires_in : Z) (document : JsVal)
    : list Call -> Z -> Call -> Reply :=
  fun _ _ c =>
    match c with
    | POST _ _ => http 200 "(token)" (Some (token_document expires_in))
    | GET _ _ => http 200 "(document)" (Some document)
    end.

(** An upstream whose OAuth endpoint answers 401. *)
Definition unauthorized : list Call -> Z -> Call -> Reply :=
  fun _ _ c =>
    match c with
    | POST _ _ => http 401 "invalid_client" None
    | GET _ _ => http 200 "[]" (Some (JArr []))
    end.

(** Scenario B of the specification. *)
Definition scenario_B : JsVal :=
  request "2.0" "tools/call"
    (call_params "searchUsers" (obj [("query", jstr "jd")])) (JNum 2).

(** Stand-ins for the two abstract built-ins in closed examples. *)
Definition stringify_stub : JsVal -> jsstring := fun _ => lit "(json)".
Definition not_numeric : jsstring -> Number := fun _ => NaN.

(** [preserves f m]: running [m] leaves the observation [f] of the state
    as it was, whether [m] returns or throws. *)
Definition preserves {A B} (f : State -> B) (m : M A) : Prop :=
  forall s r s', m s = (r, s') -> f s' = f s.

(** A code unit that cannot end or start a query parameter: an unreserved
    character, or the percent sign of an escape. *)
Definition url_safe (c : N) : bool := uriUnescaped c || N.eqb c 37.

(** A code unit that is not half of a surrogate pair. *)
Definition no_surrogate (c : N) : bool := negb (is_leading c) && negb (is_trailing c).

(* ------------------------------------------------------------------------- *)
(** ** What goes on the wire *)

(** The JSON document that [res.json(x)] sends, as the client parses it:
    [JSON.stringify] leaves out the members of an object that are
    [undefined] or functions and writes such elements of an array as
    [null]. *)
Fixpoint to_wire (x : JsVal) : JsVal :=
  match x with
  | JArr items =>
    JArr (map (fun y => match y with
                        | JUndefined | JFun _ => JNull
                        | _ => to_wire y
                        end) items)
  | JObj fields =>
    JObj (flat_map (fun kv : jsstring * JsVal =>
                      let (k, y) := kv in
                      match y with
                      | JUndefined | JFun _ => []
                      | _ => [(k, to_wire y)]
                      end) fields)
  | other => other
  end.

(** [body?.id]. *)
Definition optional_id (body : JsVal) : JsVal :=
  match get body "id" with
  | Ok id => id
  | Throw _ => JUndefined
  end.

(** A value that [JSON.stringify] writes as it is. *)
Definition is_scalar (x : JsVal) : bool :=
  match x with
  | JNull | JBool _ | JNum _ | JStr _ => true
  | _ => false
  end.

(* ------------------------------------------------------------------------- *)
(** ** Parsing arguments with a registered schema

    What zod's object parser does with the three kinds of field the
    schemas use: a field that is [undefined] is rejected when required,
    left out when optional and replaced by its default otherwise; a field
    that is present must have the declared type (and length, for a
    string); unknown keys are stripped. *)

Definition zod_accepts (ty : ZodType) (x : JsVal) : bool :=
  match ty, x with
  | z_string lo hi, JStr s =>
    let n := Z.of_nat (List.length s) in
    match lo with Some l => l <=? n | None => true end
    && match hi with Some h => n <=? h | None => true end
  | z_number, JNum _ => true
  | z_boolean, JBool _ => true
  | _, _ => false
  end.

Definition zod_field (fs : list (jsstring * JsVal)) (kf : string * ZodField)
    : option (list (jsstring * JsVal)) :=
  match lookup (lit (fst kf)) fs with
  | JUndefined =>
    match presence (snd kf) with
    | Required => None
    | Optional => Some []
    | Default d => Some [(lit (fst kf), d)]
    end
  | x => if zod_accepts (zod_type (snd kf)) x then Some [(lit (fst kf), x)] else None
  end.

Fixpoint zod_fields (fs : list (jsstring * JsVal)) (fields : list (string * ZodField))
    : option (list (jsstring * JsVal)) :=
  match fields with
  | [] => Some []
  | kf :: rest =>
    match zod_field fs kf, zod_fields fs rest with
    | Some here, Some there => Some (here ++ there)
    | _, _ => None
    end
  end.

Definition zod_parse (fields : list (string * ZodField)) (args : JsVal) : option JsVal :=
  match args with
  | JObj fs => option_map JObj (zod_fields fs fields)
  | _ => None
  end.

(** The schema registered under [name]. *)
Definition registered_schema (name : string) : option (list (string * ZodField)) :=
  option_map snd (find (fun entry => String.eqb name (fst entry)) inputSchemas).

(** No field that has a default is given as the number 0. *)
Definition no_zero_default (fields : list (string * ZodField)) (args : JsVal) : bool :=
  forallb (fun kf => match presence (snd kf), member (fst kf) args with
                     | Default _, JNum 0 => false
                     | _, _ => true
                     end) fields.

(** An outcome put in the envelope of a response. *)
Definition enveloped (id : JsVal) (run : Res JsVal * State) : Res JsVal * State :=
  match run with
  | (Ok result, s') => (Ok (obj [("jsonrpc", jstr "2.0"); ("result", result); ("id", id)]), s')
  | (Throw e, s') => (Throw e, s')
  end.

(* ------------------------------------------------------------------------- *)
(** ** Where the conversion to a string is exact

    JavaScript numbers are doubles: [decimal] prints a number as
    JavaScript does when it is a safe integer (beyond 1e21 JavaScript
    switches to the exponent notation, and beyond 2^53 not every integer
    is a number).  The conversion of an object to a string throws a
    [TypeError] when the object has a member [toString] of its own (no
    JSON value is callable, and [valueOf] then yields the object), and so
    does that of an array that holds such an object. *)

(** [Number.isSafeInteger]. *)
Definition is_safe_integer (n : Z) : bool := Z.abs n <=? 9007199254740991.

(** The conversion of [v] to a string does not throw. *)
Fixpoint converts (v : JsVal) : bool :=
  match v with
  | JArr items => forallb converts items
  | JObj fields => negb (has_key (lit "toString") fields)
  | _ => true
  end.

(** The numbers in [v] are safe integers, and [v] holds no function. *)
Fixpoint safe (v : JsVal) : bool :=
  match v with
  | JNum n => is_safe_integer n
  | JArr items => forallb safe items
  | JFun _ => false
  | _ => true
  end.

(** [ToString v] is what JavaScript converts [v] to. *)
Definition printable (v : JsVal) : bool := converts v && safe v.

(** [`${v}`] where the conversion can throw. *)
Definition to_string (v : JsVal) : Res jsstring :=
  if converts v then Ok (ToString v) else Throw TypeError.

(* ------------------------------------------------------------------------- *)
(** ** Reading a percent-encoded string

    What a percent-encoded string stands for: each escape [%XY] is an
    octet, every other code unit stands for itself, and the octets are read
    as UTF-8 into UTF-16 code units.  (No validation is made: this is the
    reading, not a check that the string is well encoded.) *)

Definition hex_value (c : N) : option N :=
  (if in_range 48 57 c then Some (c - 48)
   else if in_range 65 70 c then Some (c - 55)
   else if in_range 97 102 c then Some (c - 87)
   else None)%N.

(** [(true, o)] for an escaped octet, [(false, c)] for a plain code unit. *)
Fixpoint unescape (s : jsstring) : option (list (bool * N)) :=
  match s with
  | [] => Some []
  | c :: rest =>
    if N.eqb c 37 then
      match rest with
      | h :: l :: rest' =>
        match hex_value h, hex_value l, unescape rest' with
        | Some a, Some b, Some items => Some ((true, (16 * a + b)%N) :: items)
        | _, _, _ => None
        end
      | _ => None
      end
    else option_map (cons (false, c)) (unescape rest)
  end.

Fixpoint utf16 (items : list (bool * N)) : option jsstring :=
  match items with
  | [] => Some []
  | (false, c) :: rest => option_map (cons c) (utf16 rest)
  | (true, o1) :: rest =>
    if (o1 <? 128)%N then option_map (cons o1) (utf16 rest)
    else if in_range 192 223 o1 then
      match rest with
      | (true, o2) :: rest' =>
        option_map (cons ((o1 - 192) * 64 + (o2 - 128))%N) (utf16 rest')
      | _ => None
      end
    else if in_range 224 239 o1 then
      match rest with
      | (true, o2) :: (true, o3) :: rest' =>
        option_map (cons ((o1 - 224) * 4096 + (o2 - 128) * 64 + (o3 - 128))%N)
                   (utf16 rest')
      | _ => None
      end
    else if in_range 240 247 o1 then
      match rest with
      | (true, o2) :: (true, o3) :: (true, o4) :: rest' =>
        let cp := ((o1 - 240) * 262144 + (o2 - 128) * 4096
                   + (o3 - 128) * 64 + (o4 - 128))%N in
        option_map (fun r => (55296 + (cp - 65536) / 1024)%N
                             :: (56320 + (cp - 65536) mod 1024)%N :: r)
                   (utf16 rest')
      | _ => None
      end
    else None
  end.

Definition percent_decode (s : jsstring) : option jsstring :=
  match unescape s with
  | Some items => utf16 items
  | None => None
  end.

(* ------------------------------------------------------------------------- *)
(** ** The calls of the campus list script, and more upstreams *)

(** The URL of one page of campuses in [create-campus-list.ts], and the
    GET of that page with a token that converts to a string. *)
Definition campus_url (page : Z) : jsstring :=
  lit "https://api.intra.42.fr/v2/campus?page[size]=100&page[number]="
  ++ decimal page.

Definition campus_page (token : JsVal) (page : Z) : Call :=
  GET (campus_url page) (lit "Bearer " ++ ToString token).

Definition url_of (c : Call) : jsstring :=
  match c with
  | POST url _ | GET url _ => url
  end.

(** An upstream that answers the token exchange with [document] and every
    GET with an empty array. *)
Definition answering (document : JsVal) : list Call -> Z -> Call -> Reply :=
  fun _ _ c =>
    match c with
    | POST _ _ => http 200 "(token)" (Some document)
    | GET _ _ => http 200 "[]" (Some (JArr []))
    end.

(** An upstream that refuses every call with a 401 and a JSON document. *)
Definition refusing : list Call -> Z -> Call -> Reply :=
  fun _ _ _ => http 401 "(refused)" (Some (obj [("error", jstr "invalid_client")])).

(** An upstream that grants a token and answers the GET of page 1 to 10 of
    the campuses with [items page]. *)
Definition paged (items : Z -> list JsVal) : list Call -> Z -> Call -> Reply :=
  fun _ _ c =>
    match c with
    | POST _ _ => http 200 "(token)" (Some (token_document 7200))
    | GET url _ =>
      match find (fun page => str_eqb url (url_of (campus_page JUndefined page)))
                 (map Z.of_nat (seq 1 10)) with
      | Some page => http 200 "(page)" (Some (JArr (items page)))
      | None => http 404 "Not Found" None
      end
    end.

Definition campus (id : Z) (name country : string) : JsVal :=
  obj [("id", JNum id); ("name", jstr name); ("country", jstr country)].

(** Three campuses on two pages. *)
Definition two_pages (page : Z) : list JsVal :=
  if page =? 1 then [campus 1 "Paris" "France"; campus 26 "Tokyo" "Japan"]
  else if page =? 2 then [campus 9 "Lyon" "France"]
  else [].

(* ------------------------------------------------------------------------- *)
(** ** The server *)

Section Server.

(** The environment: the credentials read at start-up, two built-ins of
    the runtime that are left abstract ([JSON.stringify(_, null, 2)] and
    the conversion of a string to a number), and the upstream, which
    answers a call knowing the calls made before and the time. *)
Variable CLIENT_ID CLIENT_SECRET : jsstring.
Variable JSON_stringify : JsVal -> jsstring.
Variable StringToNumber : jsstring -> Number.
Variable upstream : list Call -> Z -> Call -> Reply.

Definition ToNumber (x : JsVal) : Number :=
  match x with
  | JUndefined => NaN
  | JNull => Fin 0
  | JBool b => Fin (if b then 1 else 0)
  | JNum n => Fin n
  | JStr s => StringToNumber s
  | JArr _ | JObj _ | JFun _ => StringToNumber (ToString x)
  end.

(** [await fetch(...)]: the call is appended to the trace and the clock
    advances by the latency of the reply. *)
Definition fetch (c : Call) : M HttpResponse :=
  fun s =>
    let r := upstream (trace s) (now s) c in
    let s' := {| now := now s + latency r; tokenCache := tokenCache s;
                 trace := trace s ++ [c]; console := console s |} in
    match response r with
    | Some res => (Ok res, s')
    | None => (Throw FetchError, s')
    end.

Definition oauth_call : Call :=
  POST (API_BASE ++ lit "/oauth/token")
       (obj [("grant_type", jstr "client_credentials");
             ("client_id", JStr CLIENT_ID);
             ("client_secret", JStr CLIENT_SECRET)]).

Definition getAccessToken : M JsVal :=
  cached <- tokenCache_get ;;
  if truthy cached then ret cached
  else
    res <- fetch oauth_call ;;
    if negb (ok res) then
      throw (Error (lit "42 API oauth failure: " ++ decimal (status res)
                    ++ lit " " ++ text res))
    else
      body <- res_json res ;;
      access_token <- lift (get body "access_token") ;;
      expires_in <- lift (get body "expires_in") ;;
      tokenCache_set access_token (minus_60 (ToNumber expires_in)) ;;;
      ret access_token.

Definition apiRequest (path : jsstring) : M JsVal :=
  token <- getAccessToken ;;
  res <- fetch (GET (API_BASE ++ path) (lit "Bearer " ++ ToString token)) ;;
  if negb (ok res) then
    throw (Error (lit "42 API error: " ++ decimal (status res)
                  ++ lit " " ++ text res))
  else res_json res.

(** *** Response envelopes *)

Definition error_response (code : Z) (message : string) (id : JsVal) : JsVal :=
  obj [("jsonrpc", jstr "2.0");
       ("error", obj [("code", JNum code); ("message", jstr message)]);
       ("id", id)].

Definition result_response (result : JsVal) (id : JsVal) : JsVal :=
  obj [("jsonrpc", jstr "2.0"); ("result", result); ("id", id)].

(** [{ content: [{ type: 'text', text }] }] as the result. *)
Definition text_response (text : jsstring) (id : JsVal) : JsVal :=
  result_response
    (obj [("content", JArr [obj [("type", jstr "text"); ("text", JStr text)]])])
    id.

Definition initialize_result : JsVal :=
  obj [("protocolVersion", jstr "2024-11-05");
       ("capabilities",
        obj [("tools", obj [("listChanged", JBool true)]);
             ("resources", obj [("subscribe", JBool true);
                                ("listChanged", JBool true)])]);
       ("serverInfo", obj [("name", jstr "42-api-server");
                           ("version", jstr "0.1.5")])].

(** *** The [tools/list] payload *)

(** [{ type, description }]. *)
Definition prop (type description : string) : JsVal :=
  obj [("type", jstr type); ("description", jstr description)].

(** [{ type, description, default }]. *)
Definition prop_default (type description : string) (default : JsVal) : JsVal :=
  obj [("type", jstr type); ("description", jstr description);
       ("default", default)].

(** A tool descriptor whose schema lists [required] fields. *)
Definition tool_required (name description : string)
    (properties : list (string * JsVal)) (required : list string) : JsVal :=
  obj [("name", jstr name);
       ("description", jstr description);
       ("inputSchema",
        obj [("type", jstr "object");
             ("properties", obj properties);
             ("required", JArr (map jstr required))])].

(** A tool descriptor whose schema has no [required] member. *)
Definition tool_optional (name description : string)
    (properties : list (string * JsVal)) : JsVal :=
  obj [("name", jstr name);
       ("description", jstr description);
       ("inputSchema",
        obj [("type", jstr "object");
             ("properties", obj properties)])].

Definition tools : list JsVal :=
  [ tool_required "searchUsers"
      "Find 42 users by a case-insensitive login substring (max 5 results)"
      [("query", obj [("type", jstr "string");
                      ("description", jstr "Search query for user login");
                      ("minLength", JNum 2);
                      ("maxLength", JNum 30)])]
      ["query"];
    tool_required "getCursusLevel"
      "Returns the level of a user in a specific cursus"
      [("userId", prop "number" "42 user ID");
       ("cursusId", prop_default "number" "Cursus ID (default: 21 for 42cursus)" (JNum 21))]
      ["userId"];
    tool_required "getUserProjects"
      "Retrieve all projects for a specific user"
      [("userId", prop "number" "42 user ID");
       ("cursusId", prop "number" "Filter by cursus ID (optional)")]
      ["userId"];
    tool_required "getCoalition"
      "Get coalition information for a user"
      [("userId", prop "number" "42 user ID")]
      ["userId"];
    tool_optional "getCampusUsers"
      "Retrieve campus-user associations by campusId or userId"
      [("campusId", prop "number" "Campus ID");
       ("userId", prop "number" "User ID")];
    tool_optional "getBalances"
      "Retrieve balances globally or for a specific pool (requires Advanced tutor role)"
      [("poolId", prop "number" "Pool ID")];
    tool_optional "getClusters"
      "Retrieve clusters with optional campusId and/or name filter (requires Basic staff role)"
      [("campusId", prop "number" "Campus ID");
       ("name", prop "string" "Substring of cluster name");
       ("pageSize", prop_default "number" "Page size (default 30)" (JNum 30))];
    tool_optional "getLocations"
      "Retrieve user locations (seats) with optional campus, host, and activity filters"
      [("campusId", prop "number" "Campus ID");
       ("active", prop_default "boolean" "Filter for active (currently sitting) users only" (JBool true));
       ("host", prop "string" "Specific host/computer name");
       ("pageSize", prop_default "number" "Page size (default 100)" (JNum 100))];
    tool_optional "getAttachments"
      "Retrieve attachments (PDFs, videos, links) with optional project filters"
      [("projectId", prop "number" "Project ID to filter attachments");
       ("projectSessionId", prop "number" "Project session ID to filter attachments");
       ("pageSize", prop_default "number" "Page size (default 30, max 100)" (JNum 30));
       ("sort", prop "string" "Sort field (id, created_at, updated_at, etc.)")];
    tool_required "getAttachment"
      "Get detailed information about a specific attachment including PDF URLs"
      [("attachmentId", prop "number" "Attachment ID");
       ("projectSessionId", prop "number" "Project session ID (if accessing via project session)")]
      ["attachmentId"];
    tool_optional "getProjects"
      "Retrieve projects with optional cursus or project filters"
      [("cursusId", prop "number" "Cursus ID to filter projects");
       ("projectId", prop "number" "Parent project ID to filter child projects");
       ("pageSize", prop_default "number" "Page size (default 30, max 100)" (JNum 30));
       ("sort", prop "string" "Sort field (id, name, created_at, position, etc.)");
       ("filter",
        obj [("type", jstr "string");
             ("description",
              JStr (lit "Filter field and value (e.g., " ++ [34%N] ++ lit "exam"
                    ++ [34%N] ++ lit " for exam projects)"))])];
    tool_required "getProject"
      "Get detailed information about a specific project"
      [("projectId", prop "number" "Project ID")]
      ["projectId"];
    tool_optional "getMyProjects"
      "Get all projects for the current authenticated user"
      [("cursusId", prop "number" "Cursus ID to filter projects");
       ("pageSize", prop_default "number" "Page size (default 30, max 100)" (JNum 30));
       ("sort", prop "string" "Sort field (id, name, created_at, position, etc.)")] ].

(** *** The [resources/list] payload *)

Definition resource (uri name description : string) : JsVal :=
  obj [("uri", jstr uri); ("name", jstr name);
       ("description", jstr description);
       ("mimeType", jstr "application/json")].

Definition resources : list JsVal :=
  [ resource "42://me" "My 42 Profile" "Your own user object from 42 API";
    resource "42://campus" "42 Campus List" "List of all 42 campuses worldwide";
    resource "42://attachments" "All Attachments"
      "List of all attachments (PDFs, videos, links) in the system";
    resource "42://projects" "All Projects" "List of all projects in the system";
    resource "42://me/projects" "My Projects"
      "List of projects for the current authenticated user" ].

(** *** The upstream path of each tool

    Each function evaluates the template literals of one [case] of the
    [switch (name)]: reading a property of [args] throws when [args] is
    [undefined] or [null], and [encodeURIComponent] throws on an unpaired
    surrogate. *)

Open Scope res_scope.

(** [Math.min(pageSize || 30, 100)] printed in a template literal. *)
Definition capped_page_size (pageSize : JsVal) : jsstring :=
  NumberToString (Math_min_100 (ToNumber (js_or pageSize (JNum 30)))).

(** [url += sep + list.join('&')] under [if (list.length > 0)]. *)
Definition append_joined (url sep : jsstring) (l : list jsstring) : jsstring :=
  match l with
  | [] => url
  | _ => url ++ sep ++ join (lit "&") l
  end.

(** [if (x) list.push(prefix + encodeURIComponent(x))]. *)
Definition push_encoded (prefix suffix : string) (x : JsVal) : Res (list jsstring) :=
  if truthy x then
    let? e := encodeURIComponent x in Ok [lit prefix ++ e ++ lit suffix]
  else Ok [].

Definition searchUsers_path (args : JsVal) : Res jsstring :=
  let? query := get args "query" in
  let? q := encodeURIComponent query in
  Ok (lit "/v2/users?filter[login]=" ++ q ++ lit "&page[size]=5").

Definition getCursusLevel_path (args : JsVal) : Res jsstring :=
  let? userId := get args "userId" in
  let? cursusId := get args "cursusId" in
  Ok (lit "/v2/users/" ++ ToString userId ++ lit "/cursus_users?filter[cursus_id]="
      ++ ToString (js_or cursusId (JNum 21))).

Definition getCursusLevel_text (args cursusUsers : JsVal) : Res jsstring :=
  let? len := get cursusUsers "length" in
  if truthy len then
    let? first := get0 cursusUsers in
    let? level := get first "level" in
    let? cursusId := get args "cursusId" in
    Ok (lit "Level " ++ ToString level ++ lit " in cursus "
        ++ ToString (js_or cursusId (JNum 21)))
  else Ok (lit "User not enrolled in this cursus.").

Definition getUserProjects_path (args : JsVal) : Res jsstring :=
  let? userId := get args "userId" in
  let projectsUrl := lit "/v2/users/" ++ ToString userId ++ lit "/projects_users" in
  let? cursusId := get args "cursusId" in
  Ok (if truthy cursusId
      then projectsUrl ++ lit "?filter[cursus_id]=" ++ ToString cursusId
      else projectsUrl).

Definition getCoalition_path (args : JsVal) : Res jsstring :=
  let? userId := get args "userId" in
  Ok (lit "/v2/users/" ++ ToString userId ++ lit "/coalitions").

Definition getCampusUsers_path (args : JsVal) : Res jsstring :=
  let campusUsersUrl := lit "/v2/campus_users" in
  let? userId := get args "userId" in
  if truthy userId then
    Ok (lit "/v2/users/" ++ ToString userId ++ lit "/campus_users")
  else
    let? campusId := get args "campusId" in
    Ok (if truthy campusId
        then campusUsersUrl ++ lit "?filter[campus_id]=" ++ ToString campusId
        else campusUsersUrl).

Definition getBalances_path (args : JsVal) : Res jsstring :=
  let? poolId := get args "poolId" in
  Ok (if truthy poolId
      then lit "/v2/pools/" ++ ToString poolId ++ lit "/balances"
      else lit "/v2/balances").

Definition getClusters_path (args : JsVal) : Res jsstring :=
  let? pageSize := get args "pageSize" in
  let clustersUrl :=
    lit "/v2/clusters?page[size]=" ++ ToString (js_or pageSize (JNum 30)) in
  let? campusId := get args "campusId" in
  let byCampus :=
    if truthy campusId then [lit "filter[campus_id]=" ++ ToString campusId] else [] in
  let? name := get args "name" in
  let? byName := push_encoded "filter[name]=" "" name in
  Ok (append_joined clustersUrl (lit "&") (byCampus ++ byName)).

Definition getLocations_path (args : JsVal) : Res jsstring :=
  let? pageSize := get args "pageSize" in
  let size := ToString (js_or pageSize (JNum 100)) in
  let? campusId := get args "campusId" in
  let locationsUrl :=
    if truthy campusId
    then lit "/v2/campus/" ++ ToString campusId ++ lit "/locations?page[size]=" ++ size
    else lit "/v2/locations?page[size]=" ++ size in
  let? active := get args "active" in
  let byActive := if is_not_false active then [lit "filter[active]=true"] else [] in
  let? host := get args "host" in
  let? byHost := push_encoded "filter[host]=" "" host in
  Ok (append_joined locationsUrl (lit "&") (byActive ++ byHost)).

Definition getAttachments_path (args : JsVal) : Res jsstring :=
  let? projectSessionId := get args "projectSessionId" in
  let? projectId := get args "projectId" in
  let attachmentsUrl :=
    if truthy projectSessionId
    then lit "/v2/project_sessions/" ++ ToString projectSessionId ++ lit "/attachments"
    else if truthy projectId
    then lit "/v2/projects/" ++ ToString projectId ++ lit "/attachments"
    else lit "/v2/attachments" in
  let? pageSize := get args "pageSize" in
  let? sort := get args "sort" in
  let? bySort := push_encoded "sort=" "" sort in
  Ok (append_joined attachmentsUrl (lit "?")
        ((lit "page[size]=" ++ capped_page_size pageSize) :: bySort)).

Definition getAttachment_path (args : JsVal) : Res jsstring :=
  let? projectSessionId := get args "projectSessionId" in
  let? attachmentId := get args "attachmentId" in
  Ok (if truthy projectSessionId
      then lit "/v2/project_sessions/" ++ ToString projectSessionId
           ++ lit "/attachments/" ++ ToString attachmentId
      else lit "/v2/attachments/" ++ ToString attachmentId).

Definition getProjects_path (args : JsVal) : Res jsstring :=
  let? cursusId := get args "cursusId" in
  let? projectId := get args "projectId" in
  let projectsListUrl :=
    if truthy cursusId
    then lit "/v2/cursus/" ++ ToString cursusId ++ lit "/projects"
    else if truthy projectId
    then lit "/v2/projects/" ++ ToString projectId ++ lit "/projects"
    else lit "/v2/projects" in
  let? pageSize := get args "pageSize" in
  let? sort := get args "sort" in
  let? bySort := push_encoded "sort=" "" sort in
  let? filter := get args "filter" in
  let? byFilter := push_encoded "filter[" "]=true" filter in
  Ok (append_joined projectsListUrl (lit "?")
        ((lit "page[size]=" ++ capped_page_size pageSize) :: bySort ++ byFilter)).

Definition getProject_path (args : JsVal) : Res jsstring :=
  let? projectId := get args "projectId" in
  Ok (lit "/v2/projects/" ++ ToString projectId).

Definition getMyProjects_path (args : JsVal) : Res jsstring :=
  let myProjectsUrl := lit "/v2/me/projects" in
  let? pageSize := get args "pageSize" in
  let? cursusId := get args "cursusId" in
  let byCursus :=
    if truthy cursusId then [lit "cursus_id=" ++ ToString cursusId] else [] in
  let? sort := get args "sort" in
  let? bySort := push_encoded "sort=" "" sort in
  Ok (append_joined myProjectsUrl (lit "?")
        ((lit "page[size]=" ++ capped_page_size pageSize) :: byCursus ++ bySort)).

Close Scope res_scope.

(** *** The dispatcher *)

(** The shape shared by every [case] but [getCursusLevel]: build the path,
    [await apiRequest(path)], wrap [JSON.stringify(data, null, 2)]. *)
Definition call_json (path : Res jsstring) (id : JsVal) : M JsVal :=
  url <- lift path ;;
  data <- apiRequest url ;;
  ret (text_response (JSON_stringify data) id).

(** [switch (name)] of [case 'tools/call']. *)
Definition tools_call (name args id : JsVal) : M JsVal :=
  if is_str name "searchUsers" then call_json (searchUsers_path args) id
  else if is_str name "getCursusLevel" then
    url <- lift (getCursusLevel_path args) ;;
    cursusUsers <- apiRequest url ;;
    levelText <- lift (getCursusLevel_text args cursusUsers) ;;
    ret (text_response levelText id)
  else if is_str name "getUserProjects" then call_json (getUserProjects_path args) id
  else if is_str name "getCoalition" then call_json (getCoalition_path args) id
  else if is_str name "getCampusUsers" then call_json (getCampusUsers_path args) id
  else if is_str name "getBalances" then call_json (getBalances_path args) id
  else if is_str name "getClusters" then call_json (getClusters_path args) id
  else if is_str name "getLocations" then call_json (getLocations_path args) id
  else if is_str name "getAttachments" then call_json (getAttachments_path args) id
  else if is_str name "getAttachment" then call_json (getAttachment_path args) id
  else if is_str name "getProjects" then call_json (getProjects_path args) id
  else if is_str name "getProject" then call_json (getProject_path args) id
  else if is_str name "getMyProjects" then call_json (getMyProjects_path args) id
  else ret (error_response (-32601) "Method not found" id).

(** [switch (method)], the body of the [try]. *)
Definition route (method params id : JsVal) : M JsVal :=
  if is_str method "initialize" then ret (result_response initialize_result id)
  else if is_str method "tools/list" then
    ret (result_response (obj [("tools", JArr tools)]) id)
  else if is_str method "tools/call" then
    name <- lift (get params "name") ;;
    args <- lift (get params "arguments") ;;
    tools_call name args id
  else if is_str method "resources/list" then
    ret (result_response (obj [("resources", JArr resources)]) id)
  else ret (error_response (-32601) "Method not found" id).

Definition handleRequest (requestBody : JsVal) : M JsVal :=
  jsonrpc <- lift (get requestBody "jsonrpc") ;;
  method <- lift (get requestBody "method") ;;
  params <- lift (get requestBody "params") ;;
  id <- lift (get requestBody "id") ;;
  if negb (is_str jsonrpc "2.0") then
    ret (error_response (-32600) "Invalid Request" (js_or id JNull))
  else
    try_catch (route method params id)
      (fun error =>
         console_error error ;;;
         ret (error_response (-32603) "Internal error" id)).

(** The token exchange, attempted in state [s], does not yield a 2xx
    response. *)
Definition oauth_fails (s : State) : bool :=
  match response (upstream (trace s) (now s) oauth_call) with
  | Some res => negb (ok res)
  | None => true
  end.

(** The state after a token exchange answered by [r] and the storing of
    [access_token] with a lifetime computed from [expires_in]. *)
Definition after_exchange (s : State) (r : Reply) (access_token expires_in : JsVal)
    : State :=
  {| now := now s + latency r;
     tokenCache :=
       Some {| t := livetime (now s + latency r) (minus_60 (ToNumber expires_in));
               v := access_token |};
     trace := trace s ++ [oauth_call];
     console := console s |}.

(** The state after an API GET answered by [r]. *)
Definition after_get (s : State) (r : Reply) (c : Call) : State :=
  {| now := now s + latency r; tokenCache := tokenCache s;
     trace := trace s ++ [c]; console := console s |}.

(** What [apiRequest] resolves to once the token is there and the GET has
    been answered by [r]. *)
Definition api_outcome (r : Reply) : Res JsVal :=
  match response r with
  | Some res =>
    if negb (ok res) then
      Throw (Error (lit "42 API error: " ++ decimal (status res)
                    ++ lit " " ++ text res))
    else match json res with
         | Some data => Ok data
         | None => Throw SyntaxError
         end
  | None => Throw FetchError
  end.

(** The GET that [apiRequest(path)] sends with [token]. *)
Definition api_call (path : jsstring) (token : JsVal) : Call :=
  GET (API_BASE ++ path) (lit "Bearer " ++ ToString token).

(** The outbound calls one request may make: none, the token exchange
    alone, one authorised GET on [API_BASE] alone, or the exchange followed
    by that GET. *)
Definition request_calls (l : list Call) : Prop :=
  l = [] \/ l = [oauth_call]
  \/ exists path authorization,
      let c := GET (API_BASE ++ path) (lit "Bearer " ++ authorization) in
      l = [c] \/ l = [oauth_call; c].

(** [bounded m]: the calls [m] adds to the trace are among
    [request_calls]. *)
Definition bounded {A} (m : M A) : Prop :=
  forall s r s', m s = (r, s') ->
                 exists l, trace s' = trace s ++ l /\ request_calls l.

(** *** The HTTP endpoint

    The handler of [app.post('/')]: the status and the JSON document of the
    HTTP response.  (The two [console.log] lines write to the standard
    output, which the state does not hold.) *)
Definition mcp_endpoint (body : JsVal) : M (Z * JsVal) :=
  try_catch
    (response <- handleRequest body ;;
     ret (200, to_wire response))
    (fun error =>
       console_error error ;;;
       ret (500, to_wire (error_response (-32603) "Internal error"
                            (js_or (optional_id body) JNull)))).

(** *** The tools registered with [server.registerTool]

    The handlers the SDK runs on the parsed arguments, in source order.
    Each returns [{ content: [{ type: 'text', text }] }]. *)

Open Scope res_scope.

Definition text_content (text : jsstring) : JsVal :=
  obj [("content", JArr [obj [("type", jstr "text"); ("text", JStr text)]])].

(** [await apiRequest(path)] and the JSON text of the answer. *)
Definition call_content (path : Res jsstring) : M JsVal :=
  url <- lift path ;;
  data <- apiRequest url ;;
  ret (text_content (JSON_stringify data)).

(** [Math.min(pageSize, 100)] printed in a template literal. *)
Definition min_100 (pageSize : JsVal) : jsstring :=
  NumberToString (Math_min_100 (ToNumber pageSize)).

Definition registered_searchUsers_path (input : JsVal) : Res jsstring :=
  let? query := get input "query" in
  let? q := encodeURIComponent query in
  Ok (lit "/v2/users?filter[login]=" ++ q ++ lit "&page[size]=5").

Definition registered_getCursusLevel_path (input : JsVal) : Res jsstring :=
  let? userId := get input "userId" in
  let? cursusId := get input "cursusId" in
  Ok (lit "/v2/users/" ++ ToString userId ++ lit "/cursus_users?filter[cursus_id]="
      ++ ToString cursusId).

Definition registered_getCursusLevel_text (input cursusUsers : JsVal) : Res jsstring :=
  let? cursusId := get input "cursusId" in
  let? len := get cursusUsers "length" in
  if negb (truthy len) then Ok (lit "User not enrolled in this cursus.")
  else
    let? first := get0 cursusUsers in
    let? level := get first "level" in
    Ok (lit "Level " ++ ToString level ++ lit " in cursus " ++ ToString cursusId).

Definition registered_getCursusLevel (input : JsVal) : M JsVal :=
  url <- lift (registered_getCursusLevel_path input) ;;
  cursusUsers <- apiRequest url ;;
  text <- lift (registered_getCursusLevel_text input cursusUsers) ;;
  ret (text_content text).

Definition registered_getUserProjects_path (input : JsVal) : Res jsstring :=
  let? userId := get input "userId" in
  let? cursusId := get input "cursusId" in
  let url := lit "/v2/users/" ++ ToString userId ++ lit "/projects_users" in
  Ok (if truthy cursusId
      then url ++ lit "?filter[cursus_id]=" ++ ToString cursusId
      else url).

Definition registered_getCoalition_path (input : JsVal) : Res jsstring :=
  let? userId := get input "userId" in
  Ok (lit "/v2/users/" ++ ToString userId ++ lit "/coalitions").

Definition registered_getCampusUsers_path (input : JsVal) : Res jsstring :=
  let? campusId := get input "campusId" in
  let? userId := get input "userId" in
  let url := lit "/v2/campus_users" in
  Ok (if truthy userId then lit "/v2/users/" ++ ToString userId ++ lit "/campus_users"
      else if truthy campusId then url ++ lit "?filter[campus_id]=" ++ ToString campusId
      else url).

Definition registered_getBalances_path (input : JsVal) : Res jsstring :=
  let? poolId := get input "poolId" in
  Ok (if truthy poolId
      then lit "/v2/pools/" ++ ToString poolId ++ lit "/balances"
      else lit "/v2/balances").

Definition registered_getClusters_path (input : JsVal) : Res jsstring :=
  let? campusId := get input "campusId" in
  let? name := get input "name" in
  let? pageSize := get input "pageSize" in
  let url := lit "/v2/clusters?page[size]=" ++ ToString pageSize in
  let byCampus :=
    if truthy campusId then [lit "filter[campus_id]=" ++ ToString campusId] else [] in
  let? byName := push_encoded "filter[name]=" "" name in
  Ok (append_joined url (lit "&") (byCampus ++ byName)).

Definition registered_getLocations_path (input : JsVal) : Res jsstring :=
  let? campusId := get input "campusId" in
  let? active := get input "active" in
  let? host := get input "host" in
  let? pageSize := get input "pageSize" in
  let url :=
    if truthy campusId
    then lit "/v2/campus/" ++ ToString campusId ++ lit "/locations?page[size]="
         ++ ToString pageSize
    else lit "/v2/locations?page[size]=" ++ ToString pageSize in
  let byActive := if truthy active then [lit "filter[active]=true"] else [] in
  let? byHost := push_encoded "filter[host]=" "" host in
  Ok (append_joined url (lit "&") (byActive ++ byHost)).

Definition registered_getAttachments_path (input : JsVal) : Res jsstring :=
  let? projectId := get input "projectId" in
  let? projectSessionId := get input "projectSessionId" in
  let? pageSize := get input "pageSize" in
  let? sort := get input "sort" in
  let url :=
    if truthy projectSessionId
    then lit "/v2/project_sessions/" ++ ToString projectSessionId ++ lit "/attachments"
    else if truthy projectId
    then lit "/v2/projects/" ++ ToString projectId ++ lit "/attachments"
    else lit "/v2/attachments" in
  let? bySort := push_encoded "sort=" "" sort in
  Ok (append_joined url (lit "?") ((lit "page[size]=" ++ min_100 pageSize) :: bySort)).

Definition registered_getAttachment_path (input : JsVal) : Res jsstring :=
  let? attachmentId := get input "attachmentId" in
  let? projectSessionId := get input "projectSessionId" in
  Ok (if truthy projectSessionId
      then lit "/v2/project_sessions/" ++ ToString projectSessionId
           ++ lit "/attachments/" ++ ToString attachmentId
      else lit "/v2/attachments/" ++ ToString attachmentId).

Definition registered_getProjects_path (input : JsVal) : Res jsstring :=
  let? cursusId := get input "cursusId" in
  let? projectId := get input "projectId" in
  let? pageSize := get input "pageSize" in
  let? sort := get input "sort" in
  let? filter := get input "filter" in
  let url :=
    if truthy cursusId
    then lit "/v2/cursus/" ++ ToString cursusId ++ lit "/projects"
    else if truthy projectId
    then lit "/v2/projects/" ++ ToString projectId ++ lit "/projects"
    else lit "/v2/projects" in
  let? bySort := push_encoded "sort=" "" sort in
  let? byFilter := push_encoded "filter[" "]=true" filter in
  Ok (append_joined url (lit "?")
        ((lit "page[size]=" ++ min_100 pageSize) :: bySort ++ byFilter)).

Definition registered_getProject_path (input : JsVal) : Res jsstring :=
  let? projectId := get input "projectId" in
  Ok (lit "/v2/projects/" ++ ToString projectId).

Definition registered_getMyProjects_path (input : JsVal) : Res jsstring :=
  let? cursusId := get input "cursusId" in
  let? pageSize := get input "pageSize" in
  let? sort := get input "sort" in
  let url := lit "/v2/me/projects" in
  let byCursus :=
    if truthy cursusId then [lit "cursus_id=" ++ ToString cursusId] else [] in
  let? bySort := push_encoded "sort=" "" sort in
  Ok (append_joined url (lit "?")
        ((lit "page[size]=" ++ min_100 pageSize) :: byCursus ++ bySort)).

Definition registered_getAccreditations_path (input : JsVal) : Res jsstring :=
  let? userId := get input "userId" in
  let? cursusId := get input "cursusId" in
  let? validated := get input "validated" in
  let? pageSize := get input "pageSize" in
  let? sort := get input "sort" in
  let url := lit "/v2/accreditations" in
  let filters :=
    (if truthy userId then [lit "filter[user_id]=" ++ ToString userId] else [])
    ++ (if truthy cursusId then [lit "filter[cursus_id]=" ++ ToString cursusId] else [])
    ++ match validated with
       | JUndefined => []
       | _ => [lit "filter[validated]=" ++ ToString validated]
       end in
  let? bySort := push_encoded "sort=" "" sort in
  Ok (append_joined url (lit "?")
        (((lit "page[size]=" ++ min_100 pageSize) :: bySort) ++ filters)).

Definition registered_getAccreditation_path (input : JsVal) : Res jsstring :=
  let? accreditationId := get input "accreditationId" in
  Ok (lit "/v2/accreditations/" ++ ToString accreditationId).

Close Scope res_scope.

(** The handlers by name, in registration order. *)
Definition registered_handlers : list (string * (JsVal -> M JsVal)) :=
  [ ("searchUsers", fun input => call_content (registered_searchUsers_path input));
    ("getCursusLevel", registered_getCursusLevel);
    ("getUserProjects", fun input => call_content (registered_getUserProjects_path input));
    ("getCoalition", fun input => call_content (registered_getCoalition_path input));
    ("getCampusUsers", fun input => call_content (registered_getCampusUsers_path input));
    ("getBalances", fun input => call_content (registered_getBalances_path input));
    ("getClusters", fun input => call_content (registered_getClusters_path input));
    ("getLocations", fun input => call_content (registered_getLocations_path input));
    ("getAttachments", fun input => call_content (registered_getAttachments_path input));
    ("getAttachment", fun input => call_content (registered_getAttachment_path input));
    ("getProjects", fun input => call_content (registered_getProjects_path input));
    ("getProject", fun input => call_content (registered_getProject_path input));
    ("getMyProjects", fun input => call_content (registered_getMyProjects_path input));
    ("getAccreditations",
     fun input => call_content (registered_getAccreditations_path input));
    ("getAccreditation",
     fun input => call_content (registered_getAccreditation_path input)) ].

Definition registered_tool (name : string) : option (JsVal -> M JsVal) :=
  option_map snd (find (fun entry => String.eqb name (fst entry)) registered_handlers).

(** *** The first revision of the transport

    The earlier [SimpleHttpMcpTransport.handleRequest], which knows four
    tools and two resources.  Its envelope handling, its [initialize]
    answer and its four [case]s of [switch (name)] are written as in the
    later revision (one local variable has another name there). *)

Definition first_tool_names : list string :=
  ["searchUsers"; "getCursusLevel"; "getUserProjects"; "getCoalition"].

Definition is_first_tool (name : JsVal) : bool :=
  existsb (is_str name) first_tool_names.

Definition first_tools : list JsVal :=
  [ tool_required "searchUsers"
      "Find 42 users by a case-insensitive login substring (max 5 results)"
      [("query", obj [("type", jstr "string");
                      ("description", jstr "Search query for user login");
                      ("minLength", JNum 2);
                      ("maxLength", JNum 30)])]
      ["query"];
    tool_required "getCursusLevel"
      "Returns the level of a user in a specific cursus"
      [("userId", prop "number" "42 user ID");
       ("cursusId", prop_default "number" "Cursus ID (default: 21 for 42cursus)" (JNum 21))]
      ["userId"];
    tool_required "getUserProjects"
      "Retrieve all projects for a specific user"
      [("userId", prop "number" "42 user ID");
       ("cursusId", prop "number" "Filter by cursus ID (optional)")]
      ["userId"];
    tool_required "getCoalition"
      "Get coalition information for a user"
      [("userId", prop "number" "42 user ID")]
      ["userId"] ].

Definition first_resources : list JsVal :=
  [ resource "42://me" "My 42 Profile" "Your own user object from 42 API";
    resource "42://campus" "42 Campus List" "List of all 42 campuses worldwide" ].

Definition first_tools_call (name args id : JsVal) : M JsVal :=
  if is_str name "searchUsers" then call_json (searchUsers_path args) id
  else if is_str name "getCursusLevel" then
    url <- lift (getCursusLevel_path args) ;;
    cursusUsers <- apiRequest url ;;
    levelText <- lift (getCursusLevel_text args cursusUsers) ;;
    ret (text_response levelText id)
  else if is_str name "getUserProjects" then call_json (getUserProjects_path args) id
  else if is_str name "getCoalition" then call_json (getCoalition_path args) id
  else ret (error_response (-32601) "Method not found" id).

Definition first_route (method params id : JsVal) : M JsVal :=
  if is_str method "initialize" then ret (result_response initialize_result id)
  else if is_str method "tools/list" then
    ret (result_response (obj [("tools", JArr first_tools)]) id)
  else if is_str method "tools/call" then
    name <- lift (get params "name") ;;
    args <- lift (get params "arguments") ;;
    first_tools_call name args id
  else if is_str method "resources/list" then
    ret (result_response (obj [("resources", JArr first_resources)]) id)
  else ret (error_response (-32601) "Method not found" id).

Definition first_handleRequest (requestBody : JsVal) : M JsVal :=
  jsonrpc <- lift (get requestBody "jsonrpc") ;;
  method <- lift (get requestBody "method") ;;
  params <- lift (get requestBody "params") ;;
  id <- lift (get requestBody "id") ;;
  if negb (is_str jsonrpc "2.0") then
    ret (error_response (-32600) "Invalid Request" (js_or id JNull))
  else
    try_catch (first_route method params id)
      (fun error =>
         console_error error ;;;
         ret (error_response (-32603) "Internal error" id)).

(** *** The resources registered with [server.registerResource]

    A resource is registered under a name with a fixed URI or a URI
    template, its metadata and a handler; the SDK runs the handler of a
    template with the variables it has read from the URI. *)

Inductive ResourceUri :=
| Fixed (uri : string)
| Template (uriTemplate : string).

Record Registration := registerResource
  { resource_name : string;
    resource_uri : ResourceUri;
    title : string;
    description : string;
    mimeType : string;
    readCallback : JsVal -> M JsVal }.

(** [{ contents: [{ uri, text }] }]. *)
Definition contents (uri text : jsstring) : JsVal :=
  obj [("contents", JArr [obj [("uri", JStr uri); ("text", JStr text)]])].

(** The handler of a fixed resource: [apiRequest(path)], answered under
    [uri]. *)
Definition read_fixed (path uri : string) (variables : JsVal) : M JsVal :=
  data <- apiRequest (lit path) ;;
  ret (contents (lit uri) (JSON_stringify data)).

(** [Array.isArray(x) ? x[0] : x]. *)
Definition first_if_array (x : JsVal) : JsVal :=
  match x with
  | JArr items => nth 0 items JUndefined
  | _ => x
  end.

(** The handler of a template: the variable [var] is put in the upstream
    path and in the URI of the answer. *)
Definition read_template (var path suffix uri : string) (variables : JsVal) : M JsVal :=
  value <- lift (get variables var) ;;
  let id := first_if_array value in
  data <- apiRequest (lit path ++ ToString id ++ lit suffix) ;;
  ret (contents (lit uri ++ ToString id) (JSON_stringify data)).

Definition registered_resources : list Registration :=
  [ registerResource "user" (Template "42://user/{id}")
      "42 User Profile"
      "JSON profile for a cadet or staff member fetched from 42 API"
      "application/json"
      (read_template "id" "/v2/users/" "" "42://user/");
    registerResource "me" (Fixed "42://me")
      "My 42 Profile" "Your own user object from 42 API" "application/json"
      (read_fixed "/v2/me" "42://me");
    registerResource "campus" (Fixed "42://campus")
      "42 Campus List" "List of all 42 campuses worldwide" "application/json"
      (read_fixed "/v2/campus" "42://campus");
    registerResource "attachments" (Template "42://attachments/{projectId}")
      "Project Attachments"
      "Attachments (PDFs, videos, links) for a specific project"
      "application/json"
      (read_template "projectId" "/v2/projects/" "/attachments" "42://attachments/");
    registerResource "all-attachments" (Fixed "42://attachments")
      "All Attachments"
      "List of all attachments (PDFs, videos, links) in the system"
      "application/json"
      (read_fixed "/v2/attachments?page[size]=100" "42://attachments");
    registerResource "project" (Template "42://project/{id}")
      "Project Details" "Detailed information about a specific project"
      "application/json"
      (read_template "id" "/v2/projects/" "" "42://project/");
    registerResource "all-projects" (Fixed "42://projects")
      "All Projects" "List of all projects in the system" "application/json"
      (read_fixed "/v2/projects?page[size]=100" "42://projects");
    registerResource "my-projects" (Fixed "42://me/projects")
      "My Projects" "List of projects for the current authenticated user"
      "application/json"
      (read_fixed "/v2/me/projects?page[size]=100" "42://me/projects");
    registerResource "accreditation" (Template "42://accreditation/{id}")
      "Accreditation Details"
      "Detailed information about a specific accreditation"
      "application/json"
      (read_template "id" "/v2/accreditations/" "" "42://accreditation/");
    registerResource "all-accreditations" (Fixed "42://accreditations")
      "All Accreditations" "List of all accreditations in the system"
      "application/json"
      (read_fixed "/v2/accreditations?page[size]=100" "42://accreditations") ].

(** The entry of [resources/list] that describes a registration. *)
Definition listing (r : Registration) : list JsVal :=
  match resource_uri r with
  | Fixed uri =>
    [obj [("uri", jstr uri); ("name", jstr (title r));
          ("description", jstr (description r));
          ("mimeType", jstr (mimeType r))]]
  | Template _ => []
  end.

(** A URI template with one variable, [before{var}after]: the name of the
    variable, and the URI it stands for when the variable has [value]. *)
Fixpoint upto (c : N) (s : jsstring) : jsstring :=
  match s with
  | [] => []
  | x :: rest => if N.eqb x c then [] else x :: upto c rest
  end.

Fixpoint past (c : N) (s : jsstring) : jsstring :=
  match s with
  | [] => []
  | x :: rest => if N.eqb x c then rest else past c rest
  end.

Definition template_variable (t : jsstring) : jsstring := upto 125 (past 123 t).

Definition expand (t value : jsstring) : jsstring :=
  upto 123 t ++ value ++ past 125 t.

(** *** The campus list script

    [create-campus-list.ts], up to the grouping of the campuses by country.
    The script reads the same two credentials from the environment and
    talks to the same upstream; it keeps no token cache.  Its [console.log]
    lines go to the standard output, which the state does not hold. *)

(** [getToken()]: the status of the answer is not looked at. *)
Definition getToken : M JsVal :=
  res <- fetch oauth_call ;;
  data <- res_json res ;;
  lift (get data "access_token").

(** [x === 0]. *)
Definition is_zero (x : JsVal) : bool :=
  match x with
  | JNum 0 => true
  | _ => false
  end.

(** [allCampuses.concat(campuses)]: an array is spread, any other value is
    appended as one element. *)
Definition Array_concat (allCampuses : list JsVal) (campuses : JsVal) : list JsVal :=
  match campuses with
  | JArr items => allCampuses ++ items
  | other => allCampuses ++ [other]
  end.

(** The [try] block of one turn of the loop, up to the assignment of
    [allCampuses]: [None] is a [break]. *)
Definition fetch_page (token : JsVal) (page : Z) (allCampuses : list JsVal)
    : M (option (list JsVal)) :=
  authorization <- lift (to_string token) ;;
  res <- fetch (GET (campus_url page) (lit "Bearer " ++ authorization)) ;;
  if negb (ok res) then ret None
  else
    campuses <- res_json res ;;
    length <- lift (get campuses "length") ;;
    if is_zero length then ret None
    else ret (Some (Array_concat allCampuses campuses)).

(** [while (true) { try { ... } catch (error) { ...; break } }], with the
    value of [allCampuses] when the loop is left; [None] when the loop is
    still running after [fuel] turns. *)
Fixpoint fetch_pages (fuel : nat) (token : JsVal) (page : Z) (allCampuses : list JsVal)
    : M (option (list JsVal)) :=
  match fuel with
  | O => ret None
  | S fuel' =>
    turn <- try_catch (fetch_page token page allCampuses)
                      (fun error => console_error error ;;; ret None) ;;
    match turn with
    | None => ret (Some allCampuses)
    | Some fetched =>
      if 10 <? page + 1 then ret (Some fetched)
      else fetch_pages fuel' token (page + 1) fetched
    end
  end.

(** The first part of [getAllCampuses]: the token, then the pages. *)
Definition allCampuses (fuel : nat) : M (option (list JsVal)) :=
  token <- getToken ;;
  fetch_pages fuel token 1 [].

Open Scope res_scope.

(** The names every object inherits from [Object.prototype]. *)
Definition inherited_names : list string :=
  ["constructor"; "__defineGetter__"; "__defineSetter__"; "hasOwnProperty";
   "__lookupGetter__"; "__lookupSetter__"; "isPrototypeOf";
   "propertyIsEnumerable"; "toString"; "valueOf"; "__proto__"; "toLocaleString"].

Definition is_inherited (key : jsstring) : bool :=
  existsb (fun name => str_eqb key (lit name)) inherited_names.

(** The property key [campus.country || 'Unknown'] stands for. *)
Definition country_key (campus : JsVal) : Res jsstring :=
  let? country := get campus "country" in
  Ok (ToString (js_or country (jstr "Unknown"))).

(** [if (!acc[key]) acc[key] = []; acc[key].push(campus)] on an
    accumulator whose own properties are [acc], in order of creation. *)
Fixpoint push_campus (key : jsstring) (campus : JsVal)
    (acc : list (jsstring * list JsVal)) : list (jsstring * list JsVal) :=
  match acc with
  | [] => [(key, [campus])]
  | (k, group) :: rest =>
    if str_eqb key k then (k, group ++ [campus]) :: rest
    else (k, group) :: push_campus key campus rest
  end.

(** The callback of [reduce].  Under an inherited name [acc[key]] is a
    function or the prototype, which is truthy and has no [push]. *)
Definition group_campus (acc : list (jsstring * list JsVal)) (campus : JsVal)
    : Res (list (jsstring * list JsVal)) :=
  let? key := country_key campus in
  if is_inherited key then Throw TypeError
  else Ok (push_campus key campus acc).

Fixpoint reduce (campuses : list JsVal) (acc : list (jsstring * list JsVal))
    : Res (list (jsstring * list JsVal)) :=
  match campuses with
  | [] => Ok acc
  | campus :: rest =>
    let? acc' := group_campus acc campus in
    reduce rest acc'
  end.

Definition campusesByCountry (allCampuses : list JsVal)
    : Res (list (jsstring * list JsVal)) :=
  reduce allCampuses [].



Close Scope res_scope.

(* ------------------------------------------------------------------------- *)
(** ** Properties *)

Unset Implicit Arguments.

(** *** Strings and property reads *)

Lemma str_eqb_eq (a b : jsstring) : str_eqb a b = true <-> a = b.
Proof.
  revert b; induction a as [|x a IH]; intros [|y b]; simpl; split;
    try discriminate; try reflexivity.
  - intros H. apply andb_true_iff in H as [Hx Hab].
    apply N.eqb_eq in Hx. apply IH in Hab. now subst.
  - intros H. injection H as -> ->.
    apply andb_true_iff. split; [apply N.eqb_refl | now apply IH].
Qed.

Lemma is_str_true (x : JsVal) (k : string) : is_str x k = true -> x = jstr k.
Proof.
  destruct x; simpl; try discriminate.
  intros H. apply str_eqb_eq in H. now subst.
Qed.

Lemma is_str_jstr (k : string) : is_str (jstr k) k = true.
Proof. simpl. now apply str_eqb_eq. Qed.

(** The four members of the envelope are read without failure from anything
    but [undefined] and [null], and read as [member] does. *)
Lemma get_envelope (req : JsVal) :
  nullish req = false ->
  get req "jsonrpc" = Ok (member "jsonrpc" req)
  /\ get req "method" = Ok (member "method" req)
  /\ get req "params" = Ok (member "params" req)
  /\ get req "id" = Ok (member "id" req).
Proof. destruct req; simpl; try discriminate; intros _; repeat split. Qed.

Lemma get_nullish (x : JsVal) (k : string) :
  nullish x = true -> get x k = Throw TypeError.
Proof. destruct x; simpl; try discriminate; reflexivity. Qed.

Lemma get_not_nullish (x : JsVal) (k : string) :
  nullish x = false -> exists y, get x k = Ok y.
Proof. destruct x; simpl; try discriminate; intros _; eexists; reflexivity. Qed.

(** *** Running a computation *)

Lemma bind_Ok {A B} {m : M A} (k : A -> M B) {s a s1} :
  m s = (Ok a, s1) -> bind m k s = k a s1.
Proof. unfold bind. now intros ->. Qed.

Lemma bind_Throw {A B} {m : M A} (k : A -> M B) {s e s1} :
  m s = (Throw e, s1) -> bind m k s = (Throw e, s1).
Proof. unfold bind. now intros ->. Qed.

Lemma bind_lift_Ok {A B} (a : A) (k : A -> M B) s :
  bind (lift (Ok a)) k s = k a s.
Proof. reflexivity. Qed.

Lemma bind_lift_Throw {A B} (e : Exn) (k : A -> M B) s :
  bind (lift (Throw e)) k s = (Throw e, s).
Proof. reflexivity. Qed.

(** [handleRequest] after the destructuring of the request body. *)
Lemma handleRequest_unfold (req : JsVal) (s : State) :
  nullish req = false ->
  handleRequest req s =
  (if negb (is_str (member "jsonrpc" req) "2.0") then
     ret (error_response (-32600) "Invalid Request" (js_or (member "id" req) JNull))
   else
     try_catch (route (member "method" req) (member "params" req) (member "id" req))
       (fun error =>
          console_error error ;;;
          ret (error_response (-32603) "Internal error" (member "id" req)))) s.
Proof.
  intros Hreq. destruct (get_envelope req Hreq) as (Hj & Hm & Hp & Hi).
  unfold handleRequest. rewrite Hj, Hm, Hp, Hi. reflexivity.
Qed.

(** A body that is [undefined] or [null] makes [handleRequest] itself throw:
    the destructuring stands before the [try]. *)
Lemma handleRequest_nullish (req : JsVal) (s : State) :
  nullish req = true -> handleRequest req s = (Throw TypeError, s).
Proof.
  intros Hreq. unfold handleRequest.
  rewrite (get_nullish req "jsonrpc" Hreq). reflexivity.
Qed.

(** *** Envelope validation *)

(** An envelope whose [jsonrpc] is not ["2.0"] is answered with -32600 and
    [id || null], and the state is untouched: no dispatch, no outbound call,
    nothing logged. *)
Lemma invalid_envelope (req : JsVal) (s : State) :
  nullish req = false ->
  is_str (member "jsonrpc" req) "2.0" = false ->
  handleRequest req s =
  (Ok (error_response (-32600) "Invalid Request" (js_or (member "id" req) JNull)), s).
Proof.
  intros Hreq Hv. rewrite handleRequest_unfold by assumption.
  rewrite Hv. reflexivity.
Qed.

Lemma member_id_error_response code message id :
  member "id" (error_response code message id) = id.
Proof. reflexivity. Qed.

Lemma member_id_result_response result id :
  member "id" (result_response result id) = id.
Proof. reflexivity. Qed.

(** *** What the dispatcher returns *)

(** Case analysis along a [switch]: one goal per [case] label that matches
    first, and a last goal where none does. *)
Ltac switch_on x :=
  repeat match goal with
         | |- context [if is_str x ?k then _ else _] =>
           let E := fresh "E" in destruct (is_str x k) eqn:E
         end.

(** Rewrites with every failed comparison [is_str x k = false] at hand. *)
Ltac skip_cases x :=
  repeat match goal with
         | E : is_str x _ = false |- _ => rewrite ?E in *; clear E
         end.

Lemma returns_ret {A} (P : A -> Prop) (a : A) : P a -> returns P (ret a).
Proof. intros H s a' s' E. injection E as <- _. exact H. Qed.

Lemma returns_bind {A B} (P : B -> Prop) (m : M A) (k : A -> M B) :
  (forall a, returns P (k a)) -> returns P (bind m k).
Proof.
  intros H s b s' E. unfold bind in E.
  destruct (m s) as [[a|e] s1]; [eapply H; eassumption | discriminate].
Qed.

Lemma returns_call_json (P : JsVal -> Prop) path id :
  (forall text, P (text_response text id)) -> returns P (call_json path id).
Proof.
  intros H. unfold call_json.
  apply returns_bind; intros url. apply returns_bind; intros data.
  apply returns_ret, H.
Qed.

Lemma returns_tools_call (P : JsVal -> Prop) name args id :
  (forall text, P (text_response text id)) ->
  P (error_response (-32601) "Method not found" id) ->
  returns P (tools_call name args id).
Proof.
  intros Htext Herr. unfold tools_call.
  switch_on name; try now apply returns_call_json.
  - apply returns_bind; intros url. apply returns_bind; intros cursusUsers.
    apply returns_bind; intros levelText. apply returns_ret, Htext.
  - now apply returns_ret.
Qed.

Lemma returns_route (P : JsVal -> Prop) method params id :
  (forall result, P (result_response result id)) ->
  P (error_response (-32601) "Method not found" id) ->
  returns P (route method params id).
Proof.
  intros Hres Herr. unfold route.
  switch_on method; try (apply returns_ret; solve [apply Hres | apply Herr]).
  apply returns_bind; intros name. apply returns_bind; intros args.
  apply returns_tools_call; [intros text; apply Hres | exact Herr].
Qed.

(** [handleRequest] answers every body that is not [undefined] or [null],
    in any state and against any upstream, with a result envelope or an
    error envelope; the envelope carries [id] when [jsonrpc] is ["2.0"] and
    [id || null] otherwise. *)
Lemma handleRequest_answers (req : JsVal) (s : State) :
  nullish req = false ->
  exists resp s',
    handleRequest req s = (Ok resp, s')
    /\ let id := if is_str (member "jsonrpc" req) "2.0"
                 then member "id" req
                 else js_or (member "id" req) JNull in
       (exists result, resp = result_response result id)
       \/ (exists code message, resp = error_response code message id).
Proof.
  intros Hreq. rewrite handleRequest_unfold by assumption.
  destruct (is_str (member "jsonrpc" req) "2.0"); cbv beta iota delta [negb].
  - unfold try_catch.
    destruct (route (member "method" req) (member "params" req) (member "id" req) s)
      as [[resp|e] s1] eqn:E.
    + exists resp, s1. split; [reflexivity|].
      revert E. generalize s resp s1. apply returns_route.
      * intros result. left. now exists result.
      * right. now exists (-32601), "Method not found".
    + exists (error_response (-32603) "Internal error" (member "id" req)), (logged e s1).
      split; [reflexivity|]. right. now exists (-32603), "Internal error".
  - eexists _, s. split; [reflexivity|].
    right. now exists (-32600), "Invalid Request".
Qed.

(** *** Tool and method lookup *)

Lemma tools_call_unknown (name args id : JsVal) (s : State) :
  is_tool name = false ->
  tools_call name args id s = (Ok (error_response (-32601) "Method not found" id), s).
Proof.
  unfold is_tool, tool_names, existsb. intros H.
  repeat (apply orb_false_iff in H as [? H]).
  unfold tools_call. skip_cases name. reflexivity.
Qed.

Lemma route_unknown (method params id : JsVal) (s : State) :
  is_method method = false ->
  route method params id s = (Ok (error_response (-32601) "Method not found" id), s).
Proof.
  unfold is_method, method_names, existsb. intros H.
  repeat (apply orb_false_iff in H as [? H]).
  unfold route. skip_cases method. reflexivity.
Qed.

Lemma route_tools_call (method params id : JsVal) (s : State) :
  is_str method "tools/call" = true ->
  route method params id s =
  (name <- lift (get params "name") ;;
   args <- lift (get params "arguments") ;;
   tools_call name args id) s.
Proof. intros H. apply is_str_true in H. subst. reflexivity. Qed.

Lemma handleRequest_valid (req : JsVal) (s : State) :
  nullish req = false ->
  is_str (member "jsonrpc" req) "2.0" = true ->
  handleRequest req s =
  try_catch (route (member "method" req) (member "params" req) (member "id" req))
    (fun error =>
       console_error error ;;;
       ret (error_response (-32603) "Internal error" (member "id" req))) s.
Proof.
  intros Hreq Hv. rewrite handleRequest_unfold by assumption. now rewrite Hv.
Qed.

(** Every registered name beyond the thirteen of the switch is unknown to
    the manual dispatcher, and every name of the switch is registered. *)
Lemma tool_names_registered : incl tool_names registeredTools.
Proof. intros x H. simpl in *. tauto. Qed.

(* ------------------------------------------------------------------------- *)
(** ** The claims about the envelope *)

(** C1 (the code departs from the claim).  The claim: an envelope whose
    [jsonrpc] is not ["2.0"] is answered with -32600 carrying the id of the
    request when it has one.  At the request
    [{"jsonrpc":"1.0","method":"initialize","params":{},"id":0}] the id is
    present and is the number 0, the answer is -32600, the state is
    untouched, but the answer carries [null]: [id || null] drops every falsy
    id. *)
Theorem invalid_envelope_drops_id_zero (s : State) :
  let req := request "1.0" "initialize" (obj []) (JNum 0) in
  has_member "id" req = true
  /\ member "id" req = JNum 0
  /\ handleRequest req s =
     (Ok (error_response (-32600) "Invalid Request" JNull), s).
Proof.
  intros req. split; [reflexivity | split; [reflexivity|]].
  apply invalid_envelope; reflexivity.
Qed.

(** C2 (amended).  For every request body other than [undefined] and
    [null], [handleRequest] returns a response; when [jsonrpc] is ["2.0"]
    the response carries the [id] of the request as it was read, whatever
    its type, and [undefined] when the request has none; when [jsonrpc] is
    not ["2.0"] the response carries the [id] of the request if it is
    truthy, and [null] if the request has none or has [null]. *)
Theorem response_id (req : JsVal) (s : State) :
  nullish req = false ->
  exists resp s',
    handleRequest req s = (Ok resp, s')
    /\ (is_str (member "jsonrpc" req) "2.0" = true ->
        member "id" resp = member "id" req)
    /\ (is_str (member "jsonrpc" req) "2.0" = false ->
        truthy (member "id" req) = true ->
        member "id" resp = member "id" req)
    /\ (is_str (member "jsonrpc" req) "2.0" = false ->
        nullish (member "id" req) = true ->
        member "id" resp = JNull).
Proof.
  intros Hreq.
  destruct (handleRequest_answers req s Hreq) as (resp & s' & E & H).
  exists resp, s'. split; [exact E|].
  assert (Hid : member "id" resp =
                if is_str (member "jsonrpc" req) "2.0"
                then member "id" req
                else js_or (member "id" req) JNull).
  { destruct H as [[result ->] | (code & message & ->)]; reflexivity. }
  rewrite Hid. repeat split.
  - now intros ->.
  - intros -> Ht. unfold js_or. now rewrite Ht.
  - intros -> Hn. unfold js_or.
    destruct (member "id" req); simpl in *; try discriminate; reflexivity.
Qed.


Lemma unknown_tool (req name : JsVal) (s : State) :
  nullish req = false ->
  is_str (member "jsonrpc" req) "2.0" = true ->
  is_str (member "method" req) "tools/call" = true ->
  get (member "params" req) "name" = Ok name ->
  is_tool name = false ->
  handleRequest req s =
  (Ok (error_response (-32601) "Method not found" (member "id" req)), s).
Proof.
  intros Hreq Hv Hm Hn Ht. rewrite handleRequest_valid by assumption.
  unfold try_catch. rewrite route_tools_call by assumption.
  assert (Hp : nullish (member "params" req) = false).
  { destruct (member "params" req); simpl in *; try discriminate; reflexivity. }
  destruct (get_not_nullish (member "params" req) "arguments" Hp) as [args Ha].
  rewrite Hn, Ha, !bind_lift_Ok.
  now rewrite tools_call_unknown.
Qed.

Lemma unknown_method (req : JsVal) (s : State) :
  nullish req = false ->
  is_str (member "jsonrpc" req) "2.0" = true ->
  is_method (member "method" req) = false ->
  handleRequest req s =
  (Ok (error_response (-32601) "Method not found" (member "id" req)), s).
Proof.
  intros Hreq Hv Hm. rewrite handleRequest_valid by assumption.
  unfold try_catch. now rewrite route_unknown.
Qed.

(** C5.  A request with [jsonrpc] ["2.0"] whose method is [tools/call] and
    whose [params.name] is none of the names the dispatcher knows, or whose
    method is none of [initialize], [tools/list], [tools/call] and
    [resources/list], is answered with -32601 ("Method not found") carrying
    the id of the request; the state is left as it was. *)
Theorem method_not_found (req name : JsVal) (s : State) :
  nullish req = false ->
  is_str (member "jsonrpc" req) "2.0" = true ->
  (is_str (member "method" req) "tools/call" = true
   /\ get (member "params" req) "name" = Ok name
   /\ is_tool name = false)
  \/ is_method (member "method" req) = false ->
  handleRequest req s =
  (Ok (error_response (-32601) "Method not found" (member "id" req)), s).
Proof.
  intros Hreq Hv [(Hm & Hn & Ht) | Hm].
  - now apply (unknown_tool req name).
  - now apply unknown_method.
Qed.

(** C9 (amended).  For a [tools/call] request with [jsonrpc] ["2.0"]: when
    [params] is absent or [null], the destructuring throws, the exception is
    caught and logged, and the answer is -32603 carrying the id of the
    request; when [params] is a boolean, a number, a string or an array, the
    destructuring succeeds with an undefined [name] and the answer is -32601
    carrying the id of the request. *)
Theorem params_destructuring (req : JsVal) (s : State) :
  nullish req = false ->
  is_str (member "jsonrpc" req) "2.0" = true ->
  is_str (member "method" req) "tools/call" = true ->
  (nullish (member "params" req) = true ->
   handleRequest req s =
   (Ok (error_response (-32603) "Internal error" (member "id" req)),
    logged TypeError s))
  /\ (nullish (member "params" req) = false ->
      is_object (member "params" req) = false ->
      is_function (member "params" req) = false ->
      handleRequest req s =
      (Ok (error_response (-32601) "Method not found" (member "id" req)), s)).
Proof.
  intros Hreq Hv Hm. split.
  - intros Hp. rewrite handleRequest_valid by assumption.
    unfold try_catch. rewrite route_tools_call by assumption.
    rewrite (get_nullish _ "name" Hp), bind_lift_Throw. reflexivity.
  - intros Hp Ho Hf. apply (unknown_tool req JUndefined); try assumption.
    + destruct (member "params" req); simpl in *; try discriminate; reflexivity.
    + reflexivity.
Qed.

(* ------------------------------------------------------------------------- *)
(** ** The token cache *)

Lemma tokenCache_get_run (s : State) :
  tokenCache_get s = (Ok (cached s), after_read s).
Proof.
  unfold after_read, cached, tokenCache_get.
  destruct (tokenCache s) as [e|]; [destruct (expired (t e) (now s))|]; reflexivity.
Qed.

Lemma after_read_hit (s : State) : truthy (cached s) = true -> after_read s = s.
Proof.
  unfold after_read, cached, tokenCache_get.
  destruct (tokenCache s) as [e|]; [destruct (expired (t e) (now s))|];
    simpl; try discriminate; reflexivity.
Qed.

Lemma after_read_frame (s : State) :
  now (after_read s) = now s /\ trace (after_read s) = trace s
  /\ console (after_read s) = console s.
Proof.
  unfold after_read, tokenCache_get.
  destruct (tokenCache s) as [e|]; [destruct (expired (t e) (now s))|];
    repeat split.
Qed.

(** A cache hit: the token is returned and nothing else happens. *)
Lemma getAccessToken_hit (s : State) :
  truthy (cached s) = true -> getAccessToken s = (Ok (cached s), s).
Proof.
  intros H. unfold getAccessToken.
  rewrite (bind_Ok _ (tokenCache_get_run s)), H, after_read_hit by assumption.
  reflexivity.
Qed.

(** A cache miss: the token exchange is attempted. *)
Lemma getAccessToken_miss (s : State) :
  truthy (cached s) = false ->
  getAccessToken s =
  (res <- fetch oauth_call ;;
   if negb (ok res) then
     throw (Error (lit "42 API oauth failure: " ++ decimal (status res)
                   ++ lit " " ++ text res))
   else
     body <- res_json res ;;
     access_token <- lift (get body "access_token") ;;
     expires_in <- lift (get body "expires_in") ;;
     tokenCache_set access_token (minus_60 (ToNumber expires_in)) ;;;
     ret access_token) (after_read s).
Proof.
  intros H. unfold getAccessToken.
  rewrite (bind_Ok _ (tokenCache_get_run s)), H. reflexivity.
Qed.

(** Whatever happens, [getAccessToken] makes no call or exactly the one
    token exchange. *)
Lemma getAccessToken_trace (s : State) r s' :
  getAccessToken s = (r, s') ->
  trace s' = trace s \/ trace s' = trace s ++ [oauth_call].
Proof.
  destruct (truthy (cached s)) eqn:H.
  - rewrite getAccessToken_hit by assumption. intros E. injection E as _ <-. now left.
  - rewrite getAccessToken_miss by assumption.
    destruct (after_read_frame s) as (_ & Ht & _).
    unfold bind, fetch. rewrite Ht.
    destruct (response _) as [res|]; cbv zeta.
    + destruct (negb (ok res)).
      * intros E. injection E as _ <-. now right.
      * unfold res_json. destruct (json res) as [body|].
        -- unfold ret, lift, tokenCache_set.
           destruct (get body "access_token"); [destruct (get body "expires_in")|];
             intros E; injection E as _ <-; now right.
        -- intros E. injection E as _ <-. now right.
    + intros E. injection E as _ <-. now right.
Qed.

(** A failed exchange: [getAccessToken] throws after exactly that call. *)
Lemma getAccessToken_oauth_fails (s : State) :
  truthy (cached s) = false -> oauth_fails s = true ->
  exists e s', getAccessToken s = (Throw e, s')
               /\ trace s' = trace s ++ [oauth_call].
Proof.
  intros Hmiss Hfail. rewrite getAccessToken_miss by assumption.
  destruct (after_read_frame s) as (Hn & Ht & _).
  unfold oauth_fails in Hfail. unfold bind, fetch. rewrite Ht, Hn.
  destruct (response _) as [res|]; cbv zeta.
  - rewrite Hfail. eexists _, _. split; reflexivity.
  - eexists _, _. split; reflexivity.
Qed.

(** A successful exchange: the token of the document is returned and stored
    with the lifetime [expires_in - 60]. *)
Lemma getAccessToken_exchange (s : State) res body access_token expires_in :
  truthy (cached s) = false ->
  let r := upstream (trace s) (now s) oauth_call in
  response r = Some res -> ok res = true -> json res = Some body ->
  get body "access_token" = Ok access_token ->
  get body "expires_in" = Ok expires_in ->
  getAccessToken s = (Ok access_token, after_exchange s r access_token expires_in).
Proof.
  intros Hmiss r Hres Hok Hjson Htok Hexp.
  rewrite getAccessToken_miss by assumption.
  destruct (after_read_frame s) as (Hn & Ht & Hc).
  unfold bind, fetch. rewrite Ht, Hn. fold r. rewrite Hres. cbv zeta.
  rewrite Hok. simpl negb. cbv iota.
  unfold res_json. rewrite Hjson. unfold ret, lift. rewrite Htok, Hexp.
  unfold tokenCache_set, after_exchange. simpl. now rewrite ?Ht, ?Hn, ?Hc.
Qed.

(** A stored token is served, without any call, as long as its entry has
    not expired. *)
Lemma getAccessToken_still_valid (s : State) (entry : Entry) (time : Z) :
  tokenCache s = Some entry ->
  expired (t entry) time = false ->
  truthy (v entry) = true ->
  getAccessToken (at_time time s) = (Ok (v entry), at_time time s).
Proof.
  intros Hc He Ht.
  assert (Hv : cached (at_time time s) = v entry).
  { unfold cached. simpl. now rewrite Hc, He. }
  rewrite <- Hv. apply getAccessToken_hit. now rewrite Hv.
Qed.

(** Once the entry has expired, the next call makes exactly one token
    exchange, whatever its result. *)
Lemma getAccessToken_after_expiry (s : State) (entry : Entry) r s' :
  tokenCache s = Some entry ->
  expired (t entry) (now s) = true ->
  getAccessToken s = (r, s') ->
  trace s' = trace s ++ [oauth_call].
Proof.
  intros Hc He E.
  assert (Hmiss : truthy (cached s) = false).
  { unfold cached. now rewrite Hc, He. }
  rewrite getAccessToken_miss in E by assumption.
  destruct (after_read_frame s) as (_ & Ht & _).
  unfold bind, fetch in E. rewrite Ht in E.
  destruct (response _) as [res|]; cbv zeta in E.
  - destruct (negb (ok res)).
    + injection E as _ <-. reflexivity.
    + unfold res_json in E. destruct (json res) as [body|].
      * unfold ret, lift, tokenCache_set in E.
        destruct (get body "access_token"); [destruct (get body "expires_in")|];
          injection E as _ <-; reflexivity.
      * injection E as _ <-. reflexivity.
  - injection E as _ <-. reflexivity.
Qed.

(** The lifetime given to a fresh token whose [expires_in] is a number other
    than 60: now plus [expires_in - 60] seconds. *)
Lemma livetime_expires_in (time e : Z) :
  e <> 60 ->
  livetime time (minus_60 (ToNumber (JNum e))) = Fin (time + (e - 60) * 1000).
Proof.
  intros He. simpl. destruct (e - 60) eqn:E; [lia | reflexivity | reflexivity].
Qed.

(** With [expires_in] equal to 60 the lifetime is 0, which node-cache reads
    as "never expires". *)
Lemma livetime_expires_in_60 (time : Z) :
  livetime time (minus_60 (ToNumber (JNum 60))) = Fin 0
  /\ forall later, expired (Fin 0) later = false.
Proof. split; reflexivity. Qed.

(** The contract of the token cache for an exchange that answers a truthy
    token and a numeric [expires_in] other than 60: one exchange, the token
    stored with expiry [now + expires_in - 60 s], served without I/O until
    then, and exchanged anew (exactly once) afterwards. *)
Lemma token_cache_contract (s : State) res body access_token (e : Z) :
  truthy (cached s) = false ->
  let r := upstream (trace s) (now s) oauth_call in
  response r = Some res -> ok res = true -> json res = Some body ->
  get body "access_token" = Ok access_token ->
  truthy access_token = true ->
  get body "expires_in" = Ok (JNum e) ->
  e <> 60 ->
  let s1 := after_exchange s r access_token (JNum e) in
  let expiresAt := now s1 + (e - 60) * 1000 in
  getAccessToken s = (Ok access_token, s1)
  /\ trace s1 = trace s ++ [oauth_call]
  /\ tokenCache s1 = Some {| t := Fin expiresAt; v := access_token |}
  /\ (forall time, time <= expiresAt ->
      getAccessToken (at_time time s1) = (Ok access_token, at_time time s1))
  /\ (forall time r' s', expiresAt < time -> expiresAt <> 0 ->
      getAccessToken (at_time time s1) = (r', s') ->
      trace s' = trace s1 ++ [oauth_call]).
Proof.
  intros Hmiss r Hres Hok Hjson Htok Htruthy Hexp He s1 expiresAt.
  assert (Hcache : tokenCache s1 = Some {| t := Fin expiresAt; v := access_token |}).
  { unfold s1, after_exchange. cbn [tokenCache]. now rewrite livetime_expires_in. }
  repeat split.
  - now apply (getAccessToken_exchange s res body).
  - exact Hcache.
  - intros time Hle.
    apply (getAccessToken_still_valid s1 {| t := Fin expiresAt; v := access_token |});
      [exact Hcache | | exact Htruthy].
    cbn [t expired]. apply andb_false_iff. right. apply Z.ltb_ge. exact Hle.
  - intros time r' s' Hlt Hnz E.
    assert (Hexpired : expired (Fin expiresAt) (now (at_time time s1)) = true).
    { cbn [expired at_time now]. apply andb_true_iff. split.
      - apply negb_true_iff, Z.eqb_neq. exact Hnz.
      - apply Z.ltb_lt. exact Hlt. }
    exact (getAccessToken_after_expiry (at_time time s1) _ r' s' Hcache Hexpired E).
Qed.

(* ------------------------------------------------------------------------- *)
(** ** The API client *)

Lemma apiRequest_run (path : jsstring) (s s1 : State) (token : JsVal) :
  getAccessToken s = (Ok token, s1) ->
  let c := api_call path token in
  let r := upstream (trace s1) (now s1) c in
  apiRequest path s = (api_outcome r, after_get s1 r c).
Proof.
  intros Htok c r. unfold apiRequest.
  rewrite (bind_Ok _ Htok). unfold bind, fetch, api_outcome.
  fold (api_call path token). fold c. fold r.
  destruct (response r) as [res|]; cbv zeta; [|reflexivity].
  destruct (negb (ok res)); [reflexivity|].
  unfold res_json. destruct (json res); reflexivity.
Qed.

Lemma apiRequest_no_token (path : jsstring) {s s1 : State} {e : Exn} :
  getAccessToken s = (Throw e, s1) -> apiRequest path s = (Throw e, s1).
Proof. intros H. unfold apiRequest. now rewrite (bind_Throw _ H). Qed.

Lemma call_json_no_token (path : Res jsstring) (id : JsVal) (s : State) :
  (exists e s1, getAccessToken s = (Throw e, s1)) ->
  exists e s1, call_json path id s = (Throw e, s1).
Proof.
  intros (e & s1 & H). unfold call_json. destruct path as [url|e'].
  - rewrite bind_lift_Ok. rewrite (bind_Throw _ (apiRequest_no_token url H)).
    now exists e, s1.
  - rewrite bind_lift_Throw. now exists e', s.
Qed.

(** Without a token every known tool throws. *)
Lemma tools_call_no_token (name args id : JsVal) (s : State) :
  is_tool name = true ->
  (exists e s1, getAccessToken s = (Throw e, s1)) ->
  exists e s1, tools_call name args id s = (Throw e, s1).
Proof.
  intros Htool Hno. unfold tools_call.
  switch_on name; try now apply call_json_no_token.
  - destruct (getCursusLevel_path args) as [url|e'].
    + rewrite bind_lift_Ok. destruct Hno as (e & s1 & H).
      rewrite (bind_Throw _ (apiRequest_no_token url H)). now exists e, s1.
    + rewrite bind_lift_Throw. now exists e', s.
  - exfalso. unfold is_tool, tool_names, existsb in Htool.
    skip_cases name. discriminate.
Qed.

(* ------------------------------------------------------------------------- *)
(** ** The claims about failures, tools and scenarios *)

Lemma route_throws (req : JsVal) (s s1 : State) (e : Exn) :
  nullish req = false ->
  is_str (member "jsonrpc" req) "2.0" = true ->
  route (member "method" req) (member "params" req) (member "id" req) s = (Throw e, s1) ->
  handleRequest req s =
  (Ok (error_response (-32603) "Internal error" (member "id" req)), logged e s1).
Proof.
  intros Hreq Hv E. rewrite handleRequest_valid by assumption.
  unfold try_catch. rewrite E. reflexivity.
Qed.

(** C3.  For every request with [jsonrpc] ["2.0"]: an exception thrown by
    the routing, whatever it is, is turned into the response -32603 with the
    fixed message "Internal error" and the id of the request, which holds
    nothing of the exception; [handleRequest] itself always returns; and
    when no token is cached and the token exchange fails, a [tools/call] of
    a known tool is answered with -32603, after which every further request
    is still answered. *)
Theorem failure_containment (req : JsVal) (s : State) :
  nullish req = false ->
  is_str (member "jsonrpc" req) "2.0" = true ->
  (forall e s1,
      route (member "method" req) (member "params" req) (member "id" req) s
      = (Throw e, s1) ->
      handleRequest req s =
      (Ok (error_response (-32603) "Internal error" (member "id" req)), logged e s1))
  /\ (exists resp s', handleRequest req s = (Ok resp, s'))
  /\ (forall name,
        is_str (member "method" req) "tools/call" = true ->
        get (member "params" req) "name" = Ok name ->
        is_tool name = true ->
        truthy (cached s) = false ->
        oauth_fails s = true ->
        exists s',
          handleRequest req s =
          (Ok (error_response (-32603) "Internal error" (member "id" req)), s')
          /\ forall req', nullish req' = false ->
                          exists resp' s'', handleRequest req' s' = (Ok resp', s'')).
Proof.
  intros Hreq Hv. split; [|split].
  - intros e s1 E. now apply route_throws.
  - destruct (handleRequest_answers req s Hreq) as (resp & s' & E & _).
    now exists resp, s'.
  - intros name Hm Hn Htool Hmiss Hfail.
    destruct (getAccessToken_oauth_fails s Hmiss Hfail) as (e & s1 & Htok & _).
    assert (Hp : nullish (member "params" req) = false).
    { destruct (member "params" req); simpl in *; try discriminate; reflexivity. }
    destruct (get_not_nullish (member "params" req) "arguments" Hp) as [args Ha].
    destruct (tools_call_no_token name args (member "id" req) s Htool)
      as (e' & s' & E); [now exists e, s1|].
    exists (logged e' s'). split.
    + apply route_throws; try assumption.
      rewrite route_tools_call by assumption.
      now rewrite Hn, Ha, !bind_lift_Ok.
    + intros req' Hreq'.
      destruct (handleRequest_answers req' (logged e' s') Hreq') as (resp' & s'' & E' & _).
      now exists resp', s''.
Qed.

Lemma skipn_length_app {A} (l r : list A) : skipn (List.length l) (l ++ r) = r.
Proof. induction l; simpl; auto. Qed.

(** The calls [getAccessToken] makes are never GETs. *)
Lemma getAccessToken_no_GET (s : State) r s1 :
  getAccessToken s = (r, s1) ->
  exists pre, trace s1 = trace s ++ pre /\ filter is_GET pre = [].
Proof.
  intros E. destruct (getAccessToken_trace s r s1 E) as [H|H].
  - exists []. now rewrite app_nil_r.
  - now exists [oauth_call].
Qed.

(** C7.  For the request of scenario B, once the token is there (cached or
    freshly exchanged) and the upstream answers the GET with a 2xx response
    whose body is the JSON document [users]: the dispatcher sends the GET
    [/v2/users?filter[login]=jd&page[size]=5], it is the only GET among the
    calls of this request, and the response is the single text item holding
    [JSON.stringify(users, null, 2)], with id 2. *)
Theorem searchUsers_scenario (s s1 : State) (token users : JsVal) (res : HttpResponse) :
  let c := api_call (lit "/v2/users?filter[login]=jd&page[size]=5") token in
  let r := upstream (trace s1) (now s1) c in
  getAccessToken s = (Ok token, s1) ->
  response r = Some res ->
  ok res = true ->
  json res = Some users ->
  exists s',
    handleRequest scenario_B s =
    (Ok (text_response (JSON_stringify users) (JNum 2)), s')
    /\ trace s' = trace s1 ++ [c]
    /\ filter is_GET (new_calls s s') = [c].
Proof.
  intros c r Htok Hres Hok Hjson.
  exists (after_get s1 r c).
  assert (Hout : api_outcome r = Ok users).
  { unfold api_outcome. now rewrite Hres, Hok, Hjson. }
  split; [|split].
  - rewrite handleRequest_valid by reflexivity. unfold try_catch.
    change (route (member "method" scenario_B) (member "params" scenario_B)
                  (member "id" scenario_B))
      with (call_json (Ok (lit "/v2/users?filter[login]=jd&page[size]=5")) (JNum 2)).
    unfold call_json. rewrite bind_lift_Ok.
    pose proof (apiRequest_run (lit "/v2/users?filter[login]=jd&page[size]=5")
                  s s1 token Htok) as Hrun.
    cbv zeta in Hrun. fold c in Hrun. fold r in Hrun. rewrite Hout in Hrun.
    rewrite (bind_Ok _ Hrun). reflexivity.
  - reflexivity.
  - destruct (getAccessToken_no_GET s _ _ Htok) as (pre & Hpre & Hno).
    unfold new_calls. cbn [after_get trace]. rewrite Hpre, <- app_assoc.
    rewrite skipn_length_app, filter_app, Hno. reflexivity.
Qed.

(** *** [getCursusLevel] *)

Lemma getCursusLevel_path_falsy (args userId cursusId : JsVal) :
  get args "userId" = Ok userId ->
  get args "cursusId" = Ok cursusId ->
  truthy cursusId = false ->
  getCursusLevel_path args =
  Ok (lit "/v2/users/" ++ ToString userId ++ lit "/cursus_users?filter[cursus_id]=21").
Proof.
  intros Hu Hc Hf. unfold getCursusLevel_path.
  rewrite Hu. cbn [res_bind]. rewrite Hc. cbn [res_bind].
  unfold js_or. rewrite Hf. reflexivity.
Qed.

Lemma getCursusLevel_text_falsy (args cursusId cursusUsers : JsVal) (text : jsstring) :
  get args "cursusId" = Ok cursusId ->
  truthy cursusId = false ->
  getCursusLevel_text args cursusUsers = Ok text ->
  text = lit "User not enrolled in this cursus."
  \/ exists level, text = lit "Level " ++ ToString level ++ lit " in cursus 21".
Proof.
  intros Hc Hf. unfold getCursusLevel_text.
  destruct (get cursusUsers "length") as [len|]; cbn [res_bind]; [|discriminate].
  destruct (truthy len).
  - destruct (get0 cursusUsers) as [first|]; cbn [res_bind]; [|discriminate].
    destruct (get first "level") as [level|]; cbn [res_bind]; [|discriminate].
    rewrite Hc. cbn [res_bind]. unfold js_or. rewrite Hf.
    intros E. injection E as <-. right. now exists level.
  - intros E. injection E as <-. now left.
Qed.

Lemma api_outcome_Ok (r : Reply) (res : HttpResponse) (data : JsVal) :
  response r = Some res -> ok res = true -> json res = Some data ->
  api_outcome r = Ok data.
Proof. intros Hres Hok Hjson. unfold api_outcome. now rewrite Hres, Hok, Hjson. Qed.

Lemma getCursusLevel_text_read (args cursusId cursusUsers len : JsVal) :
  get args "cursusId" = Ok cursusId ->
  truthy cursusId = false ->
  get cursusUsers "length" = Ok len ->
  (truthy len = false ->
   getCursusLevel_text args cursusUsers = Ok (lit "User not enrolled in this cursus."))
  /\ (truthy len = true ->
      forall first level,
        get0 cursusUsers = Ok first -> get first "level" = Ok level ->
        getCursusLevel_text args cursusUsers
        = Ok (lit "Level " ++ ToString level ++ lit " in cursus 21")).
Proof.
  intros Hc Hf Hlen. unfold getCursusLevel_text. rewrite Hlen. cbn [res_bind].
  split; intros Ht; rewrite Ht; [reflexivity|].
  intros first level Hfirst Hlevel. rewrite Hfirst. cbn [res_bind].
  rewrite Hlevel. cbn [res_bind]. rewrite Hc. cbn [res_bind].
  unfold js_or. now rewrite Hf.
Qed.

(** C10.  For a [tools/call] of [getCursusLevel] whose [cursusId] argument
    is falsy (omitted, [null], 0, and likewise [false] or the empty string)
    and whose [userId] is converted exactly, once the token is there: the
    dispatcher sends exactly one GET, to
    [/v2/users/<userId>/cursus_users?filter[cursus_id]=21].  When the answer
    is a 2xx document with a falsy [length], the response is the text "User
    not enrolled in this cursus."; when it has a truthy [length] and a
    first element with a [level] that is converted exactly, the response is
    the text "Level <level> in cursus 21"; in every case the response is
    one of these two or the internal error. *)
Theorem getCursusLevel_falsy_cursusId
    (req args userId cursusId token : JsVal) (s s1 : State) :
  nullish req = false ->
  is_str (member "jsonrpc" req) "2.0" = true ->
  is_str (member "method" req) "tools/call" = true ->
  get (member "params" req) "name" = Ok (jstr "getCursusLevel") ->
  get (member "params" req) "arguments" = Ok args ->
  get args "userId" = Ok userId ->
  printable userId = true ->
  get args "cursusId" = Ok cursusId ->
  truthy cursusId = false ->
  getAccessToken s = (Ok token, s1) ->
  let c := api_call (lit "/v2/users/" ++ ToString userId
                     ++ lit "/cursus_users?filter[cursus_id]=21") token in
  let id := member "id" req in
  let r := upstream (trace s1) (now s1) c in
  exists resp s',
    handleRequest req s = (Ok resp, s')
    /\ trace s' = trace s1 ++ [c]
    /\ filter is_GET (new_calls s s') = [c]
    /\ (forall res cursusUsers len,
           response r = Some res -> ok res = true -> json res = Some cursusUsers ->
           get cursusUsers "length" = Ok len ->
           (truthy len = false ->
            resp = text_response (lit "User not enrolled in this cursus.") id)
           /\ (truthy len = true ->
               forall first level,
                 get0 cursusUsers = Ok first -> get first "level" = Ok level ->
                 printable level = true ->
                 resp = text_response
                          (lit "Level " ++ ToString level ++ lit " in cursus 21") id))
    /\ (resp = error_response (-32603) "Internal error" id
        \/ resp = text_response (lit "User not enrolled in this cursus.") id
        \/ exists level,
            resp = text_response
                     (lit "Level " ++ ToString level ++ lit " in cursus 21") id).
Proof.
  intros Hreq Hv Hm Hn Ha Hu _ Hc Hf Htok c id r.
  set (path := lit "/v2/users/" ++ ToString userId
               ++ lit "/cursus_users?filter[cursus_id]=21").
  pose proof (apiRequest_run path s s1 token Htok) as Hrun.
  change (apiRequest path s = (api_outcome r, after_get s1 r c)) in Hrun.
  assert (Hcalls : filter is_GET (new_calls s (after_get s1 r c)) = [c]).
  { destruct (getAccessToken_no_GET s _ _ Htok) as (pre & Hpre & Hno).
    unfold new_calls. cbn [after_get trace]. rewrite Hpre, <- app_assoc.
    rewrite skipn_length_app, filter_app, Hno. reflexivity. }
  assert (E : handleRequest req s
              = (Ok (match api_outcome r with
                     | Ok cursusUsers =>
                       match getCursusLevel_text args cursusUsers with
                       | Ok text => text_response text id
                       | Throw _ => error_response (-32603) "Internal error" id
                       end
                     | Throw _ => error_response (-32603) "Internal error" id
                     end),
                 match api_outcome r with
                 | Ok cursusUsers =>
                   match getCursusLevel_text args cursusUsers with
                   | Ok _ => after_get s1 r c
                   | Throw e => logged e (after_get s1 r c)
                   end
                 | Throw e => logged e (after_get s1 r c)
                 end)).
  { rewrite handleRequest_valid by assumption. unfold try_catch.
    rewrite route_tools_call by assumption.
    rewrite Hn, Ha, !bind_lift_Ok. fold id.
    change (tools_call (jstr "getCursusLevel") args id)
      with (url <- lift (getCursusLevel_path args) ;;
            cursusUsers <- apiRequest url ;;
            levelText <- lift (getCursusLevel_text args cursusUsers) ;;
            ret (text_response levelText id)).
    rewrite (getCursusLevel_path_falsy args userId cursusId Hu Hc Hf), bind_lift_Ok.
    fold path. destruct (api_outcome r) as [cursusUsers|e].
    - rewrite (bind_Ok _ Hrun).
      destruct (getCursusLevel_text args cursusUsers) as [text|e] eqn:T.
      + rewrite bind_lift_Ok. reflexivity.
      + rewrite bind_lift_Throw. reflexivity.
    - rewrite (bind_Throw _ Hrun). reflexivity. }
  eexists _, _. split; [exact E|].
  split; [destruct (api_outcome r) as [cu|]; [destruct (getCursusLevel_text args cu)|];
          reflexivity|].
  split; [destruct (api_outcome r) as [cu|]; [destruct (getCursusLevel_text args cu)|];
          exact Hcalls|].
  split.
  - intros res cursusUsers len Hres Hok Hjson Hlen.
    rewrite (api_outcome_Ok r res cursusUsers Hres Hok Hjson).
    destruct (getCursusLevel_text_read args cursusId cursusUsers len Hc Hf Hlen)
      as [Hnone Hsome].
    split.
    + intros Ht. now rewrite (Hnone Ht).
    + intros Ht first level Hfirst Hlevel _. now rewrite (Hsome Ht first level Hfirst Hlevel).
  - destruct (api_outcome r) as [cursusUsers|e]; [|now left].
    destruct (getCursusLevel_text args cursusUsers) as [text|e] eqn:T; [|now left].
    right.
    destruct (getCursusLevel_text_falsy args cursusId cursusUsers text Hc Hf T)
      as [-> | [level ->]]; [now left | right; now exists level].
Qed.

(** *** Advertised and accepted tools *)

Lemma is_tool_In (name : JsVal) :
  is_tool name = true <-> In name (map jstr tool_names).
Proof.
  unfold is_tool. rewrite existsb_exists, in_map_iff. split.
  - intros (k & Hin & Hk). exists k. split; [|exact Hin].
    symmetry. now apply is_str_true.
  - intros (k & <- & Hin). exists k. split; [exact Hin | apply is_str_jstr].
Qed.

(** A known tool never answers "Method not found": what it returns is a
    text result. *)
Lemma tools_call_known (name args id : JsVal) :
  is_tool name = true ->
  returns (fun resp => exists text, resp = text_response text id)
          (tools_call name args id).
Proof.
  intros Htool. unfold tools_call.
  switch_on name;
    try (apply returns_call_json; intros text; now exists text).
  - apply returns_bind; intros url. apply returns_bind; intros cursusUsers.
    apply returns_bind; intros levelText. apply returns_ret. now exists levelText.
  - exfalso. unfold is_tool, tool_names, existsb in Htool.
    skip_cases name. discriminate.
Qed.

(** C6 (amended).  The names advertised by [tools/list] are, in order, the
    names of the [switch] of [tools/call], and a name is advertised exactly
    when [tools/call] does not answer it with "Method not found".  Each
    advertised input descriptor is the JSON-Schema rendering (type, required
    fields, defaults, length bounds) of the schema registered under the same
    name with [server.registerTool].  The manual [tools/call] does not
    validate the arguments against it: for [searchUsers], a [query] string
    of any length whose encoding succeeds is sent upstream in the GET, once
    the token is there. *)
Theorem advertised_tools_are_accepted_unvalidated :
  map (member "name") tools = map jstr tool_names
  /\ map (member "inputSchema") tools = map registered_descriptor tool_names
  /\ (forall name,
        In name (map (member "name") tools) <->
        forall args id s,
          fst (tools_call name args id s)
          <> Ok (error_response (-32601) "Method not found" id))
  /\ (forall (q e : jsstring) (args id token : JsVal) (s s1 : State),
        get args "query" = Ok (JStr q) ->
        Encode q = Ok e ->
        getAccessToken s = (Ok token, s1) ->
        exists r s',
          tools_call (jstr "searchUsers") args id s = (r, s')
          /\ trace s' =
             trace s1 ++ [api_call (lit "/v2/users?filter[login]=" ++ e
                                    ++ lit "&page[size]=5") token]).
Proof.
  assert (Hnames : map (member "name") tools = map jstr tool_names) by reflexivity.
  split; [exact Hnames | split; [reflexivity | split]].
  - intros name. rewrite Hnames, <- is_tool_In. split.
    + intros Htool args id s E.
      destruct (tools_call name args id s) as [r s'] eqn:R. simpl in E. subst r.
      destruct (tools_call_known name args id Htool _ _ _ R) as [text Habs].
      discriminate Habs.
    + intros H. destruct (is_tool name) eqn:Htool; [reflexivity|].
      exfalso. apply (H JUndefined JUndefined fresh).
      now rewrite tools_call_unknown.
  - intros q e args id token s s1 Hq He Htok.
    change (tools_call (jstr "searchUsers") args id)
      with (call_json (searchUsers_path args) id).
    unfold call_json, searchUsers_path, encodeURIComponent.
    rewrite Hq. cbn [res_bind ToString]. rewrite He. cbn [res_bind].
    rewrite bind_lift_Ok.
    pose proof (apiRequest_run (lit "/v2/users?filter[login]=" ++ e
                                ++ lit "&page[size]=5") s s1 token Htok) as Hrun.
    cbv zeta in Hrun.
    destruct (api_outcome _) as [data|err].
    + rewrite (bind_Ok _ Hrun). eexists _, _. split; reflexivity.
    + rewrite (bind_Throw _ Hrun). eexists _, _. split; reflexivity.
Qed.

(* ------------------------------------------------------------------------- *)
(** ** More on the token cache *)

(** On a miss the exchange is attempted exactly once, whatever comes of
    it. *)
Lemma getAccessToken_miss_trace (s : State) r s' :
  truthy (cached s) = false ->
  getAccessToken s = (r, s') ->
  trace s' = trace s ++ [oauth_call].
Proof.
  intros Hmiss E.
  rewrite getAccessToken_miss in E by assumption.
  destruct (after_read_frame s) as (_ & Ht & _).
  unfold bind, fetch in E. rewrite Ht in E.
  destruct (response _) as [res|]; cbv zeta in E.
  - destruct (negb (ok res)).
    + injection E as _ <-. reflexivity.
    + unfold res_json in E. destruct (json res) as [body|].
      * unfold ret, lift, tokenCache_set in E.
        destruct (get body "access_token"); [destruct (get body "expires_in")|];
          injection E as _ <-; reflexivity.
      * injection E as _ <-. reflexivity.
  - injection E as _ <-. reflexivity.
Qed.

(** What a miss leaves in the cache cannot be served later either. *)
Lemma miss_stays_miss (s x : State) (time : Z) :
  truthy (cached s) = false ->
  tokenCache x = tokenCache (after_read s) ->
  truthy (cached (at_time time x)) = false.
Proof.
  intros Hmiss Hx. unfold cached. cbn [at_time tokenCache now]. rewrite Hx.
  unfold after_read, tokenCache_get. unfold cached in Hmiss.
  destruct (tokenCache s) as [e|] eqn:Ec;
    [|cbn [snd]; rewrite Ec; reflexivity].
  destruct (expired (t e) (now s)) eqn:Ee; cbn [snd tokenCache]; [reflexivity|].
  rewrite Ec. destruct (expired (t e) time); [reflexivity | exact Hmiss].
Qed.

(** The life of a stored entry: served without any call up to its time of
    death, exchanged anew (one call) afterwards. *)
Lemma entry_lifetime (s : State) (expiresAt : Z) (token : JsVal) :
  tokenCache s = Some {| t := Fin expiresAt; v := token |} ->
  truthy token = true ->
  (forall time, time <= expiresAt ->
     getAccessToken (at_time time s) = (Ok token, at_time time s))
  /\ (forall time r' s', expiresAt < time -> expiresAt <> 0 ->
        getAccessToken (at_time time s) = (r', s') ->
        trace s' = trace s ++ [oauth_call]).
Proof.
  intros Hcache Htruthy. split.
  - intros time Hle.
    apply (getAccessToken_still_valid s {| t := Fin expiresAt; v := token |});
      [exact Hcache | | exact Htruthy].
    cbn [t expired]. apply andb_false_iff. right. now apply Z.ltb_ge.
  - intros time r' s' Hlt Hnz E.
    assert (Hexpired : expired (Fin expiresAt) (now (at_time time s)) = true).
    { cbn [expired at_time now]. apply andb_true_iff. split.
      - now apply negb_true_iff, Z.eqb_neq.
      - now apply Z.ltb_lt. }
    exact (getAccessToken_after_expiry (at_time time s) _ r' s' Hcache Hexpired E).
Qed.

(** X1.  The life of a token.  When the cache holds no usable token and
    the exchange answers a truthy token with an [expires_in] that is not
    negative and not 60, the clock reading more than a minute after the
    epoch and the times being safe integers: one exchange is made, the token
    is stored with expiry [now + expires_in - 60 s], it is served without
    any call at every time up to that expiry, and at every time after it
    exactly one new exchange is made. *)
Theorem token_is_served_until_its_expiry
    (s : State) res body access_token (e : Z) :
  truthy (cached s) = false ->
  let r := upstream (trace s) (now s) oauth_call in
  response r = Some res -> ok res = true -> json res = Some body ->
  get body "access_token" = Ok access_token ->
  truthy access_token = true ->
  get body "expires_in" = Ok (JNum e) ->
  0 <= e -> e <> 60 ->
  60000 < now s + latency r ->
  is_safe_integer (now s + latency r + e * 1000) = true ->
  let s1 := after_exchange s r access_token (JNum e) in
  let expiresAt := now s1 + (e - 60) * 1000 in
  getAccessToken s = (Ok access_token, s1)
  /\ trace s1 = trace s ++ [oauth_call]
  /\ tokenCache s1 = Some {| t := Fin expiresAt; v := access_token |}
  /\ (forall time, time <= expiresAt ->
      getAccessToken (at_time time s1) = (Ok access_token, at_time time s1))
  /\ (forall time r' s', expiresAt < time ->
      getAccessToken (at_time time s1) = (r', s') ->
      trace s' = trace s1 ++ [oauth_call]).
Proof.
  intros Hmiss r Hres Hok Hjson Htok Htruthy Hexp He0 He Hclock _ s1 expiresAt.
  assert (Hcache : tokenCache s1 = Some {| t := Fin expiresAt; v := access_token |}).
  { unfold s1, after_exchange. cbn [tokenCache]. now rewrite livetime_expires_in. }
  assert (Hpositive : expiresAt <> 0).
  { unfold expiresAt, s1, after_exchange. cbn [now]. fold r. lia. }
  destruct (entry_lifetime s1 expiresAt access_token Hcache Htruthy) as [Hserved Hnext].
  split; [now apply (getAccessToken_exchange s res body)|].
  split; [reflexivity|]. split; [exact Hcache|]. split; [exact Hserved|].
  intros time r' s' Hlt. now apply Hnext.
Qed.

(** X2.  A token exchange answered with a status outside 200..299 throws an
    error whose message holds the status and the body; nothing is stored, so
    the failure is not remembered: whenever [getAccessToken] is called next,
    it makes the exchange again. *)
Theorem failed_exchange_is_not_cached (s : State) (res : HttpResponse) :
  truthy (cached s) = false ->
  response (upstream (trace s) (now s) oauth_call) = Some res ->
  ok res = false ->
  exists s',
    getAccessToken s =
    (Throw (Error (lit "42 API oauth failure: " ++ decimal (status res)
                   ++ lit " " ++ text res)), s')
    /\ trace s' = trace s ++ [oauth_call]
    /\ tokenCache s' = tokenCache (after_read s)
    /\ forall time r2 s2,
        getAccessToken (at_time time s') = (r2, s2) ->
        trace s2 = trace s' ++ [oauth_call].
Proof.
  intros Hmiss Hres Hok.
  destruct (after_read_frame s) as (Hn & Ht & _).
  assert (E : exists s',
             getAccessToken s =
             (Throw (Error (lit "42 API oauth failure: " ++ decimal (status res)
                            ++ lit " " ++ text res)), s')
             /\ tokenCache s' = tokenCache (after_read s)).
  { rewrite getAccessToken_miss by assumption.
    unfold bind, fetch. rewrite Ht, Hn, Hres. cbv zeta. rewrite Hok.
    eexists. split; reflexivity. }
  destruct E as (s' & E & Hcache). exists s'.
  split; [exact E|]. split; [exact (getAccessToken_miss_trace s _ _ Hmiss E)|].
  split; [exact Hcache|].
  intros time r2 s2 E2.
  apply (getAccessToken_miss_trace (at_time time s') r2 s2); [|exact E2].
  now apply (miss_stays_miss s).
Qed.

(** X3.  When the token document has no [expires_in], the lifetime handed
    to the cache is not a number and the cache falls back to its standard
    lifetime: the token is kept 50 minutes, served without any call until
    then and exchanged anew afterwards. *)
Theorem token_without_expires_in_is_kept_50_minutes
    (s : State) res body access_token :
  truthy (cached s) = false ->
  let r := upstream (trace s) (now s) oauth_call in
  response r = Some res -> ok res = true -> json res = Some body ->
  get body "access_token" = Ok access_token ->
  truthy access_token = true ->
  get body "expires_in" = Ok JUndefined ->
  let s1 := after_exchange s r access_token JUndefined in
  let expiresAt := now s1 + 50 * 60 * 1000 in
  getAccessToken s = (Ok access_token, s1)
  /\ tokenCache s1 = Some {| t := Fin expiresAt; v := access_token |}
  /\ (forall time, time <= expiresAt ->
      getAccessToken (at_time time s1) = (Ok access_token, at_time time s1))
  /\ (forall time r' s', expiresAt < time -> expiresAt <> 0 ->
      getAccessToken (at_time time s1) = (r', s') ->
      trace s' = trace s1 ++ [oauth_call]).
Proof.
  intros Hmiss r Hres Hok Hjson Htok Htruthy Hexp s1 expiresAt.
  assert (Hcache : tokenCache s1 = Some {| t := Fin expiresAt; v := access_token |})
    by reflexivity.
  split; [now apply (getAccessToken_exchange s res body)|].
  split; [exact Hcache|].
  exact (entry_lifetime s1 expiresAt access_token Hcache Htruthy).
Qed.

(** X4.  A token whose [expires_in] is below the 60 seconds of margin is
    stored already expired: it is returned to the caller that fetched it,
    and every later call makes the exchange again. *)
Theorem token_below_the_margin_is_never_reused
    (s : State) res body access_token (e : Z) :
  truthy (cached s) = false ->
  let r := upstream (trace s) (now s) oauth_call in
  response r = Some res -> ok res = true -> json res = Some body ->
  get body "access_token" = Ok access_token ->
  get body "expires_in" = Ok (JNum e) ->
  0 <= e < 60 ->
  60000 < now s + latency r ->
  let s1 := after_exchange s r access_token (JNum e) in
  getAccessToken s = (Ok access_token, s1)
  /\ forall time r' s',
      now s1 <= time ->
      getAccessToken (at_time time s1) = (r', s') ->
      trace s' = trace s1 ++ [oauth_call].
Proof.
  intros Hmiss r Hres Hok Hjson Htok Hexp He Hclock s1.
  split; [now apply (getAccessToken_exchange s res body)|].
  intros time r' s' Htime E.
  assert (Hcache : tokenCache s1
                   = Some {| t := Fin (now s1 + (e - 60) * 1000); v := access_token |}).
  { unfold s1, after_exchange. cbn [tokenCache now].
    rewrite livetime_expires_in by lia. reflexivity. }
  assert (Hexpired : expired (Fin (now s1 + (e - 60) * 1000))
                             (now (at_time time s1)) = true).
  { cbn [expired at_time now]. unfold s1, after_exchange in *. cbn [now] in *.
    apply andb_true_iff. split.
    - apply negb_true_iff, Z.eqb_neq. lia.
    - apply Z.ltb_lt. lia. }
  exact (getAccessToken_after_expiry (at_time time s1) _ r' s' Hcache Hexpired E).
Qed.


(* ------------------------------------------------------------------------- *)
(** ** What a request does to the state *)

Lemma preserves_ret {A B} (f : State -> B) (a : A) : preserves f (ret a).
Proof. intros s r s' E. now injection E as _ <-. Qed.

Lemma preserves_throw {A B} (f : State -> B) (e : Exn) : preserves f (throw (A := A) e).
Proof. intros s r s' E. now injection E as _ <-. Qed.

Lemma preserves_lift {A B} (f : State -> B) (x : Res A) : preserves f (lift x).
Proof. intros s r s' E. now injection E as _ <-. Qed.

Lemma preserves_bind {A B C} (f : State -> C) (m : M A) (k : A -> M B) :
  preserves f m -> (forall a, preserves f (k a)) -> preserves f (bind m k).
Proof.
  intros Hm Hk s r s' E. unfold bind in E.
  destruct (m s) as [[a|e] s1] eqn:Em.
  - rewrite (Hk a s1 r s' E). exact (Hm s _ _ Em).
  - injection E as _ <-. exact (Hm s _ _ Em).
Qed.

Lemma preserves_try_catch {A C} (f : State -> C) (m : M A) (h : Exn -> M A) :
  preserves f m -> (forall e, preserves f (h e)) -> preserves f (try_catch m h).
Proof.
  intros Hm Hh s r s' E. unfold try_catch in E.
  destruct (m s) as [[a|e] s1] eqn:Em.
  - injection E as _ <-. exact (Hm s _ _ Em).
  - rewrite (Hh e s1 r s' E). exact (Hm s _ _ Em).
Qed.

Lemma preserves_res_json {B} (f : State -> B) (res : HttpResponse) :
  preserves f (res_json res).
Proof.
  unfold res_json. destruct (json res); [apply preserves_ret | apply preserves_throw].
Qed.

Lemma preserves_console_fetch (c : Call) : preserves console (fetch c).
Proof.
  intros s r s' E. unfold fetch in E.
  destruct (response _); injection E as _ <-; reflexivity.
Qed.

Lemma preserves_tokenCache_fetch (c : Call) : preserves tokenCache (fetch c).
Proof.
  intros s r s' E. unfold fetch in E.
  destruct (response _); injection E as _ <-; reflexivity.
Qed.

Lemma preserves_console_getAccessToken : preserves console getAccessToken.
Proof.
  unfold getAccessToken. apply preserves_bind.
  - intros s r s' E. rewrite tokenCache_get_run in E. injection E as _ <-.
    apply after_read_frame.
  - intros cached. destruct (truthy cached); [apply preserves_ret|].
    apply preserves_bind; [apply preserves_console_fetch|]. intros res.
    destruct (negb (ok res)); [apply preserves_throw|].
    apply preserves_bind; [apply preserves_res_json|]. intros body.
    apply preserves_bind; [apply preserves_lift|]. intros access_token.
    apply preserves_bind; [apply preserves_lift|]. intros expires_in.
    apply preserves_bind; [|intros; apply preserves_ret].
    intros s r s' E. injection E as _ <-. reflexivity.
Qed.

Lemma preserves_console_apiRequest (path : jsstring) :
  preserves console (apiRequest path).
Proof.
  unfold apiRequest. apply preserves_bind; [apply preserves_console_getAccessToken|].
  intros token. apply preserves_bind; [apply preserves_console_fetch|]. intros res.
  destruct (negb (ok res)); [apply preserves_throw | apply preserves_res_json].
Qed.

Lemma preserves_call_json {B} (f : State -> B) path id :
  (forall url, preserves f (apiRequest url)) -> preserves f (call_json path id).
Proof.
  intros H. unfold call_json.
  apply preserves_bind; [apply preserves_lift|]. intros url.
  apply preserves_bind; [apply H|]. intros data. apply preserves_ret.
Qed.

Lemma preserves_tools_call {B} (f : State -> B) name args id :
  (forall url, preserves f (apiRequest url)) -> preserves f (tools_call name args id).
Proof.
  intros H. unfold tools_call.
  switch_on name; try now apply preserves_call_json.
  - apply preserves_bind; [apply preserves_lift|]. intros url.
    apply preserves_bind; [apply H|]. intros cursusUsers.
    apply preserves_bind; [apply preserves_lift|]. intros levelText.
    apply preserves_ret.
  - apply preserves_ret.
Qed.

Lemma preserves_route {B} (f : State -> B) method params id :
  (forall url, preserves f (apiRequest url)) -> preserves f (route method params id).
Proof.
  intros H. unfold route. switch_on method; try apply preserves_ret.
  apply preserves_bind; [apply preserves_lift|]. intros name.
  apply preserves_bind; [apply preserves_lift|]. intros args.
  now apply preserves_tools_call.
Qed.

(** X8.  Something is written to the console exactly when the answer is the
    internal error -32603: one entry, the exception that was caught.  Every
    other answer, result or error, leaves the console as it was. *)
Theorem internal_errors_are_logged (req : JsVal) (s : State) :
  nullish req = false ->
  exists resp s',
    handleRequest req s = (Ok resp, s')
    /\ ((member "code" (member "error" resp) = JNum (-32603)
         /\ exists e, console s' = console s ++ [e])
        \/ (member "code" (member "error" resp) <> JNum (-32603)
            /\ console s' = console s)).
Proof.
  intros Hreq. rewrite handleRequest_unfold by assumption.
  destruct (is_str (member "jsonrpc" req) "2.0"); cbv beta iota delta [negb].
  - unfold try_catch.
    destruct (route (member "method" req) (member "params" req) (member "id" req) s)
      as [[resp|e] s1] eqn:E.
    + exists resp, s1. split; [reflexivity|]. right. split.
      * revert E. generalize s resp s1. apply returns_route.
        -- intros result H. discriminate H.
        -- intros H. discriminate H.
      * exact (preserves_route console _ _ _ preserves_console_apiRequest s _ _ E).
    + eexists _, _. split; [reflexivity|]. left. split; [reflexivity|].
      exists e. cbn [logged console].
      now rewrite (preserves_route console _ _ _ preserves_console_apiRequest s _ _ E).
  - eexists _, s. split; [reflexivity|]. right. split; [|reflexivity].
    intros H. discriminate H.
Qed.

(** *** The outbound calls of a request *)

Lemma quiet_bounded {A} (m : M A) : preserves trace m -> bounded m.
Proof.
  intros H s r s' E. exists []. rewrite app_nil_r.
  split; [exact (H s r s' E) | now left].
Qed.

Lemma bounded_after_quiet {A B} (m : M A) (k : A -> M B) :
  preserves trace m -> (forall a, bounded (k a)) -> bounded (bind m k).
Proof.
  intros Hm Hk s r s' E. unfold bind in E.
  destruct (m s) as [[a|e] s1] eqn:Em.
  - destruct (Hk a s1 r s' E) as (l & Hl & Hc).
    exists l. rewrite Hl, (Hm s _ _ Em). now split.
  - injection E as _ <-. exists []. rewrite app_nil_r.
    split; [exact (Hm s _ _ Em) | now left].
Qed.

Lemma bounded_then_quiet {A B} (m : M A) (k : A -> M B) :
  bounded m -> (forall a, preserves trace (k a)) -> bounded (bind m k).
Proof.
  intros Hm Hk s r s' E. unfold bind in E.
  destruct (m s) as [[a|e] s1] eqn:Em.
  - destruct (Hm s _ _ Em) as (l & Hl & Hc).
    exists l. rewrite (Hk a s1 r s' E). now split.
  - injection E as _ <-. exact (Hm s _ _ Em).
Qed.

Lemma bounded_try_catch {A} (m : M A) (h : Exn -> M A) :
  bounded m -> (forall e, preserves trace (h e)) -> bounded (try_catch m h).
Proof.
  intros Hm Hh s r s' E. unfold try_catch in E.
  destruct (m s) as [[a|e] s1] eqn:Em.
  - injection E as _ <-. exact (Hm s _ _ Em).
  - destruct (Hm s _ _ Em) as (l & Hl & Hc).
    exists l. rewrite (Hh e s1 r s' E). now split.
Qed.

Lemma bounded_apiRequest (path : jsstring) : bounded (apiRequest path).
Proof.
  intros s r s' E.
  destruct (getAccessToken s) as [[token|e] s1] eqn:Htok.
  - pose proof (apiRequest_run path s s1 token Htok) as Hrun. cbv zeta in Hrun.
    rewrite Hrun in E. injection E as _ <-. cbn [after_get trace].
    destruct (getAccessToken_trace s _ _ Htok) as [-> | ->].
    + eexists. split; [reflexivity|]. right. right.
      exists path, (ToString token). left. reflexivity.
    + rewrite <- app_assoc. eexists. split; [reflexivity|]. right. right.
      exists path, (ToString token). right. reflexivity.
  - rewrite (apiRequest_no_token path Htok) in E. injection E as _ <-.
    destruct (getAccessToken_trace s _ _ Htok) as [-> | ->].
    + exists []. rewrite app_nil_r. split; [reflexivity | now left].
    + eexists. split; [reflexivity|]. right. now left.
Qed.

Lemma bounded_call_json path id : bounded (call_json path id).
Proof.
  unfold call_json. apply bounded_after_quiet; [apply preserves_lift|]. intros url.
  apply bounded_then_quiet; [apply bounded_apiRequest|]. intros data.
  apply preserves_ret.
Qed.

Lemma bounded_tools_call name args id : bounded (tools_call name args id).
Proof.
  unfold tools_call. switch_on name; try apply bounded_call_json.
  - apply bounded_after_quiet; [apply preserves_lift|]. intros url.
    apply bounded_then_quiet; [apply bounded_apiRequest|]. intros cursusUsers.
    apply preserves_bind; [apply preserves_lift|]. intros levelText.
    apply preserves_ret.
  - apply quiet_bounded, preserves_ret.
Qed.

Lemma bounded_route method params id : bounded (route method params id).
Proof.
  unfold route. switch_on method; try (apply quiet_bounded, preserves_ret).
  apply bounded_after_quiet; [apply preserves_lift|]. intros name.
  apply bounded_after_quiet; [apply preserves_lift|]. intros args.
  apply bounded_tools_call.
Qed.

Lemma preserves_trace_catch (id : JsVal) (error : Exn) :
  preserves trace
    (console_error error ;;; ret (error_response (-32603) "Internal error" id)).
Proof.
  apply preserves_bind; [|intros; apply preserves_ret].
  intros s r s' E. injection E as _ <-. reflexivity.
Qed.

(** X6.  Whatever the request, the state and the upstream, [handleRequest]
    makes at most two outbound calls: at most one token exchange, then at
    most one GET; the GET goes to a URL under [API_BASE] and carries a
    [Bearer] authorisation.  Nothing is retried. *)
Theorem at_most_one_exchange_and_one_GET (req : JsVal) (s : State) r s' :
  handleRequest req s = (r, s') ->
  exists l, trace s' = trace s ++ l /\ request_calls l.
Proof.
  revert s r s'. change (bounded (handleRequest req)). unfold handleRequest.
  apply bounded_after_quiet; [apply preserves_lift|]. intros jsonrpc.
  apply bounded_after_quiet; [apply preserves_lift|]. intros method.
  apply bounded_after_quiet; [apply preserves_lift|]. intros params.
  apply bounded_after_quiet; [apply preserves_lift|]. intros id.
  destruct (negb (is_str jsonrpc "2.0")).
  - apply quiet_bounded, preserves_ret.
  - apply bounded_try_catch; [apply bounded_route|].
    intros e. apply preserves_trace_catch.
Qed.

Lemma route_without_tools_call method params id :
  is_str method "tools/call" = false -> preserves trace (route method params id).
Proof.
  intros H. unfold route. rewrite H. switch_on method; apply preserves_ret.
Qed.

(** X7.  The upstream is reached only by a [tools/call] of a known tool in
    an envelope with [jsonrpc] ["2.0"]: a request that adds a call to the
    trace is of that kind.  [initialize], [tools/list], [resources/list],
    unknown methods and tools, and invalid envelopes make no call. *)
Theorem only_known_tools_reach_the_upstream (req : JsVal) (s : State) r s' :
  handleRequest req s = (r, s') ->
  trace s' <> trace s ->
  nullish req = false
  /\ is_str (member "jsonrpc" req) "2.0" = true
  /\ is_str (member "method" req) "tools/call" = true
  /\ exists name,
      get (member "params" req) "name" = Ok name /\ is_tool name = true.
Proof.
  intros E Hcalls.
  destruct (nullish req) eqn:Hreq.
  { rewrite handleRequest_nullish in E by assumption.
    injection E as _ <-. now contradiction Hcalls. }
  destruct (is_str (member "jsonrpc" req) "2.0") eqn:Hv.
  2:{ rewrite invalid_envelope in E by assumption.
      injection E as _ <-. now contradiction Hcalls. }
  rewrite handleRequest_valid in E by assumption.
  assert (Hquiet : preserves trace
                     (route (member "method" req) (member "params" req)
                            (member "id" req)) -> False).
  { intros Hq. apply Hcalls.
    refine (preserves_try_catch trace _ _ Hq _ s r s' E).
    intros e. apply preserves_trace_catch. }
  destruct (is_str (member "method" req) "tools/call") eqn:Hm.
  2:{ exfalso. apply Hquiet. now apply route_without_tools_call. }
  repeat split.
  destruct (get (member "params" req) "name") as [name|e] eqn:Hn.
  - exists name. split; [reflexivity|].
    destruct (is_tool name) eqn:Htool; [reflexivity|].
    exfalso. apply Hquiet. intros s0 r0 s0' E0.
    rewrite route_tools_call in E0 by assumption.
    assert (Hp : nullish (member "params" req) = false).
    { destruct (member "params" req); simpl in *; try discriminate; reflexivity. }
    destruct (get_not_nullish (member "params" req) "arguments" Hp) as [args Ha].
    rewrite Hn, Ha, !bind_lift_Ok, tools_call_unknown in E0 by assumption.
    now injection E0 as _ <-.
  - exfalso. apply Hquiet. intros s0 r0 s0' E0.
    rewrite route_tools_call in E0 by assumption.
    rewrite Hn, bind_lift_Throw in E0. now injection E0 as _ <-.
Qed.

(* ------------------------------------------------------------------------- *)
(** ** The upstream paths *)

Ltac div_lia := zify; Z.to_euclidean_division_equations; lia.

Lemma percent_safe (octet : N) :
  (octet < 256)%N -> Forall (fun c => url_safe c = true) (percent octet).
Proof.
  intros H.
  assert (Hall : forallb (fun o => forallb url_safe (percent o))
                         (map N.of_nat (seq 0 256)) = true)
    by (vm_compute; reflexivity).
  rewrite forallb_forall in Hall.
  apply Forall_forall. apply forallb_forall. apply Hall.
  apply in_map_iff. exists (N.to_nat octet).
  split; [apply N2Nat.id | apply in_seq; lia].
Qed.

Lemma utf8_octets (cp : N) :
  (cp < 1114112)%N -> Forall (fun o => (o < 256)%N) (utf8 cp).
Proof.
  intros H. clear - H. unfold utf8.
  destruct (N.ltb_spec cp 128); [repeat constructor; lia|].
  destruct (N.ltb_spec cp 2048); [repeat constructor; div_lia|].
  destruct (N.ltb_spec cp 65536); repeat constructor; div_lia.
Qed.

Lemma escape_safe (cp : N) :
  (cp < 1114112)%N -> Forall (fun c => url_safe c = true) (escape cp).
Proof.
  intros H. unfold escape. apply Forall_flat_map.
  eapply Forall_impl; [|apply utf8_octets; exact H].
  intros o Ho. now apply percent_safe.
Qed.

Lemma in_range_bounds (lo hi c : N) :
  in_range lo hi c = true -> (lo <= c <= hi)%N.
Proof.
  unfold in_range. intros H. apply andb_true_iff in H as [H1 H2].
  apply N.leb_le in H1, H2. now split.
Qed.

Lemma Encode_safe (s e : jsstring) :
  Forall (fun c => (c < 65536)%N) s ->
  Encode s = Ok e ->
  Forall (fun c => url_safe c = true) e.
Proof.
  remember (List.length s) as n eqn:Hn.
  assert (Hlen : (List.length s <= n)%nat) by lia. clear Hn.
  revert s e Hlen. induction n as [|n IH]; intros s e Hlen Hs E.
  { destruct s; [|simpl in Hlen; lia]. injection E as <-. constructor. }
  destruct s as [|c rest]; [injection E as <-; constructor|].
  simpl in Hlen. inversion Hs as [|? ? Hc Hrest]; subst.
  cbn [Encode] in E. destruct (uriUnescaped c) eqn:Hu.
  - destruct (Encode rest) as [r|] eqn:Er; cbn [res_bind] in E; [|discriminate].
    injection E as <-. constructor.
    + unfold url_safe. now rewrite Hu.
    + apply (IH rest); [lia | assumption | assumption].
  - destruct (is_trailing c); [discriminate|].
    destruct (is_leading c) eqn:Hl.
    + destruct rest as [|d rest']; [discriminate|].
      destruct (is_trailing d) eqn:Ht; [|discriminate].
      destruct (Encode rest') as [r|] eqn:Er; cbn [res_bind] in E; [|discriminate].
      injection E as <-. apply Forall_app. split.
      * apply escape_safe. apply in_range_bounds in Hl, Ht.
        unfold surrogate_pair. lia.
      * inversion Hrest; subst. simpl in Hlen.
        apply (IH rest'); [lia | assumption | assumption].
    + destruct (Encode rest) as [r|] eqn:Er; cbn [res_bind] in E; [|discriminate].
      injection E as <-. apply Forall_app. split.
      * apply escape_safe. lia.
      * apply (IH rest); [lia | assumption | assumption].
Qed.

Lemma Encode_plain (s : jsstring) :
  Forall (fun c => no_surrogate c = true) s -> exists e, Encode s = Ok e.
Proof.
  induction 1 as [|c rest Hc _ [e IH]]; [now exists []|].
  unfold no_surrogate in Hc. apply andb_true_iff in Hc as [Hl Ht].
  apply negb_true_iff in Hl, Ht.
  cbn [Encode]. rewrite Hl, Ht, IH. cbn [res_bind].
  destruct (uriUnescaped c); eexists; reflexivity.
Qed.

(** *** The encoded query can be read back *)

Lemma in_range_true (lo hi c : N) : (lo <= c <= hi)%N -> in_range lo hi c = true.
Proof.
  intros [H1 H2]. unfold in_range. apply andb_true_iff. split; now apply N.leb_le.
Qed.

Lemma in_range_false (lo hi c : N) : (c < lo \/ hi < c)%N -> in_range lo hi c = false.
Proof.
  intros H. unfold in_range. apply andb_false_iff.
  destruct H; [left | right]; now apply N.leb_gt.
Qed.

Lemma hex_value_hex_digit (d : N) :
  (d < 16)%N -> hex_value (hex_digit d) = Some d.
Proof.
  intros H. clear - H.
  assert (Hall : forallb (fun d => match hex_value (hex_digit d) with
                                   | Some x => N.eqb x d
                                   | None => false
                                   end) (map N.of_nat (seq 0 16)) = true)
    by (vm_compute; reflexivity).
  rewrite forallb_forall in Hall.
  specialize (Hall d). destruct (hex_value (hex_digit d)) as [x|].
  - f_equal. apply N.eqb_eq. apply Hall.
    apply in_map_iff. exists (N.to_nat d). split; [apply N2Nat.id | apply in_seq; lia].
  - discriminate Hall.
    apply in_map_iff. exists (N.to_nat d). split; [apply N2Nat.id | apply in_seq; lia].
Qed.

Lemma unescape_percent (o : N) (r : jsstring) :
  (o < 256)%N ->
  unescape (percent o ++ r) = option_map (cons (true, o)) (unescape r).
Proof.
  intros H. clear - H. unfold percent. cbn [app unescape N.eqb Pos.eqb].
  rewrite !hex_value_hex_digit by (clear - H; div_lia).
  replace (16 * (o / 16) + o mod 16)%N with o by (clear; div_lia).
  now destruct (unescape r).
Qed.

Lemma unescape_escape (os : list N) (r : jsstring) :
  Forall (fun o => (o < 256)%N) os ->
  unescape (flat_map percent os ++ r)
  = option_map (app (map (pair true) os)) (unescape r).
Proof.
  induction 1 as [|o os Ho _ IH]; cbn [flat_map map app].
  - now destruct (unescape r).
  - rewrite <- app_assoc, unescape_percent, IH by assumption.
    now destruct (unescape r).
Qed.

Lemma unescape_plain (c : N) (r : jsstring) :
  uriUnescaped c = true ->
  unescape (c :: r) = option_map (cons (false, c)) (unescape r).
Proof.
  intros H. cbn [unescape]. destruct (N.eqb_spec c 37) as [->|]; [discriminate H|].
  reflexivity.
Qed.

(** A code point of the basic plane is read back as itself. *)
Lemma utf16_utf8 (cp : N) (rest : list (bool * N)) :
  (cp < 65536)%N ->
  utf16 (map (pair true) (utf8 cp) ++ rest) = option_map (cons cp) (utf16 rest).
Proof.
  intros H. clear - H. unfold utf8.
  destruct (N.ltb_spec cp 128) as [H1|H1].
  { cbn [map app utf16]. apply N.ltb_lt in H1. now rewrite H1. }
  destruct (N.ltb_spec cp 2048) as [H2|H2].
  { cbn [map app utf16].
    replace (192 + cp / 64 <? 128)%N with false by (symmetry; apply N.ltb_ge; div_lia).
    rewrite in_range_true by div_lia.
    replace ((192 + cp / 64 - 192) * 64 + (128 + cp mod 64 - 128))%N with cp by div_lia.
    reflexivity. }
  apply N.ltb_lt in H. rewrite H. apply N.ltb_lt in H.
  cbn [map app utf16].
  replace (224 + cp / 4096 <? 128)%N with false by (symmetry; apply N.ltb_ge; div_lia).
  rewrite in_range_false by div_lia.
  rewrite in_range_true by div_lia.
  replace ((224 + cp / 4096 - 224) * 4096 + (128 + (cp / 64) mod 64 - 128) * 64
           + (128 + cp mod 64 - 128))%N with cp by div_lia.
  reflexivity.
Qed.

(** A surrogate pair is read back as the pair. *)
Lemma utf16_utf8_pair (c d : N) (rest : list (bool * N)) :
  is_leading c = true -> is_trailing d = true ->
  utf16 (map (pair true) (utf8 (surrogate_pair c d)) ++ rest)
  = option_map (fun r => c :: d :: r) (utf16 rest).
Proof.
  intros Hc Hd. apply in_range_bounds in Hc, Hd. clear - Hc Hd.
  assert (Hcp : (65536 <= surrogate_pair c d < 1114112)%N)
    by (unfold surrogate_pair; lia).
  assert (Ec : (55296 + (surrogate_pair c d - 65536) / 1024 = c)%N)
    by (unfold surrogate_pair; div_lia).
  assert (Ed : (56320 + (surrogate_pair c d - 65536) mod 1024 = d)%N)
    by (unfold surrogate_pair; div_lia).
  revert Hcp Ec Ed. generalize (surrogate_pair c d) as cp. intros cp Hcp Ec Ed.
  unfold utf8.
  replace (cp <? 128)%N with false by (symmetry; apply N.ltb_ge; lia).
  replace (cp <? 2048)%N with false by (symmetry; apply N.ltb_ge; lia).
  replace (cp <? 65536)%N with false by (symmetry; apply N.ltb_ge; lia).
  cbn [map app utf16].
  replace (240 + cp / 262144 <? 128)%N with false by (symmetry; apply N.ltb_ge; div_lia).
  rewrite (in_range_false 192 223)%N by div_lia.
  rewrite (in_range_false 224 239)%N by div_lia.
  rewrite in_range_true by div_lia.
  cbv zeta.
  replace ((240 + cp / 262144 - 240) * 262144 + (128 + (cp / 4096) mod 64 - 128) * 4096
           + (128 + (cp / 64) mod 64 - 128) * 64 + (128 + cp mod 64 - 128))%N
    with cp by div_lia.
  rewrite Ec, Ed. reflexivity.
Qed.

Lemma Encode_decoded (s e : jsstring) :
  Forall (fun c => (c < 65536)%N) s ->
  Encode s = Ok e ->
  percent_decode e = Some s.
Proof.
  unfold percent_decode.
  remember (List.length s) as n eqn:Hn.
  assert (Hlen : (List.length s <= n)%nat) by lia. clear Hn.
  revert s e Hlen. induction n as [|n IH]; intros s e Hlen Hs E.
  { destruct s; [|simpl in Hlen; lia]. injection E as <-. reflexivity. }
  destruct s as [|c rest]; [injection E as <-; reflexivity|].
  simpl in Hlen. inversion Hs as [|? ? Hc Hrest]; subst.
  cbn [Encode] in E. destruct (uriUnescaped c) eqn:Hu.
  - destruct (Encode rest) as [r|] eqn:Er; cbn [res_bind] in E; [|discriminate].
    injection E as <-. rewrite unescape_plain by assumption.
    specialize (IH rest r ltac:(lia) Hrest Er).
    destruct (unescape r) as [items|]; [|discriminate IH].
    cbn [option_map utf16]. now rewrite IH.
  - destruct (is_trailing c) eqn:Ht; [discriminate|].
    destruct (is_leading c) eqn:Hl.
    + destruct rest as [|d rest']; [discriminate|].
      destruct (is_trailing d) eqn:Htd; [|discriminate].
      destruct (Encode rest') as [r|] eqn:Er; cbn [res_bind] in E; [|discriminate].
      injection E as <-. unfold escape.
      rewrite unescape_escape
        by (apply utf8_octets; apply in_range_bounds in Hl, Htd;
            unfold surrogate_pair; lia).
      inversion Hrest; subst. simpl in Hlen.
      specialize (IH rest' r ltac:(lia) ltac:(assumption) Er).
      destruct (unescape r) as [items|]; [|discriminate IH].
      cbn [option_map]. rewrite utf16_utf8_pair by assumption. now rewrite IH.
    + destruct (Encode rest) as [r|] eqn:Er; cbn [res_bind] in E; [|discriminate].
      injection E as <-. unfold escape.
      rewrite unescape_escape by (apply utf8_octets; lia).
      specialize (IH rest r ltac:(lia) Hrest Er).
      destruct (unescape r) as [items|]; [|discriminate IH].
      cbn [option_map]. rewrite utf16_utf8 by assumption. now rewrite IH.
Qed.

(** X9.  The [query] of [searchUsers] reaches the upstream path only
    percent-encoded: the path is the fixed prefix, the encoded query and the
    fixed suffix; the encoded query holds unreserved characters and percent
    signs only, so no [&], [=], [?], [#], [/] or space of the query can
    alter the two parameters, and it is an encoding of the query: read back
    (escapes as octets, octets as UTF-8) it gives the query, code unit for
    code unit.  A query without surrogate code units is always encoded. *)
Theorem searchUsers_query_is_escaped (args : JsVal) (q : jsstring) :
  get args "query" = Ok (JStr q) ->
  Forall (fun c => (c < 65536)%N) q ->
  (Forall (fun c => no_surrogate c = true) q ->
   exists url, searchUsers_path args = Ok url)
  /\ (forall url,
        searchUsers_path args = Ok url ->
        exists e,
          url = lit "/v2/users?filter[login]=" ++ e ++ lit "&page[size]=5"
          /\ Forall (fun c => url_safe c = true) e
          /\ percent_decode e = Some q).
Proof.
  intros Hq Hunits. unfold searchUsers_path, encodeURIComponent.
  rewrite Hq. cbn [res_bind ToString]. split.
  - intros Hplain. destruct (Encode_plain q Hplain) as [e ->].
    eexists. reflexivity.
  - intros url E. destruct (Encode q) as [e|] eqn:Ee; cbn [res_bind] in E; [|discriminate].
    injection E as <-. exists e. split; [reflexivity|].
    split; [now apply (Encode_safe q) | now apply (Encode_decoded q)].
Qed.


Lemma push_encoded_cases prefix suffix x l :
  push_encoded prefix suffix x = Ok l -> l = [] \/ exists p, l = [p].
Proof.
  unfold push_encoded. destruct (truthy x).
  - destruct (encodeURIComponent x); cbn [res_bind]; [|discriminate].
    intros E. injection E as <-. right. eexists. reflexivity.
  - intros E. injection E as <-. now left.
Qed.



(* ------------------------------------------------------------------------- *)
(** ** The HTTP endpoint *)

(** X11.  The endpoint always answers.  For a body that is [undefined] or
    [null] the status is 500 and the document is the internal error with a
    [null] id; for every other body the status is 200, whatever the JSON-RPC
    outcome, and the document is the serialised response of
    [handleRequest]. *)
Theorem endpoint_status (body : JsVal) (s : State) :
  exists status document s',
    mcp_endpoint body s = (Ok (status, document), s')
    /\ (nullish body = true ->
        status = 500
        /\ document = to_wire (error_response (-32603) "Internal error" JNull)
        /\ s' = logged TypeError s)
    /\ (nullish body = false ->
        status = 200
        /\ exists resp,
            handleRequest body s = (Ok resp, s') /\ document = to_wire resp).
Proof.
  unfold mcp_endpoint, try_catch, bind.
  destruct (nullish body) eqn:Hb.
  - rewrite handleRequest_nullish by assumption.
    eexists _, _, _. split; [reflexivity|]. split; [|discriminate].
    intros _. split; [reflexivity|]. split; [|reflexivity].
    destruct body; try discriminate; reflexivity.
  - destruct (handleRequest_answers body s Hb) as (resp & s' & E & _).
    rewrite E. eexists _, _, _. split; [reflexivity|]. split; [discriminate|].
    intros _. split; [reflexivity|]. now exists resp.
Qed.

(** Every result of the dispatcher is an object. *)
Lemma returns_route_object (P : JsVal -> Prop) method params id :
  (forall fields, P (result_response (JObj fields) id)) ->
  P (error_response (-32601) "Method not found" id) ->
  returns P (route method params id).
Proof.
  intros Hres Herr. unfold route.
  switch_on method; try (apply returns_ret; solve [apply Hres | apply Herr]).
  apply returns_bind; intros name. apply returns_bind; intros args.
  apply returns_tools_call; [intros text; apply Hres | exact Herr].
Qed.

(** X12.  On the wire the response always has [jsonrpc] and exactly one of
    [result] and [error].  For an envelope with [jsonrpc] ["2.0"] it has no
    [id] member when the request has none, and the very id of the request
    when that is [null], a boolean, a number or a string; for any other
    envelope it always has an [id] member. *)
Theorem wire_envelope (body : JsVal) (s : State) :
  nullish body = false ->
  is_function (member "id" body) = false ->
  exists document s',
    mcp_endpoint body s = (Ok (200, document), s')
    /\ is_str (member "jsonrpc" document) "2.0" = true
    /\ xorb (has_member "result" document) (has_member "error" document) = true
    /\ (is_str (member "jsonrpc" body) "2.0" = true ->
        member "id" body = JUndefined ->
        has_member "id" document = false)
    /\ (is_str (member "jsonrpc" body) "2.0" = true ->
        is_scalar (member "id" body) = true ->
        member "id" document = member "id" body)
    /\ (is_str (member "jsonrpc" body) "2.0" = false ->
        has_member "id" document = true).
Proof.
  intros Hb Hf. unfold mcp_endpoint, try_catch, bind.
  rewrite handleRequest_unfold by assumption.
  destruct (is_str (member "jsonrpc" body) "2.0"); cbv beta iota delta [negb].
  - unfold try_catch.
    destruct (route (member "method" body) (member "params" body)
                    (member "id" body) s) as [[resp|e] s1] eqn:E.
    + eexists _, _. split; [reflexivity|].
      revert E. generalize s resp s1. apply returns_route_object.
      * intros fields. destruct (member "id" body); try discriminate Hf;
          repeat split; try discriminate; reflexivity.
      * destruct (member "id" body); try discriminate Hf;
          repeat split; try discriminate; reflexivity.
    + eexists _, _. split; [reflexivity|].
      destruct (member "id" body); try discriminate Hf;
        repeat split; try discriminate; reflexivity.
  - eexists _, _. split; [reflexivity|].
    destruct (member "id" body) as [| |[]|n|str|items|fields|f]; try discriminate Hf;
      try destruct (n =? 0) eqn:Hn; try destruct str;
      repeat split; try discriminate; try reflexivity;
      unfold js_or; cbn [truthy]; rewrite ?Hn; reflexivity.
Qed.

(* ------------------------------------------------------------------------- *)
(** ** The manual dispatcher and the registered tools *)

Lemma call_json_enveloped (path : Res jsstring) (id : JsVal) (s : State) :
  call_json path id s = enveloped id (call_content path s).
Proof.
  unfold call_json, call_content. destruct path as [url|e]; [|reflexivity].
  rewrite !bind_lift_Ok. unfold bind.
  destruct (apiRequest url s) as [[data|e] s1]; reflexivity.
Qed.

(** Reads a hypothesis [zod_parse fields (JObj fs) = Some input] for a
    concrete schema: one case per shape of the fields that the schema
    accepts. *)
Ltac parse_fields H fs :=
  unfold zod_parse, option_map in H; cbn [zod_fields] in H;
  unfold zod_field in H; cbn [fst snd presence zod_type] in H;
  repeat (cbn [zod_accepts app] in H;
          try discriminate H;
          match type of H with
          | context [lookup ?k fs] =>
            let E := fresh "E" in destruct (lookup k fs) eqn:E
          | context [if ?c then _ else _] => destruct c
          end);
  cbn [zod_accepts app] in H;
  try discriminate H.

Ltac use_lookups fs :=
  repeat match goal with
         | E : lookup ?k fs = _ |- context [lookup ?k fs] => rewrite E
         end.

(** Splits the booleans read from [fs], and the numbers given to fields
    that have a default, into their cases; a 0 there is excluded. *)
Ltac split_fields Hz fs :=
  unfold no_zero_default in Hz; cbn [forallb member fst snd presence] in Hz;
  repeat match goal with
         | E : lookup ?k fs = _, Hz' : context [lookup ?k fs] |- _ => rewrite E in Hz'
         end;
  repeat match type of Hz with
         | context [match ?n with 0 => _ | Z.pos _ => _ | Z.neg _ => _ end] =>
           is_var n; destruct n
         end;
  repeat match goal with
         | E : lookup _ fs = JBool ?b |- _ => is_var b; destruct b
         end;
  try discriminate Hz.

Ltac same_path manual registered H Hz fs :=
  unfold manual, registered;
  parse_fields H fs; injection H as <-;
  split_fields Hz fs;
  unfold get; use_lookups fs;
  first [ reflexivity
        | repeat match goal with
                 | |- context [JNum ?n] => is_var n; destruct n
                 end;
          reflexivity ].

Ltac by_path name manual registered H Hz fs id input :=
  change (tools_call (jstr name) (JObj fs) id) with (call_json (manual (JObj fs)) id);
  rewrite call_json_enveloped;
  cut (manual (JObj fs) = registered input); [intros ->; reflexivity|];
  same_path manual registered H Hz fs.

(** X13.  On arguments that the registered schema accepts, the manual
    [tools/call] does what the registered handler does on the parsed
    arguments: the same calls, the same state, and the same result, put in
    the envelope, provided no field that has a default is given as 0 (the
    manual dispatcher replaces a 0 by the default). *)
Theorem manual_tools_call_agrees_with_registered_tool
    (name : string) fields handler (args input id : JsVal) (s : State) :
  In name tool_names ->
  registered_schema name = Some fields ->
  registered_tool name = Some handler ->
  zod_parse fields args = Some input ->
  no_zero_default fields args = true ->
  tools_call (jstr name) args id s = enveloped id (handler input s).
Proof.
  intros Hname Hschema Hhandler Hparse Hz.
  destruct args as [| | | | | |fs|]; try discriminate Hparse.
  unfold tool_names in Hname. cbn [In] in Hname.
  repeat (destruct Hname as [<- | Hname]);
    [ .. | contradiction ];
    injection Hschema as <-; injection Hhandler as <-.
  - by_path "searchUsers" searchUsers_path registered_searchUsers_path Hparse Hz fs id input.
  - change (tools_call (jstr "getCursusLevel") (JObj fs) id)
      with (url <- lift (getCursusLevel_path (JObj fs)) ;;
            cursusUsers <- apiRequest url ;;
            levelText <- lift (getCursusLevel_text (JObj fs) cursusUsers) ;;
            ret (text_response levelText id)).
    unfold registered_getCursusLevel.
    assert (Hpath : getCursusLevel_path (JObj fs) = registered_getCursusLevel_path input
                    /\ forall cursusUsers,
                        getCursusLevel_text (JObj fs) cursusUsers
                        = registered_getCursusLevel_text input cursusUsers).
    { unfold getCursusLevel_path, registered_getCursusLevel_path,
        getCursusLevel_text, registered_getCursusLevel_text.
      parse_fields Hparse fs; injection Hparse as <-; split_fields Hz fs;
        unfold get at 1 2; use_lookups fs;
        (split; [reflexivity|]); intros cursusUsers;
        cbn [res_bind];
        (destruct (get cursusUsers "length") as [len|]; [|reflexivity]);
        cbn [res_bind]; (destruct (truthy len); [|reflexivity]); cbn [negb];
        (destruct (get0 cursusUsers) as [first|]; [|reflexivity]); cbn [res_bind];
        (destruct (get first "level") as [level|]; [|reflexivity]); cbn [res_bind];
        unfold get; use_lookups fs; reflexivity. }
    destruct Hpath as [-> Htext].
    destruct (registered_getCursusLevel_path input) as [url|e]; [|reflexivity].
    rewrite !bind_lift_Ok. unfold bind at 1 3.
    destruct (apiRequest url s) as [[cursusUsers|e] s1]; [|reflexivity].
    rewrite Htext.
    destruct (registered_getCursusLevel_text input cursusUsers); reflexivity.
  - by_path "getUserProjects" getUserProjects_path registered_getUserProjects_path
            Hparse Hz fs id input.
  - by_path "getCoalition" getCoalition_path registered_getCoalition_path
            Hparse Hz fs id input.
  - by_path "getCampusUsers" getCampusUsers_path registered_getCampusUsers_path
            Hparse Hz fs id input.
  - by_path "getBalances" getBalances_path registered_getBalances_path
            Hparse Hz fs id input.
  - by_path "getClusters" getClusters_path registered_getClusters_path
            Hparse Hz fs id input.
  - by_path "getLocations" getLocations_path registered_getLocations_path
            Hparse Hz fs id input.
  - by_path "getAttachments" getAttachments_path registered_getAttachments_path
            Hparse Hz fs id input.
  - by_path "getAttachment" getAttachment_path registered_getAttachment_path
            Hparse Hz fs id input.
  - by_path "getProjects" getProjects_path registered_getProjects_path
            Hparse Hz fs id input.
  - by_path "getProject" getProject_path registered_getProject_path
            Hparse Hz fs id input.
  - by_path "getMyProjects" getMyProjects_path registered_getMyProjects_path
            Hparse Hz fs id input.
Qed.

(** X14.  The proviso of X13 is needed.  For [getCursusLevel] with a
    [userId] that is a safe integer and [cursusId: 0], which the registered
    schema accepts, the registered handler asks the upstream for cursus 0,
    while the manual dispatcher replaces the 0 by the default and asks for
    cursus 21. *)
Theorem getCursusLevel_cursusId_0_is_replaced_by_the_default
    (fs : list (jsstring * JsVal)) (userId : Z) fields :
  registered_schema "getCursusLevel" = Some fields ->
  lookup (lit "userId") fs = JNum userId ->
  is_safe_integer userId = true ->
  lookup (lit "cursusId") fs = JNum 0 ->
  exists input,
    zod_parse fields (JObj fs) = Some input
    /\ no_zero_default fields (JObj fs) = false
    /\ registered_getCursusLevel_path input
       = Ok (lit "/v2/users/" ++ decimal userId
             ++ lit "/cursus_users?filter[cursus_id]=0")
    /\ getCursusLevel_path (JObj fs)
       = Ok (lit "/v2/users/" ++ decimal userId
             ++ lit "/cursus_users?filter[cursus_id]=21").
Proof.
  intros Hschema Hu _ Hc. injection Hschema as <-.
  eexists. split.
  { unfold zod_parse, option_map. cbn [zod_fields]. unfold zod_field.
    cbn [fst snd presence zod_type]. rewrite Hu, Hc. reflexivity. }
  split.
  { unfold no_zero_default. cbn [forallb member fst snd presence].
    rewrite Hc. reflexivity. }
  split; [reflexivity|].
  unfold getCursusLevel_path, get. rewrite Hu, Hc. reflexivity.
Qed.

(** X15.  Two of the registered tools cannot be reached through the HTTP
    transport.  A registered name that is not a [case] label of the manual
    dispatcher is [getAccreditations] or [getAccreditation]; it has a
    registered handler, [tools/list] does not advertise it, and [tools/call]
    answers it with -32601 without touching the state. *)
Theorem registered_tools_outside_the_dispatcher
    (name : string) (args id : JsVal) (s : State) :
  In name registeredTools ->
  ~ In name tool_names ->
  (name = "getAccreditations" \/ name = "getAccreditation")
  /\ (exists handler, registered_tool name = Some handler)
  /\ existsb (fun tool => is_str (member "name" tool) name) tools = false
  /\ tools_call (jstr name) args id s
     = (Ok (error_response (-32601) "Method not found" id), s).
Proof.
  intros Hregistered Hmanual.
  unfold registeredTools in Hregistered. cbn [map fst inputSchemas In] in Hregistered.
  repeat (destruct Hregistered as [<- | Hregistered];
          [try (exfalso; apply Hmanual; unfold tool_names; cbn [In]; tauto)|]);
    [ | | contradiction ].
  - split; [now left|]. split; [eexists; reflexivity|]. split; reflexivity.
  - split; [now right|]. split; [eexists; reflexivity|]. split; reflexivity.
Qed.

(* ------------------------------------------------------------------------- *)
(** ** The two revisions of the transport *)

Lemma first_tools_call_agrees (name args id : JsVal) (s : State) :
  is_tool name = is_first_tool name ->
  first_tools_call name args id s = tools_call name args id s.
Proof.
  intros H. destruct (is_first_tool name) eqn:Hfirst.
  - clear H. unfold is_first_tool, first_tool_names, existsb in Hfirst.
    unfold first_tools_call, tools_call.
    repeat match goal with
           | |- context [is_str name ?k] => destruct (is_str name k); [reflexivity|]
           end.
    discriminate Hfirst.
  - rewrite tools_call_unknown by assumption.
    unfold is_first_tool, first_tool_names, existsb in Hfirst.
    repeat (apply orb_false_iff in Hfirst as [? Hfirst]).
    unfold first_tools_call. skip_cases name. reflexivity.
Qed.

(** X16.  The later revision extends the first one.  The four tools and
    the two resources of the first revision open the lists of the later
    one, and a request is answered alike by both, with the same calls and
    the same state, unless it is [tools/list], [resources/list] or a
    [tools/call] of one of the nine tools that were added (for any other
    method the name in [params] does not matter). *)
Theorem later_revision_extends_the_first (req : JsVal) (s : State) :
  first_tool_names = firstn 4 tool_names
  /\ first_tools = firstn 4 tools
  /\ first_resources = firstn 2 resources
  /\ (is_str (member "method" req) "tools/list" = false ->
      is_str (member "method" req) "resources/list" = false ->
      (is_str (member "method" req) "tools/call" = true ->
       forall name, get (member "params" req) "name" = Ok name ->
                    is_tool name = is_first_tool name) ->
      first_handleRequest req s = handleRequest req s).
Proof.
  split; [reflexivity|]. split; [reflexivity|]. split; [reflexivity|].
  intros Hlist Hresources Hname.
  destruct (nullish req) eqn:Hreq.
  { destruct req; try discriminate Hreq; reflexivity. }
  rewrite handleRequest_unfold by assumption.
  unfold first_handleRequest.
  destruct (get_not_nullish req "jsonrpc" Hreq) as [jsonrpc Hj].
  destruct (get_not_nullish req "method" Hreq) as [method Hm].
  destruct (get_not_nullish req "params" Hreq) as [params Hp].
  destruct (get_not_nullish req "id" Hreq) as [id Hi].
  rewrite Hj, Hm, Hp, Hi. rewrite !bind_lift_Ok.
  replace (member "jsonrpc" req) with jsonrpc
    by (destruct req; try discriminate Hreq; cbn in Hj |- *; congruence).
  replace (member "method" req) with method in *
    by (destruct req; try discriminate Hreq; cbn in Hm |- *; congruence).
  replace (member "params" req) with params in *
    by (destruct req; try discriminate Hreq; cbn in Hp |- *; congruence).
  replace (member "id" req) with id
    by (destruct req; try discriminate Hreq; cbn in Hi |- *; congruence).
  destruct (negb (is_str jsonrpc "2.0")); [reflexivity|].
  unfold try_catch.
  assert (E : first_route method params id s = route method params id s).
  { unfold first_route, route. rewrite Hlist, Hresources.
    destruct (is_str method "initialize"); [reflexivity|].
    destruct (is_str method "tools/call"); [|reflexivity].
    unfold bind, lift.
    destruct (get params "name") as [name|e] eqn:En; [|reflexivity].
    destruct (get params "arguments") as [args|e]; [|reflexivity].
    apply first_tools_call_agrees. now apply Hname. }
  rewrite E. reflexivity.
Qed.

(* ------------------------------------------------------------------------- *)
(** ** The registered resources *)

(** X17.  [resources/list] advertises the registered resources that have
    a fixed URI, each under its registered URI, title, description and MIME
    type and in the order of registration, except the last one,
    [42://accreditations], which it leaves out; the four templates are not
    advertised. *)
Theorem listed_resources_are_registered :
  flat_map listing registered_resources
  = resources ++ [resource "42://accreditations" "All Accreditations"
                    "List of all accreditations in the system"].
Proof. reflexivity. Qed.

(** X18.  Reading a registered resource answers under the URI that was
    asked: the fixed URI of the registration, or its template with the
    variable replaced by the value the SDK read from the URI.  The answer is
    the document of one [apiRequest], as text. *)
Theorem resource_is_answered_under_the_uri_asked
    (r : Registration) (value : jsstring) (s s' : State) (result : JsVal) :
  In r registered_resources ->
  let asked := match resource_uri r with
               | Fixed uri => lit uri
               | Template t => expand (lit t) value
               end in
  let variables := match resource_uri r with
                   | Fixed _ => obj []
                   | Template t => JObj [(template_variable (lit t), JStr value)]
                   end in
  readCallback r variables s = (Ok result, s') ->
  exists path data,
    apiRequest path s = (Ok data, s')
    /\ result = contents asked (JSON_stringify data).
Proof.
  intros Hin asked variables. subst asked variables.
  unfold registered_resources in Hin. cbn [In] in Hin.
  repeat (destruct Hin as [<- | Hin]); [ .. | contradiction ];
    cbn [resource_uri readCallback];
    unfold read_fixed, read_template;
    try (change (get _ _) with (Ok (JStr value)); rewrite bind_lift_Ok;
         cbn [first_if_array ToString]);
    unfold bind; intros E;
    match type of E with
    | context [apiRequest ?p s] =>
      exists p; destruct (apiRequest p s) as [[data|e] s1]; [|discriminate E];
        exists data; injection E as <- <-; split; [reflexivity|]
    end;
    first [ reflexivity
          | unfold expand; cbn [upto past lit app]; simpl; rewrite app_nil_r; reflexivity ].
Qed.

(* ------------------------------------------------------------------------- *)
(** ** The campus list script *)

Lemma fetch_trace (c : Call) (s : State) :
  trace (snd (fetch c s)) = trace s ++ [c].
Proof. unfold fetch. now destruct (response _). Qed.

Lemma printable_converts (v : JsVal) : printable v = true -> converts v = true.
Proof. unfold printable. intros H. now apply andb_true_iff in H. Qed.

Lemma to_string_printable (v : JsVal) :
  printable v = true -> to_string v = Ok (ToString v).
Proof. intros H. unfold to_string. now rewrite printable_converts. Qed.

(** A turn of the loop never throws; it makes one call when the token
    converts to a string. *)
Lemma turn_run (token : JsVal) (authorization : jsstring) (page : Z)
    (all : list JsVal) (s : State) :
  to_string token = Ok authorization ->
  exists turn s',
    try_catch (fetch_page token page all)
              (fun error => console_error error ;;; ret None) s = (Ok turn, s')
    /\ trace s' = trace s ++ [GET (campus_url page) (lit "Bearer " ++ authorization)]
    /\ (forall fetched, turn = Some fetched -> exists items, fetched = all ++ items).
Proof.
  intros Hto. unfold try_catch, fetch_page. rewrite Hto, bind_lift_Ok. unfold bind at 1.
  pose proof (fetch_trace (GET (campus_url page) (lit "Bearer " ++ authorization)) s)
    as Ht.
  destruct (fetch (GET (campus_url page) (lit "Bearer " ++ authorization)) s)
    as [[res|e] s1]; cbn [snd] in Ht.
  - destruct (negb (ok res)).
    + eexists _, _. split; [reflexivity|]. split; [exact Ht | discriminate].
    + unfold res_json, bind. destruct (json res) as [campuses|].
      * unfold ret at 1, lift.
        destruct (get campuses "length") as [len|e].
        -- destruct (is_zero len).
           ++ eexists _, _. split; [reflexivity|]. split; [exact Ht | discriminate].
           ++ eexists _, _. split; [reflexivity|]. split; [exact Ht|].
              intros fetched E. injection E as <-. unfold Array_concat.
              destruct campuses; eexists; reflexivity.
        -- eexists _, _. split; [reflexivity|]. split; [exact Ht | discriminate].
      * eexists _, _. split; [reflexivity|]. split; [exact Ht | discriminate].
  - eexists _, _. split; [reflexivity|]. split; [exact Ht | discriminate].
Qed.

(** With a token that does not convert to a string, the first turn throws
    inside the [try], before any call: the loop is left at once. *)
Lemma fetch_pages_stop (token : JsVal) (fuel : nat) (page : Z)
    (all : list JsVal) (s : State) :
  converts token = false ->
  fetch_pages (S fuel) token page all s = (Ok (Some all), logged TypeError s).
Proof.
  intros H. cbn [fetch_pages]. unfold bind at 1, try_catch, fetch_page, to_string.
  rewrite H. reflexivity.
Qed.

Lemma pages_asked (f : Z -> Call) (page : Z) (k : nat) :
  f page :: map (fun i => f (page + 1 + Z.of_nat i)) (seq 0 k)
  = map (fun i => f (page + Z.of_nat i)) (seq 0 (S k)).
Proof.
  cbn [seq map]. rewrite Z.add_0_r. f_equal.
  rewrite <- seq_shift, map_map. apply map_ext. intros i. f_equal. lia.
Qed.

Lemma fetch_pages_run (token : JsVal) (authorization : jsstring) (fuel : nat) :
  to_string token = Ok authorization ->
  forall (page : Z) (all : list JsVal) (s : State),
    page <= 10 -> (Z.to_nat (11 - page) <= fuel)%nat ->
    exists (k : nat) fetched s',
      fetch_pages fuel token page all s = (Ok (Some fetched), s')
      /\ (1 <= k)%nat /\ Z.of_nat k <= 11 - page
      /\ trace s' = trace s
                    ++ map (fun i => GET (campus_url (page + Z.of_nat i))
                                         (lit "Bearer " ++ authorization))
                           (seq 0 k)
      /\ exists items, fetched = all ++ items.
Proof.
  intros Hto.
  induction fuel as [|fuel IH]; intros page all s Hpage Hfuel; [lia|].
  cbn [fetch_pages]. unfold bind at 1.
  destruct (turn_run token authorization page all s Hto) as (turn & s1 & -> & Ht & Hturn).
  destruct turn as [fetched|].
  - destruct (Hturn fetched eq_refl) as [items ->].
    destruct (Z.ltb_spec 10 (page + 1)).
    + exists 1%nat, (all ++ items), s1. split; [reflexivity|].
      split; [lia|]. split; [lia|]. split; [|now exists items].
      cbn [seq map]. now rewrite Z.add_0_r.
    + destruct (IH (page + 1) (all ++ items) s1)
        as (k & fetched & s' & E & Hk1 & Hk & Htr & more & ->); [lia | lia |].
      exists (S k), ((all ++ items) ++ more), s'. split; [exact E|].
      split; [lia|]. split; [lia|]. split.
      * rewrite Htr, Ht, <- app_assoc. cbn [app].
        now rewrite (pages_asked (fun p => GET (campus_url p)
                                               (lit "Bearer " ++ authorization))).
      * exists (items ++ more). now rewrite app_assoc.
  - exists 1%nat, all, s1. split; [reflexivity|].
    split; [lia|]. split; [lia|]. split; [|exists []; now rewrite app_nil_r].
    cbn [seq map]. now rewrite Z.add_0_r.
Qed.

Lemma pages_from_1 (f : Z -> Call) (k : nat) :
  map (fun i => f (1 + Z.of_nat i)) (seq 0 k) = map (fun i => f (Z.of_nat i)) (seq 1 k).
Proof.
  rewrite <- seq_shift, map_map. apply map_ext. intros i. f_equal. lia.
Qed.

(** X19.  The loop of the script always ends, and never by an exception,
    whatever the upstream answers and whatever the token is: it makes at
    most ten calls, all of them GETs, and what it has collected is
    returned.  When the token does not convert to a string, the first turn
    throws inside the [try] before any call: no GET is made and nothing is
    collected.  When the token is converted exactly, the GETs are those of
    pages 1, 2, ... in order, at least one and at most ten, each with the
    token. *)
Theorem at_most_ten_pages_are_fetched
    (fuel : nat) (token : JsVal) (s : State) :
  (10 <= fuel)%nat ->
  exists fetched s' l,
    fetch_pages fuel token 1 [] s = (Ok (Some fetched), s')
    /\ trace s' = trace s ++ l
    /\ (List.length l <= 10)%nat
    /\ forallb is_GET l = true
    /\ (converts token = false -> l = [] /\ fetched = [])
    /\ (printable token = true ->
        exists k : nat,
          (1 <= k <= 10)%nat
          /\ l = map (fun i => campus_page token (Z.of_nat i)) (seq 1 k)).
Proof.
  intros Hfuel. destruct (converts token) eqn:Hconverts.
  - assert (Hto : to_string token = Ok (ToString token))
      by (unfold to_string; now rewrite Hconverts).
    destruct (fetch_pages_run token (ToString token) fuel Hto 1 [] s)
      as (k & fetched & s' & E & Hk1 & Hk & Ht & _); [lia | lia |].
    rewrite (pages_from_1 (fun p => GET (campus_url p)
                                        (lit "Bearer " ++ ToString token))) in Ht.
    eexists fetched, s', _. split; [exact E|]. split; [exact Ht|].
    split; [rewrite length_map, length_seq; lia|].
    split; [apply forallb_forall; intros c Hc; apply in_map_iff in Hc as (i & <- & _);
            reflexivity|].
    split; [discriminate|]. intros _. exists k. split; [lia | reflexivity].
  - destruct fuel as [|fuel]; [lia|]. rewrite fetch_pages_stop by assumption.
    exists [], (logged TypeError s), []. split; [reflexivity|].
    split; [cbn [logged trace]; now rewrite app_nil_r|].
    split; [cbn; lia|]. split; [reflexivity|]. split; [now intros _|].
    intros Hp. apply printable_converts in Hp. congruence.
Qed.

Lemma fetch_page_items (token : JsVal) (page : Z) (all items : list JsVal) (s : State) :
  printable token = true ->
  (exists res,
      response (upstream (trace s) (now s) (campus_page token page)) = Some res
      /\ ok res = true /\ json res = Some (JArr items)) ->
  exists s',
    try_catch (fetch_page token page all)
              (fun error => console_error error ;;; ret None) s
    = (Ok (match items with [] => None | _ => Some (all ++ items) end), s')
    /\ trace s' = trace s ++ [campus_page token page].
Proof.
  intros Hp (res & Hres & Hok & Hjson).
  unfold try_catch, fetch_page. rewrite (to_string_printable token Hp), bind_lift_Ok.
  unfold bind at 1, fetch. change (GET (campus_url page) (lit "Bearer " ++ ToString token))
    with (campus_page token page).
  rewrite Hres, Hok. cbn [negb].
  unfold res_json, bind. rewrite Hjson. unfold ret at 1, lift.
  cbn [get String.eqb Ascii.eqb Bool.eqb].
  destruct items as [|campus items]; eexists; split; reflexivity.
Qed.

Section Pages.

Variable token : JsVal.
Variable items : Z -> list JsVal.
Variable n : nat.

Hypothesis exact : printable token = true.
Hypothesis answers :
  forall tr time page,
    1 <= page <= 10 ->
    exists res,
      response (upstream tr time (campus_page token page)) = Some res
      /\ ok res = true /\ json res = Some (JArr (items page)).
Hypothesis at_most_ten : (n <= 10)%nat.
Hypothesis full : forall page, 1 <= page <= Z.of_nat n -> items page <> [].
Hypothesis then_empty : (n < 10)%nat -> items (Z.of_nat n + 1) = [].

Lemma fetch_pages_collect (fuel : nat) :
  forall (p : nat) (all : list JsVal) (s : State),
    (1 <= p <= 10)%nat -> (p <= n + 1)%nat -> (11 - p <= fuel)%nat ->
    exists s',
      fetch_pages fuel token (Z.of_nat p) all s
      = (Ok (Some (all ++ flat_map items (map Z.of_nat (seq p (n + 1 - p))))), s')
      /\ trace s' = trace s ++ map (fun i => campus_page token (Z.of_nat i))
                                   (seq p (Nat.min (n + 1) 10 + 1 - p)).
Proof.
  induction fuel as [|fuel IH]; intros p all s Hp Hn Hfuel; [lia|].
  cbn [fetch_pages]. unfold bind at 1.
  destruct (fetch_page_items token (Z.of_nat p) all (items (Z.of_nat p)) s exact)
    as (s1 & -> & Ht); [apply answers; lia|].
  destruct (Nat.eq_dec p (n + 1)) as [->|Hlast].
  - replace (Z.of_nat (n + 1)) with (Z.of_nat n + 1) in * by lia.
    rewrite then_empty by lia.
    replace (n + 1 - (n + 1))%nat with 0%nat by lia.
    replace (Nat.min (n + 1) 10 + 1 - (n + 1))%nat with 1%nat by lia.
    cbn [seq map flat_map]. rewrite app_nil_r.
    exists s1. split; [reflexivity|]. rewrite Ht.
    replace (Z.of_nat (n + 1)) with (Z.of_nat n + 1) by lia. reflexivity.
  - destruct (items (Z.of_nat p)) as [|campus more] eqn:Ei;
      [exfalso; apply (full (Z.of_nat p)); [lia | exact Ei]|].
    replace (n + 1 - p)%nat with (S (n - p)) by lia.
    cbn [seq map flat_map]. rewrite Ei.
    destruct (Z.ltb_spec 10 (Z.of_nat p + 1)).
    + assert (p = 10%nat) by lia. subst p. assert (n = 10%nat) by lia. subst n.
      exists s1. split; [|rewrite Ht; reflexivity].
      cbn [Nat.sub seq map flat_map]. rewrite app_nil_r. reflexivity.
    + destruct (IH (S p) (all ++ campus :: more) s1) as (s' & E & Ht');
        [lia | lia | lia |].
      replace (Z.of_nat p + 1) with (Z.of_nat (S p)) by lia.
      replace (n + 1 - S p)%nat with (n - p)%nat in E by lia.
      exists s'. split; [rewrite E, <- app_assoc; reflexivity|].
      rewrite Ht', Ht, <- app_assoc. f_equal.
      replace (Nat.min (n + 1) 10 + 1 - p)%nat
        with (S (Nat.min (n + 1) 10 + 1 - S p)) by lia.
      reflexivity.
Qed.

End Pages.

(** X20.  What the loop collects, with a token that is converted exactly.
    Against an upstream that answers the pages with arrays, of which the
    first [n] are not empty and the next one is, the script collects the
    campuses of pages 1 to [n] in order, with [n + 1] GETs.  When ten pages
    are full the script stops there with ten GETs: it does not look at page
    11, and the campuses beyond the tenth page are left out. *)
Theorem pages_are_collected_up_to_the_tenth
    (fuel : nat) (token : JsVal) (items : Z -> list JsVal) (n : nat) (s : State) :
  (10 <= fuel)%nat ->
  printable token = true ->
  (forall tr time page,
      1 <= page <= 10 ->
      exists res,
        response (upstream tr time (campus_page token page)) = Some res
        /\ ok res = true /\ json res = Some (JArr (items page))) ->
  (n <= 10)%nat ->
  (forall page, 1 <= page <= Z.of_nat n -> items page <> []) ->
  ((n < 10)%nat -> items (Z.of_nat n + 1) = []) ->
  exists s',
    fetch_pages fuel token 1 [] s
    = (Ok (Some (flat_map items (map Z.of_nat (seq 1 n)))), s')
    /\ trace s' = trace s ++ map (fun i => campus_page token (Z.of_nat i))
                                 (seq 1 (Nat.min (n + 1) 10)).
Proof.
  intros Hfuel Hexact Hup Hn Hfull Hempty.
  destruct (fetch_pages_collect token items n Hexact Hup Hn Hfull Hempty fuel 1 [] s)
    as (s' & E & Ht); [lia | lia | lia |].
  exists s'. change (Z.of_nat 1) with 1 in E. cbn [app] in E.
  replace (n + 1 - 1)%nat with n in E by lia.
  replace (Nat.min (n + 1) 10 + 1 - 1)%nat with (Nat.min (n + 1) 10) in Ht by lia.
  split; assumption.
Qed.

(** X21.  The script does not look at the status of the token exchange:
    whenever the answer is a JSON object, with whatever status, the script
    goes on with the [access_token] found there, [undefined] when there is
    none.  When that value is converted exactly, the script asks for the
    pages with it; when it does not convert to a string, no page is asked
    and nothing is collected. *)
Theorem token_status_is_not_checked
    (fuel : nat) (s : State) (res : HttpResponse) (document : list (jsstring * JsVal)) :
  (10 <= fuel)%nat ->
  response (upstream (trace s) (now s) oauth_call) = Some res ->
  json res = Some (JObj document) ->
  let token := lookup (lit "access_token") document in
  exists fetched s' l,
    allCampuses fuel s = (Ok (Some fetched), s')
    /\ trace s' = trace s ++ oauth_call :: l
    /\ (converts token = false -> l = [] /\ fetched = [])
    /\ (printable token = true ->
        exists k : nat,
          (1 <= k <= 10)%nat
          /\ l = map (fun i => campus_page token (Z.of_nat i)) (seq 1 k)).
Proof.
  intros Hfuel Hres Hjson token.
  unfold allCampuses, getToken, bind at 1 2 3, fetch. rewrite Hres.
  unfold res_json. rewrite Hjson. unfold ret at 1, lift. cbn [get]. fold token.
  match goal with
  | |- context [fetch_pages fuel token 1 [] ?s1] => set (after := s1)
  end.
  assert (Hafter : trace after = trace s ++ [oauth_call]) by reflexivity.
  destruct (converts token) eqn:Hconverts.
  - assert (Hto : to_string token = Ok (ToString token))
      by (unfold to_string; now rewrite Hconverts).
    destruct (fetch_pages_run token (ToString token) fuel Hto 1 [] after)
      as (k & fetched & s' & E & Hk1 & Hk & Ht & _); [lia | lia |].
    rewrite (pages_from_1 (fun p => GET (campus_url p)
                                        (lit "Bearer " ++ ToString token))) in Ht.
    eexists fetched, s', _. split; [exact E|].
    split; [rewrite Ht, Hafter, <- app_assoc; reflexivity|].
    split; [discriminate|]. intros _. exists k. split; [lia | reflexivity].
  - destruct fuel as [|fuel]; [lia|]. rewrite fetch_pages_stop by assumption.
    exists [], (logged TypeError after), []. split; [reflexivity|].
    split; [cbn [logged trace]; exact Hafter|].
    split; [now intros _|].
    intros Hp. apply printable_converts in Hp. congruence.
Qed.

(** *** Grouping by country *)











Lemma get_throws (x : JsVal) (k : string) (e : Exn) : get x k = Throw e -> e = TypeError.
Proof. destruct x; cbn [get]; intros E; try discriminate E; now injection E as <-. Qed.

Lemma reduce_aborts (campuses : list JsVal) (campus : JsVal) (key : jsstring) :
  In campus campuses ->
  country_key campus = Ok key -> is_inherited key = true ->
  forall acc, reduce campuses acc = Throw TypeError.
Proof.
  intros Hin Ekey Hinh.
  induction campuses as [|c rest IH]; intros acc; [contradiction|].
  cbn [reduce]. unfold group_campus.
  destruct (country_key c) as [k|e] eqn:Ek; cbn [res_bind].
  - destruct (is_inherited k) eqn:Hk; cbn [res_bind]; [reflexivity|].
    destruct Hin as [->|Hin]; [congruence|]. now apply IH.
  - unfold country_key in Ek. destruct (get c "country") eqn:Eg; cbn [res_bind] in Ek;
      [discriminate|]. injection Ek as <-. now rewrite (get_throws _ _ _ Eg).
Qed.

(** X23.  A campus whose country is the name of a member every object
    inherits ([constructor], [toString], [__proto__], ...) aborts the
    grouping with a [TypeError], whatever the other campuses are: under
    such a key the accumulator already holds something that is not an
    array. *)
Theorem inherited_country_aborts_the_grouping
    (campuses : list JsVal) (campus : JsVal) (key : jsstring) :
  In campus campuses ->
  country_key campus = Ok key ->
  is_inherited key = true ->
  campusesByCountry campuses = Throw TypeError.
Proof.
  intros Hin Ekey Hinh. now apply (reduce_aborts campuses campus key).
Qed.

End Server.

(* ------------------------------------------------------------------------- *)
(** ** The claims on concrete runs *)

Local Abbreviation client := (lit "client").
Local Abbreviation secret := (lit "secret").
Local Abbreviation serve upstream :=
  (handleRequest client secret stringify_stub not_numeric upstream).
Local Abbreviation token_from upstream :=
  (getAccessToken client secret not_numeric upstream).

(** C4 (the code departs from the claim).  The claim: a freshly fetched
    token is stored with expiry now + [expires_in] - 60 s, and once that
    expiry has passed the next call makes a new exchange.  When the exchange
    answers [expires_in: 60], the lifetime handed to node-cache is 0, which
    it reads as "no expiry": the entry is stored with [t = 0] and every
    later call, at whatever time, is a cache hit that makes no exchange. *)
Theorem token_expiring_in_60s_never_expires :
  exists s1,
    token_from (granting 60 (JArr [])) fresh = (Ok (jstr "tok"), s1)
    /\ trace s1 = [oauth_call client secret]
    /\ tokenCache s1 = Some {| t := Fin 0; v := jstr "tok" |}
    /\ forall later,
        token_from (granting 60 (JArr [])) (at_time later s1)
        = (Ok (jstr "tok"), at_time later s1).
Proof.
  eexists. split; [vm_compute; reflexivity|].
  split; [reflexivity|]. split; [reflexivity|].
  intros later.
  apply (getAccessToken_still_valid client secret not_numeric (granting 60 (JArr []))
           _ {| t := Fin 0; v := jstr "tok" |} later); reflexivity.
Qed.

(** The same exchange with [expires_in: 7200]: expiry is 7140 s after the
    exchange, the token is served until then and exchanged anew after. *)
Example token_expiring_in_7200s :
  exists s1,
    token_from (granting 7200 (JArr [])) fresh = (Ok (jstr "tok"), s1)
    /\ now s1 = 1700000000120
    /\ tokenCache s1 = Some {| t := Fin (1700000000120 + 7140 * 1000); v := jstr "tok" |}
    /\ trace (snd (token_from (granting 7200 (JArr [])) (at_time 1700007140120 s1)))
       = [oauth_call client secret]
    /\ trace (snd (token_from (granting 7200 (JArr [])) (at_time 1700007140121 s1)))
       = [oauth_call client secret; oauth_call client secret].
Proof. eexists. split; [vm_compute; reflexivity|]. repeat split. Qed.

(** C2, counterexample.  The valid request
    [{"jsonrpc":"2.0","method":"initialize"}] has no id; the specification
    expects [null] on the response, the response carries [undefined]. *)
Lemma absent_id_is_not_answered_with_null :
  let req := obj [("jsonrpc", jstr "2.0"); ("method", jstr "initialize")] in
  ~ (forall resp s',
        serve (granting 7200 (JArr [])) req fresh = (Ok resp, s') ->
        member "id" resp = spec_response_id (member "id" req)).
Proof.
  intros req H.
  specialize (H (result_response initialize_result JUndefined) fresh eq_refl).
  discriminate H.
Qed.

(** C2, witness: a valid request, an invalid one with a truthy id, an
    invalid one with a [null] id. *)
Lemma response_id_witness :
  (exists resp s',
      serve (granting 7200 (JArr [])) scenario_B fresh = (Ok resp, s')
      /\ member "id" resp = JNum 2)
  /\ (exists resp s',
        serve unauthorized (request "1.0" "initialize" (obj []) (jstr "a")) fresh
        = (Ok resp, s')
        /\ member "id" resp = jstr "a")
  /\ (exists resp s',
        serve unauthorized (request "1.0" "initialize" (obj []) JNull) fresh
        = (Ok resp, s')
        /\ member "id" resp = JNull).
Proof.
  split; [|split].
  - destruct (response_id client secret stringify_stub not_numeric
                (granting 7200 (JArr [])) scenario_B fresh eq_refl)
      as (resp & s' & E & H & _).
    exists resp, s'. split; [exact E | exact (H eq_refl)].
  - destruct (response_id client secret stringify_stub not_numeric unauthorized
                (request "1.0" "initialize" (obj []) (jstr "a")) fresh eq_refl)
      as (resp & s' & E & _ & H & _).
    exists resp, s'. split; [exact E | exact (H eq_refl eq_refl)].
  - destruct (response_id client secret stringify_stub not_numeric unauthorized
                (request "1.0" "initialize" (obj []) JNull) fresh eq_refl)
      as (resp & s' & E & _ & _ & H).
    exists resp, s'. split; [exact E | exact (H eq_refl eq_refl)].
Defined.

(** C3, witness: scenario D.  The OAuth endpoint answers 401; scenario B is
    answered with -32603, and the process keeps answering. *)
Lemma failure_containment_witness :
  exists s',
    serve unauthorized scenario_B fresh
    = (Ok (error_response (-32603) "Internal error" (JNum 2)), s')
    /\ forall req', nullish req' = false ->
                    exists resp' s'', serve unauthorized req' s' = (Ok resp', s'').
Proof.
  destruct (failure_containment client secret stringify_stub not_numeric unauthorized
              scenario_B fresh eq_refl eq_refl) as (_ & _ & H).
  exact (H (jstr "searchUsers") eq_refl eq_refl eq_refl eq_refl eq_refl).
Defined.

(** C5, witness: scenario C (an unknown tool) and an unknown method. *)
Lemma method_not_found_witness :
  serve unauthorized
    (request "2.0" "tools/call" (call_params "doesNotExist" (obj [])) (JNum 3)) fresh
  = (Ok (error_response (-32601) "Method not found" (JNum 3)), fresh)
  /\ serve unauthorized (request "2.0" "resources/read" (obj []) (jstr "r1")) fresh
     = (Ok (error_response (-32601) "Method not found" (jstr "r1")), fresh).
Proof.
  split.
  - apply (method_not_found client secret stringify_stub not_numeric unauthorized
             (request "2.0" "tools/call" (call_params "doesNotExist" (obj [])) (JNum 3))
             (jstr "doesNotExist") fresh eq_refl eq_refl).
    left. repeat split.
  - apply (method_not_found client secret stringify_stub not_numeric unauthorized
             (request "2.0" "resources/read" (obj []) (jstr "r1"))
             JUndefined fresh eq_refl eq_refl).
    right. reflexivity.
Defined.

(** C7, witness: scenario B against an upstream that grants a token and
    answers the search with one user. *)
Lemma searchUsers_scenario_witness :
  let users := JArr [obj [("login", jstr "jdoe")]] in
  exists s',
    serve (granting 7200 users) scenario_B fresh
    = (Ok (text_response (stringify_stub users) (JNum 2)), s')
    /\ filter is_GET (new_calls fresh s')
       = [GET (lit "https://api.intra.42.fr/v2/users?filter[login]=jd&page[size]=5")
              (lit "Bearer tok")].
Proof.
  intros users.
  destruct (searchUsers_scenario client secret stringify_stub not_numeric
              (granting 7200 users) fresh
              (snd (token_from (granting 7200 users) fresh))
              (jstr "tok") users
              {| status := 200; text := lit "(document)"; json := Some users |}
              eq_refl eq_refl eq_refl eq_refl) as (s' & E & _ & Hgets).
  exists s'. split; [exact E | exact Hgets].
Defined.


(** C9, counterexample.  [params] is the number 5, which is not an object;
    the claim expects -32603, the answer is not that. *)
Lemma number_params_is_not_an_internal_error :
  let req := request "2.0" "tools/call" (JNum 5) (JNum 7) in
  is_object (member "params" req) = false
  /\ ~ (forall resp s',
          serve unauthorized req fresh = (Ok resp, s') ->
          resp = error_response (-32603) "Internal error" (JNum 7)).
Proof.
  intros req. split; [reflexivity|]. intros H.
  specialize (H (error_response (-32601) "Method not found" (JNum 7)) fresh eq_refl).
  discriminate H.
Qed.

(** C9, witness: [params] absent, and [params] the number 5. *)
Lemma params_destructuring_witness :
  serve unauthorized
    (obj [("jsonrpc", jstr "2.0"); ("method", jstr "tools/call"); ("id", JNum 7)]) fresh
  = (Ok (error_response (-32603) "Internal error" (JNum 7)), logged TypeError fresh)
  /\ serve unauthorized (request "2.0" "tools/call" (JNum 5) (JNum 7)) fresh
     = (Ok (error_response (-32601) "Method not found" (JNum 7)), fresh).
Proof.
  split.
  - exact (proj1 (params_destructuring client secret stringify_stub not_numeric
                    unauthorized
                    (obj [("jsonrpc", jstr "2.0"); ("method", jstr "tools/call");
                          ("id", JNum 7)])
                    fresh eq_refl eq_refl eq_refl) eq_refl).
  - exact (proj2 (params_destructuring client secret stringify_stub not_numeric
                    unauthorized (request "2.0" "tools/call" (JNum 5) (JNum 7))
                    fresh eq_refl eq_refl eq_refl)
                 eq_refl eq_refl eq_refl).
Defined.

(** C10, witness: an explicit [cursusId] of 0, answered with level 7. *)
Lemma getCursusLevel_falsy_cursusId_witness :
  let args := obj [("userId", JNum 5); ("cursusId", JNum 0)] in
  let req := request "2.0" "tools/call" (call_params "getCursusLevel" args) (JNum 4) in
  let up := granting 7200 (JArr [obj [("level", JNum 7)]]) in
  exists resp s',
    serve up req fresh = (Ok resp, s')
    /\ filter is_GET (new_calls fresh s')
       = [GET (lit "https://api.intra.42.fr/v2/users/5/cursus_users?filter[cursus_id]=21")
              (lit "Bearer tok")]
    /\ resp = text_response (lit "Level 7 in cursus 21") (JNum 4).
Proof.
  intros args req up.
  destruct (getCursusLevel_falsy_cursusId client secret stringify_stub not_numeric up
              req args (JNum 5) (JNum 0) (jstr "tok") fresh
              (snd (token_from up fresh))
              eq_refl eq_refl eq_refl eq_refl eq_refl eq_refl eq_refl eq_refl eq_refl
              eq_refl)
    as (resp & s' & E & _ & Hgets & Hread & _).
  exists resp, s'. split; [exact E | split; [exact Hgets|]].
  destruct (Hread {| status := 200; text := lit "(document)";
                     json := Some (JArr [obj [("level", JNum 7)]]) |}
                  (JArr [obj [("level", JNum 7)]]) (JNum 1)
                  eq_refl eq_refl eq_refl eq_refl) as [_ Hlevel].
  exact (Hlevel eq_refl (obj [("level", JNum 7)]) (JNum 7) eq_refl eq_refl eq_refl).
Defined.

Example getCursusLevel_cursusId_0 :
  fst (serve (granting 7200 (JArr [obj [("level", JNum 7)]]))
         (request "2.0" "tools/call"
            (call_params "getCursusLevel" (obj [("userId", JNum 5); ("cursusId", JNum 0)]))
            (JNum 4))
         fresh)
  = Ok (text_response (lit "Level 7 in cursus 21") (JNum 4)).
Proof. vm_compute. reflexivity. Qed.

(** C6, counterexample.  The descriptor of [searchUsers] advertises
    [minLength: 2] for [query]; the one-character query ["j"] violates it,
    and the call is not rejected: the query goes upstream and the response
    is a result. *)
Lemma short_query_is_not_rejected :
  let args := obj [("query", jstr "j")] in
  let req := request "2.0" "tools/call" (call_params "searchUsers" args) (JNum 3) in
  member "name" (nth 0 tools JUndefined) = jstr "searchUsers"
  /\ satisfies (member "inputSchema" (nth 0 tools JUndefined)) args = false
  /\ ~ (forall resp s',
          serve (granting 7200 (JArr [])) req fresh = (Ok resp, s') ->
          has_member "error" resp = true).
Proof.
  intros args req. split; [reflexivity | split; [reflexivity|]]. intros H.
  assert (Habs : has_member "error"
                   (text_response (stringify_stub (JArr [])) (JNum 3)) = true).
  { apply (H _ (snd (serve (granting 7200 (JArr [])) req fresh))).
    vm_compute. reflexivity. }
  discriminate Habs.
Qed.

(** C6, witness for the unvalidated query: the one-character query is in
    the GET. *)
Lemma advertised_tools_are_accepted_unvalidated_witness :
  exists r s',
    tools_call client secret stringify_stub not_numeric (granting 7200 (JArr []))
      (jstr "searchUsers") (obj [("query", jstr "j")]) (JNum 3) fresh = (r, s')
    /\ trace s'
       = [oauth_call client secret;
          GET (lit "https://api.intra.42.fr/v2/users?filter[login]=j&page[size]=5")
              (lit "Bearer tok")].
Proof.
  exact (proj2 (proj2 (proj2 (advertised_tools_are_accepted_unvalidated client secret
                                stringify_stub not_numeric (granting 7200 (JArr [])))))
           (lit "j") (lit "j") (obj [("query", jstr "j")]) (JNum 3) (jstr "tok") fresh
           (snd (token_from (granting 7200 (JArr [])) fresh))
           eq_refl eq_refl eq_refl).
Defined.

(* ------------------------------------------------------------------------- *)
(** ** Further checks of the embedding *)

(** Scenario A of the specification. *)
Example scenario_A :
  serve unauthorized (request "2.0" "initialize" (obj []) (JNum 1)) fresh
  = (Ok (result_response initialize_result (JNum 1)), fresh)
  /\ member "protocolVersion" initialize_result = jstr "2024-11-05"
  /\ member "name" (member "serverInfo" initialize_result) = jstr "42-api-server".
Proof. repeat split. Qed.

(** A body of [null] is not answered by [handleRequest]: it throws. *)
Example null_body_throws :
  serve unauthorized JNull fresh = (Throw TypeError, fresh).
Proof. reflexivity. Qed.

(** An unpaired surrogate in the query is a [URIError], contained as
    -32603 before any call is made. *)
Example unpaired_surrogate_query :
  serve (granting 7200 (JArr []))
    (request "2.0" "tools/call"
       (call_params "searchUsers" (obj [("query", JStr [106; 55357]%N)])) (JNum 9))
    fresh
  = (Ok (error_response (-32603) "Internal error" (JNum 9)), logged URIError fresh).
Proof. reflexivity. Qed.

(** A registered tool that the manual dispatcher does not know. *)
Example getAccreditations_is_not_dispatched :
  In "getAccreditations" registeredTools
  /\ serve unauthorized
       (request "2.0" "tools/call" (call_params "getAccreditations" (obj [])) (JNum 5))
       fresh
     = (Ok (error_response (-32601) "Method not found" (JNum 5)), fresh).
Proof. split; [simpl; tauto | reflexivity]. Qed.

Example getProjects_path_example :
  getProjects_path not_numeric
    (obj [("cursusId", JNum 21); ("pageSize", JNum 250); ("sort", jstr "-id");
          ("filter", jstr "exam")])
  = Ok (lit "/v2/cursus/21/projects?page[size]=100&sort=-id&filter[exam]=true").
Proof. reflexivity. Qed.

Example getLocations_path_example :
  getLocations_path (obj [("campusId", JNum 26); ("host", jstr "c1r1 s1")])
  = Ok (lit "/v2/campus/26/locations?page[size]=100&filter[active]=true&filter[host]=c1r1%20s1").
Proof. reflexivity. Qed.

Example Encode_jd : Encode (lit "jd") = Ok (lit "jd").
Proof. reflexivity. Qed.

Example Encode_reserved : Encode (lit "a b&c/") = Ok (lit "a%20b%26c%2F").
Proof. reflexivity. Qed.

Example Encode_e_acute : Encode [233%N] = Ok (lit "%C3%A9").
Proof. reflexivity. Qed.

Example Encode_emoji : Encode [55357; 56832]%N = Ok (lit "%F0%9F%98%80").
Proof. reflexivity. Qed.

Example Encode_lone_surrogate : Encode [106; 55357]%N = Throw URIError.
Proof. reflexivity. Qed.

Example decimal_examples :
  decimal 21 = lit "21" /\ decimal 0 = lit "0" /\ decimal (-32603) = lit "-32603".
Proof. repeat split; reflexivity. Qed.

Example ToString_array :
  ToString (JArr [JNum 1; JNull; jstr "a"; JArr [JNum 2; JNum 3]]) = lit "1,,a,2,3".
Proof. reflexivity. Qed.

(* ------------------------------------------------------------------------- *)
(** ** The further properties on concrete runs *)

(** X1, witness: the exchange grants a token for 7200 s. *)
Lemma token_is_served_until_its_expiry_witness :
  exists s1,
    token_from (granting 7200 (JArr [])) fresh = (Ok (jstr "tok"), s1)
    /\ trace s1 = [oauth_call client secret]
    /\ tokenCache s1 = Some {| t := Fin 1700007140120; v := jstr "tok" |}
    /\ (forall time r' s',
          1700007140120 < time ->
          token_from (granting 7200 (JArr [])) (at_time time s1) = (r', s') ->
          trace s' = trace s1 ++ [oauth_call client secret]).
Proof.
  pose proof (token_is_served_until_its_expiry client secret not_numeric
                (granting 7200 (JArr [])) fresh
                {| status := 200; text := lit "(token)";
                   json := Some (token_document 7200) |}
                (token_document 7200) (jstr "tok") 7200
                eq_refl eq_refl eq_refl eq_refl eq_refl eq_refl eq_refl
                ltac:(lia) ltac:(discriminate) ltac:(reflexivity) eq_refl) as H.
  cbv zeta in H. destruct H as (E & Ht & Hc & _ & Hnext).
  eexists. split; [exact E|]. split; [exact Ht|]. split; [exact Hc | exact Hnext].
Defined.

(** X2, witness: the OAuth endpoint answers 401. *)
Lemma failed_exchange_is_not_cached_witness :
  exists s',
    token_from unauthorized fresh
    = (Throw (Error (lit "42 API oauth failure: 401 invalid_client")), s')
    /\ trace s' = [oauth_call client secret]
    /\ forall time r2 s2,
        token_from unauthorized (at_time time s') = (r2, s2) ->
        trace s2 = trace s' ++ [oauth_call client secret].
Proof.
  destruct (failed_exchange_is_not_cached client secret not_numeric unauthorized fresh
              {| status := 401; text := lit "invalid_client"; json := None |}
              eq_refl eq_refl eq_refl) as (s' & E & Ht & _ & Hnext).
  exists s'. split; [exact E|]. split; [exact Ht | exact Hnext].
Defined.

(** X3, witness: a token document without [expires_in]. *)
Lemma token_without_expires_in_is_kept_50_minutes_witness :
  exists s1,
    token_from (answering (obj [("access_token", jstr "tok")])) fresh
    = (Ok (jstr "tok"), s1)
    /\ tokenCache s1 = Some {| t := Fin 1700003000120; v := jstr "tok" |}.
Proof.
  pose proof (token_without_expires_in_is_kept_50_minutes client secret not_numeric
                (answering (obj [("access_token", jstr "tok")])) fresh
                {| status := 200; text := lit "(token)";
                   json := Some (obj [("access_token", jstr "tok")]) |}
                (obj [("access_token", jstr "tok")]) (jstr "tok")
                eq_refl eq_refl eq_refl eq_refl eq_refl eq_refl eq_refl) as H.
  cbv zeta in H. destruct H as (E & Hc & _).
  eexists. split; [exact E | exact Hc].
Defined.

(** X4, witness: a token granted for 30 s. *)
Lemma token_below_the_margin_is_never_reused_witness :
  exists s1,
    token_from (granting 30 (JArr [])) fresh = (Ok (jstr "tok"), s1)
    /\ forall time r' s',
        now s1 <= time ->
        token_from (granting 30 (JArr [])) (at_time time s1) = (r', s') ->
        trace s' = trace s1 ++ [oauth_call client secret].
Proof.
  pose proof (token_below_the_margin_is_never_reused client secret not_numeric
                (granting 30 (JArr [])) fresh
                {| status := 200; text := lit "(token)";
                   json := Some (token_document 30) |}
                (token_document 30) (jstr "tok") 30
                eq_refl eq_refl eq_refl eq_refl eq_refl eq_refl
                ltac:(lia) ltac:(reflexivity)) as H.
  cbv zeta in H. destruct H as (E & Hnext).
  eexists. split; [exact E | exact Hnext].
Defined.


(** X6, witness: scenario B. *)
Lemma at_most_one_exchange_and_one_GET_witness :
  exists l,
    trace (snd (serve (granting 7200 (JArr [])) scenario_B fresh)) = trace fresh ++ l
    /\ request_calls client secret l.
Proof.
  exact (at_most_one_exchange_and_one_GET client secret stringify_stub not_numeric
           (granting 7200 (JArr [])) scenario_B fresh _ _ (surjective_pairing _)).
Defined.

(** X7, witness: scenario B reaches the upstream. *)
Lemma only_known_tools_reach_the_upstream_witness :
  nullish scenario_B = false
  /\ is_str (member "jsonrpc" scenario_B) "2.0" = true
  /\ is_str (member "method" scenario_B) "tools/call" = true
  /\ exists name,
      get (member "params" scenario_B) "name" = Ok name /\ is_tool name = true.
Proof.
  apply (only_known_tools_reach_the_upstream client secret stringify_stub not_numeric
           (granting 7200 (JArr [])) scenario_B fresh _ _ (surjective_pairing _)).
  vm_compute. discriminate.
Defined.

(** X8, witness: scenario D, the failure is logged. *)
Lemma internal_errors_are_logged_witness :
  exists resp s',
    serve unauthorized scenario_B fresh = (Ok resp, s')
    /\ ((member "code" (member "error" resp) = JNum (-32603)
         /\ exists e, console s' = console fresh ++ [e])
        \/ (member "code" (member "error" resp) <> JNum (-32603)
            /\ console s' = console fresh)).
Proof.
  exact (internal_errors_are_logged client secret stringify_stub not_numeric
           unauthorized scenario_B fresh eq_refl).
Defined.

(** X9, witness: a query with a space. *)
Lemma searchUsers_query_is_escaped_witness :
  searchUsers_path (obj [("query", jstr "j d")])
  = Ok (lit "/v2/users?filter[login]=j%20d&page[size]=5")
  /\ exists e,
      lit "/v2/users?filter[login]=j%20d&page[size]=5"
      = lit "/v2/users?filter[login]=" ++ e ++ lit "&page[size]=5"
      /\ Forall (fun c => url_safe c = true) e
      /\ percent_decode e = Some (lit "j d").
Proof.
  split; [reflexivity|].
  refine (proj2 (searchUsers_query_is_escaped (obj [("query", jstr "j d")]) (lit "j d")
                   eq_refl _) _ eq_refl).
  repeat constructor.
Defined.


(** X12, witness: scenario B on the wire. *)
Lemma wire_envelope_witness :
  exists document s',
    mcp_endpoint client secret stringify_stub not_numeric (granting 7200 (JArr []))
      scenario_B fresh
    = (Ok (200, document), s')
    /\ member "id" document = JNum 2.
Proof.
  destruct (wire_envelope client secret stringify_stub not_numeric
              (granting 7200 (JArr [])) scenario_B fresh eq_refl eq_refl)
    as (document & s' & E & _ & _ & _ & Hid & _).
  exists document, s'. split; [exact E | exact (Hid eq_refl eq_refl)].
Defined.

(** X13, witness: [searchUsers] with a query the schema accepts. *)
Lemma manual_tools_call_agrees_with_registered_tool_witness :
  let up := granting 7200 (JArr []) in
  let args := obj [("query", jstr "jd")] in
  tools_call client secret stringify_stub not_numeric up (jstr "searchUsers") args
    (JNum 2) fresh
  = enveloped (JNum 2)
      (call_content client secret stringify_stub not_numeric up
         (registered_searchUsers_path args) fresh).
Proof.
  intros up args.
  refine (manual_tools_call_agrees_with_registered_tool client secret stringify_stub
            not_numeric up "searchUsers"
            [("query", zod (z_string (Some 2) (Some 30)) Required
                         (lit "Search query for user login"))]
            (fun input =>
               call_content client secret stringify_stub not_numeric up
                 (registered_searchUsers_path input))
            args args (JNum 2) fresh
            (or_introl eq_refl) eq_refl eq_refl eq_refl eq_refl).
Defined.

(** X14, witness: user 5 with [cursusId: 0]. *)
Lemma getCursusLevel_cursusId_0_is_replaced_by_the_default_witness :
  let fs := [(lit "userId", JNum 5); (lit "cursusId", JNum 0)] in
  getCursusLevel_path (JObj fs)
  = Ok (lit "/v2/users/5/cursus_users?filter[cursus_id]=21")
  /\ exists input,
      zod_parse [("userId", zod z_number Required (lit "42 user ID"));
                 ("cursusId", zod z_number (Default (JNum 21))
                                (lit "Cursus ID (default: 21 for 42cursus)"))]
                (JObj fs) = Some input
      /\ registered_getCursusLevel_path input
         = Ok (lit "/v2/users/5/cursus_users?filter[cursus_id]=0").
Proof.
  intros fs.
  destruct (getCursusLevel_cursusId_0_is_replaced_by_the_default fs 5 _
              eq_refl eq_refl eq_refl eq_refl) as (input & Hparse & _ & Hregistered & Hmanual).
  split; [exact Hmanual|]. exists input. split; [exact Hparse | exact Hregistered].
Defined.

(** X15, witness: [getAccreditations]. *)
Lemma registered_tools_outside_the_dispatcher_witness :
  tools_call client secret stringify_stub not_numeric unauthorized
    (jstr "getAccreditations") (obj []) (JNum 1) fresh
  = (Ok (error_response (-32601) "Method not found" (JNum 1)), fresh).
Proof.
  assert (Hregistered : In "getAccreditations" registeredTools)
    by (do 13 right; left; reflexivity).
  assert (Hmanual : ~ In "getAccreditations" tool_names)
    by (intros H; cbn in H; repeat (destruct H as [H|H]; [discriminate H|]); exact H).
  destruct (registered_tools_outside_the_dispatcher client secret stringify_stub
              not_numeric unauthorized "getAccreditations" (obj []) (JNum 1) fresh
              Hregistered Hmanual) as (_ & _ & _ & E).
  exact E.
Defined.

(** X16, witness: both revisions answer scenario B alike. *)
Lemma later_revision_extends_the_first_witness :
  first_handleRequest client secret stringify_stub not_numeric (granting 7200 (JArr []))
    scenario_B fresh
  = serve (granting 7200 (JArr [])) scenario_B fresh.
Proof.
  destruct (later_revision_extends_the_first client secret stringify_stub not_numeric
              (granting 7200 (JArr [])) scenario_B fresh) as (_ & _ & _ & H).
  apply H; [reflexivity | reflexivity |].
  intros _ name E. injection E as <-. reflexivity.
Defined.

(** X18, witness: reading [42://user/42]. *)
Lemma resource_is_answered_under_the_uri_asked_witness :
  let up := granting 7200 (obj [("login", jstr "jdoe")]) in
  exists r result s',
    In r (registered_resources client secret stringify_stub not_numeric up)
    /\ resource_uri r = Template "42://user/{id}"
    /\ readCallback r (obj [("id", jstr "42")]) fresh = (Ok result, s')
    /\ exists path data,
        apiRequest client secret not_numeric up path fresh = (Ok data, s')
        /\ result = contents (lit "42://user/42") (stringify_stub data).
Proof.
  intros up.
  eexists _, _, _. split; [left; reflexivity|]. split; [reflexivity|].
  split; [vm_compute; reflexivity|].
  refine (resource_is_answered_under_the_uri_asked client secret stringify_stub
            not_numeric up _ (lit "42") fresh _ _ (or_introl eq_refl) eq_refl).
Defined.

(** X19, witness: three campuses on two pages, and a token that does not
    convert to a string. *)
Lemma at_most_ten_pages_are_fetched_witness :
  (exists fetched s' (k : nat),
      fetch_pages (paged two_pages) 10 (jstr "tok") 1 [] fresh = (Ok (Some fetched), s')
      /\ (1 <= k <= 10)%nat
      /\ trace s' = map (fun i => campus_page (jstr "tok") (Z.of_nat i)) (seq 1 k))
  /\ (exists s',
        fetch_pages (paged two_pages) 10 (obj [("toString", JNum 1)]) 1 [] fresh
        = (Ok (Some []), s')
        /\ trace s' = []).
Proof.
  split.
  - destruct (at_most_ten_pages_are_fetched (paged two_pages) 10 (jstr "tok") fresh
                (le_n 10)) as (fetched & s' & l & E & Ht & _ & _ & _ & Hgo).
    destruct (Hgo eq_refl) as (k & Hk & ->).
    exists fetched, s', k. split; [exact E|]. split; [exact Hk | exact Ht].
  - destruct (at_most_ten_pages_are_fetched (paged two_pages) 10
                (obj [("toString", JNum 1)]) fresh (le_n 10))
      as (fetched & s' & l & E & Ht & _ & _ & Hstop & _).
    destruct (Hstop eq_refl) as [-> ->].
    exists s'. split; [exact E | exact Ht].
Defined.

(** X20, witness: the three campuses are collected with three GETs. *)
Lemma pages_are_collected_up_to_the_tenth_witness :
  exists s',
    fetch_pages (paged two_pages) 10 (jstr "tok") 1 [] fresh
    = (Ok (Some [campus 1 "Paris" "France"; campus 26 "Tokyo" "Japan";
                 campus 9 "Lyon" "France"]), s')
    /\ trace s' = [campus_page (jstr "tok") 1; campus_page (jstr "tok") 2;
                   campus_page (jstr "tok") 3].
Proof.
  refine (pages_are_collected_up_to_the_tenth (paged two_pages) 10 (jstr "tok")
            two_pages 2 fresh (le_n 10) eq_refl _ _ _ _).
  - intros tr time page H.
    assert (Hpage : page = 1 \/ page = 2 \/ page = 3 \/ page = 4 \/ page = 5
                    \/ page = 6 \/ page = 7 \/ page = 8 \/ page = 9 \/ page = 10)
      by lia.
    repeat (destruct Hpage as [-> | Hpage]); try subst page;
      eexists; (split; [reflexivity|]); split; reflexivity.
  - lia.
  - intros page H. assert (Hpage : page = 1 \/ page = 2) by lia.
    destruct Hpage as [-> | ->]; discriminate.
  - reflexivity.
Defined.

(** X21, witness: the exchange is refused with a 401, and page 1 is asked
    with [Bearer undefined]. *)
Lemma token_status_is_not_checked_witness :
  exists fetched s' (k : nat),
    allCampuses client secret refusing 10 fresh = (Ok (Some fetched), s')
    /\ (1 <= k <= 10)%nat
    /\ trace s' = oauth_call client secret
                  :: map (fun i => campus_page JUndefined (Z.of_nat i)) (seq 1 k).
Proof.
  destruct (token_status_is_not_checked client secret refusing 10 fresh
              {| status := 401; text := lit "(refused)";
                 json := Some (obj [("error", jstr "invalid_client")]) |}
              [(lit "error", jstr "invalid_client")] (le_n 10) eq_refl eq_refl)
    as (fetched & s' & l & E & Ht & _ & Hgo).
  destruct (Hgo eq_refl) as (k & Hk & ->).
  exists fetched, s', k. split; [exact E|]. split; [exact Hk | exact Ht].
Defined.


(** X23, witness: a campus whose country is [constructor]. *)
Lemma inherited_country_aborts_the_grouping_witness :
  campusesByCountry [campus 1 "Paris" "France"; campus 2 "Nowhere" "constructor"]
  = Throw TypeError.
Proof.
  exact (inherited_country_aborts_the_grouping
           [campus 1 "Paris" "France"; campus 2 "Nowhere" "constructor"]
           (campus 2 "Nowhere" "constructor") (lit "constructor")
           (or_intror (or_introl eq_refl)) eq_refl eq_refl).
Defined.
